(** * twoDB: a shallow embedding of the paged text store, the B+Tree index
    and the database facade, with the properties of the specification.

    Layout of the development:
    - [GoLib]: the functions of the Go standard library the program calls
      ([strings], [strconv], [fmt] verbs, [sort.SearchStrings],
      [bufio.Scanner] with [ScanLines]), on byte strings;
    - the storage package: [TextFileHandler] (FileHandler.go), the record
      sub-API of [Page] (Page.go), [BPlusTree] (BTree.go) and [Database]
      (Database.go);
    - the properties.

    Conventions.  A Go [string] is a Rocq [string] (a sequence of bytes).
    [uint] and [uint64] are 64-bit: values are [Z] in [0, 2^64) and the
    wrap-around of [++] is written out.  [int] results such as the one of
    [strings.Index] are [Z], with [-1] for "absent".  A Go function that
    returns [(T, error)] returns a [result T]; a run-time panic (index or
    slice out of range) is the third outcome [Panic].  The backing file is
    the field [File] of the handler; the operating system is assumed never
    to fail on create, read, truncate or write, so the I/O error branches
    of the source are not reachable in the model.  The mutexes are not
    modelled: every operation runs to completion on its own. *)

From Stdlib Require Import ZArith Lia Bool Ascii.
From stdpp Require Import gmap strings list sorting.

Local Open Scope Z_scope.

(* ===================================================================== *)
(** * The Go standard library, as far as the program uses it              *)
(* ===================================================================== *)

Module GoLib.

Definition byte_of (c : ascii) : N := Ascii.N_of_ascii c.

Definition len (s : string) : Z := Z.of_nat (String.length s).

(** ** Slicing: [s[:i]], [s[i:]] *)

Fixpoint take (n : nat) (s : string) : string :=
  match n, s with
  | S n', String c s' => String c (take n' s')
  | _, _ => ""
  end.

Fixpoint drop (n : nat) (s : string) : string :=
  match n, s with
  | S n', String _ s' => drop n' s'
  | _, _ => s
  end.

(** [s[:i]]; [None] is the run-time panic "slice bounds out of range". *)
Definition sliceTo (s : string) (i : Z) : option string :=
  if (0 <=? i) && (i <=? len s) then Some (take (Z.to_nat i) s) else None.

(** [s[i:]] *)
Definition sliceFrom (s : string) (i : Z) : option string :=
  if (0 <=? i) && (i <=? len s) then Some (drop (Z.to_nat i) s) else None.

(** ** [strings.HasPrefix], [strings.Index], [strings.LastIndex],
       [strings.Contains] *)

Fixpoint HasPrefix (s prefix : string) : bool :=
  match prefix with
  | "" => true
  | String p prefix' =>
      match s with
      | String c s' => if Ascii.eqb c p then HasPrefix s' prefix' else false
      | "" => false
      end
  end.

(** Offset of the first occurrence of [substr] in [s], counted from [i]. *)
Fixpoint indexFrom (i : nat) (s substr : string) : option nat :=
  if HasPrefix s substr then Some i
  else match s with
       | "" => None
       | String _ s' => indexFrom (S i) s' substr
       end.

Definition Index (s substr : string) : Z :=
  match indexFrom 0 s substr with
  | Some i => Z.of_nat i
  | None => -1
  end.

(** Offset of the last occurrence: the last position where [substr] is a
    prefix of the rest. *)
Fixpoint lastIndexFrom (i : nat) (s substr : string) : option nat :=
  let here := if HasPrefix s substr then Some i else None in
  match s with
  | "" => here
  | String _ s' =>
      match lastIndexFrom (S i) s' substr with
      | Some j => Some j
      | None => here
      end
  end.

Definition LastIndex (s substr : string) : Z :=
  match lastIndexFrom 0 s substr with
  | Some i => Z.of_nat i
  | None => -1
  end.

Definition Contains (s substr : string) : bool :=
  match indexFrom 0 s substr with Some _ => true | None => false end.

(** ** [strings.SplitN(s, sep, 2)], [strings.Split], [strings.Join],
       [strings.Replace(s, old, new, 1)] *)

(** The text before and after the first occurrence of [sep], if any. *)
Definition cut (s sep : string) : option (string * string) :=
  match indexFrom 0 s sep with
  | Some i => Some (take i s, drop (i + String.length sep) s)
  | None => None
  end.

(** [strings.SplitN(s, sep, 2)] for a non-empty [sep]. *)
Definition SplitN2 (s sep : string) : list string :=
  match cut s sep with
  | Some (a, b) => [a; b]
  | None => [s]
  end.

(** [strings.Split(s, sep)] for a one-byte separator: the pieces between
    the separators; an empty [s] gives one empty piece. *)
Fixpoint Split (s : string) (sep : ascii) : list string :=
  match s with
  | "" => [""]
  | String c s' =>
      if Ascii.eqb c sep then "" :: Split s' sep
      else match Split s' sep with
           | piece :: pieces => String c piece :: pieces
           | [] => [String c ""]
           end
  end.

Fixpoint Join (elems : list string) (sep : string) : string :=
  match elems with
  | [] => ""
  | [e] => e
  | e :: rest => e +:+ sep +:+ Join rest sep
  end.

(** [strings.Replace(s, old, new, 1)] for a non-empty [old]. *)
Definition Replace1 (s old new : string) : string :=
  match cut s old with
  | Some (a, b) => a +:+ new +:+ b
  | None => s
  end.

(** ** [strings.TrimSpace]

    White space is decided rune by rune ([unicode.IsSpace]) on the UTF-8
    decoding of the string: the six ASCII characters and U+0085, U+00A0,
    U+1680, U+2000..U+200A, U+2028, U+2029, U+202F, U+205F, U+3000.  A byte
    sequence that is not the canonical encoding of one of these decodes to
    another rune (or to the error rune) and stops the trimming. *)

Definition asciiSpace (b : N) : bool :=
  ((9 <=? b) && (b <=? 13) || (b =? 32))%N.

Definition space2 (b1 b2 : N) : bool :=
  ((b1 =? 194) && ((b2 =? 133) || (b2 =? 160)))%N.

Definition space3 (b1 b2 b3 : N) : bool :=
  ((b1 =? 225) && (b2 =? 154) && (b3 =? 128)
   || (b1 =? 226) && (b2 =? 128)
      && ((128 <=? b3) && (b3 <=? 138) || (b3 =? 168) || (b3 =? 169) || (b3 =? 175))
   || (b1 =? 226) && (b2 =? 129) && (b3 =? 159)
   || (b1 =? 227) && (b2 =? 128) && (b3 =? 128))%N.

Fixpoint TrimLeftSpace (s : string) : string :=
  match s with
  | "" => ""
  | String c1 s1 =>
      if asciiSpace (byte_of c1) then TrimLeftSpace s1
      else match s1 with
           | "" => s
           | String c2 s2 =>
               if space2 (byte_of c1) (byte_of c2) then TrimLeftSpace s2
               else match s2 with
                    | "" => s
                    | String c3 s3 =>
                        if space3 (byte_of c1) (byte_of c2) (byte_of c3)
                        then TrimLeftSpace s3 else s
                    end
           end
  end.

(** The same on the reversed string: the bytes of a rune come last first. *)
Fixpoint trimLeftSpaceRev (s : string) : string :=
  match s with
  | "" => ""
  | String c1 s1 =>
      if asciiSpace (byte_of c1) then trimLeftSpaceRev s1
      else match s1 with
           | "" => s
           | String c2 s2 =>
               if space2 (byte_of c2) (byte_of c1) then trimLeftSpaceRev s2
               else match s2 with
                    | "" => s
                    | String c3 s3 =>
                        if space3 (byte_of c3) (byte_of c2) (byte_of c1)
                        then trimLeftSpaceRev s3 else s
                    end
           end
  end.

Fixpoint rev (s : string) : string :=
  match s with
  | "" => ""
  | String c s' => rev s' +:+ String c ""
  end.

Definition TrimRightSpace (s : string) : string :=
  rev (trimLeftSpaceRev (rev s)).

Definition TrimSpace (s : string) : string :=
  TrimRightSpace (TrimLeftSpace s).

(** ** [fmt.Sprintf("%d", n)] for an unsigned integer

    At most twenty digits are ever needed for a 64-bit value. *)

Definition digitChar (d : Z) : ascii := Ascii.ascii_of_N (Z.to_N (48 + d)).

Fixpoint showDigits (fuel : nat) (n : Z) (acc : string) : string :=
  match fuel with
  | O => acc
  | S fuel' =>
      let acc' := String (digitChar (n mod 10)) acc in
      if n <? 10 then acc' else showDigits fuel' (n / 10) acc'
  end.

Definition FormatUint (n : Z) : string := showDigits 20 n "".

(** ** Reading numbers: [fmt.Sscanf(s, "%d", &x)], [strconv.ParseUint],
       [strconv.ParseBool] *)

Definition uintMax : Z := 2 ^ 64.

Definition wrap64 (n : Z) : Z := n mod uintMax.

Definition isDigit (c : ascii) : bool :=
  ((48 <=? byte_of c) && (byte_of c <=? 57))%N.

Definition digitVal (c : ascii) : Z := Z.of_N (byte_of c) - 48.

(** Value of a string of decimal digits, most significant first. *)
Fixpoint digitsValue (acc : Z) (s : string) : Z :=
  match s with
  | "" => acc
  | String c s' => digitsValue (acc * 10 + digitVal c) s'
  end.

(** The longest prefix of digits. *)
Fixpoint leadingDigits (s : string) : string :=
  match s with
  | "" => ""
  | String c s' => if isDigit c then String c (leadingDigits s') else ""
  end.

(** The scanner of [fmt] skips leading white space before a number, and
    gives up on a newline ([Sscanf] does not treat newlines as space). *)
Fixpoint skipSpace (s : string) : option string :=
  match s with
  | "" => Some ""
  | String c1 s1 =>
      if (byte_of c1 =? 10)%N then None
      else if asciiSpace (byte_of c1) then skipSpace s1
      else match s1 with
           | "" => Some s
           | String c2 s2 =>
               if space2 (byte_of c1) (byte_of c2) then skipSpace s2
               else match s2 with
                    | "" => Some s
                    | String c3 s3 =>
                        if space3 (byte_of c1) (byte_of c2) (byte_of c3)
                        then skipSpace s3 else Some s
                    end
           end
  end.

(** [fmt.Sscanf(s, "%d", &x)] with [x] a [uint] or [uint64]: [Some v] when
    a value is stored into [x], [None] when the scan fails and [x] keeps the
    value it had.  Text after the digits is left unread. *)
Definition SscanUint (s : string) : option Z :=
  match skipSpace s with
  | None => None
  | Some s1 =>
      let tok := leadingDigits s1 in
      match tok with
      | "" => None
      | _ => let v := digitsValue 0 tok in
             if v <? uintMax then Some v else None
      end
  end.

(** The same with [x] an [int]: one optional sign before the digits. *)
Definition SscanInt (s : string) : option Z :=
  match skipSpace s with
  | None => None
  | Some s1 =>
      let '(neg, s2) :=
        match s1 with
        | String c s' =>
            if (byte_of c =? 45)%N then (true, s')
            else if (byte_of c =? 43)%N then (false, s')
            else (false, s1)
        | "" => (false, s1)
        end in
      let tok := leadingDigits s2 in
      match tok with
      | "" => None
      | _ => let v := digitsValue 0 tok in
             if neg then (if v <=? 2 ^ 63 then Some (- v) else None)
             else (if v <? 2 ^ 63 then Some v else None)
      end
  end.

(** [v, _ := strconv.ParseUint(s, 10, 32)]: the value when the error is
    dropped.  The loop of [ParseUint] takes the bytes from the left: a byte
    that is not a digit ends it with 0 (a syntax error), and a value above
    [maxVal] ends it with [maxVal] (a range error) whatever follows.  The
    empty text is a syntax error, with 0.  The test [n >= cutoff] of the
    source guards the product in 64 bits and never holds here, where [n]
    stays within [maxVal], the largest 32-bit value. *)
Fixpoint parseUintLoop (maxVal n : Z) (s : string) : Z :=
  match s with
  | "" => n
  | String c s' =>
      if isDigit c then
        let n1 := n * 10 + digitVal c in
        if maxVal <? n1 then maxVal else parseUintLoop maxVal n1 s'
      else 0
  end.

Definition ParseUint32 (s : string) : Z := parseUintLoop (2 ^ 32 - 1) 0 s.

(** [b, _ := strconv.ParseBool(s)] *)
Definition ParseBool (s : string) : bool :=
  if decide (s = "1" \/ s = "t" \/ s = "T" \/ s = "TRUE" \/ s = "true"
             \/ s = "True") then true else false.

Definition FormatBool (b : bool) : string := if b then "true" else "false".

(** ** [sort.SearchStrings]: the binary search of [sort.Search] with the
       predicate [a[h] >= x] *)

Fixpoint searchLoop (fuel : nat) (a : list string) (x : string) (i j : nat)
  : nat :=
  match fuel with
  | O => i
  | S fuel' =>
      if (i <? j)%nat then
        let h := ((i + j) / 2)%nat in
        if String.leb x (nth h a "") then searchLoop fuel' a x i h
        else searchLoop fuel' a x (S h) j
      else i
  end.

Definition SearchStrings (a : list string) (x : string) : nat :=
  searchLoop (length a) a x 0 (length a).

(** ** [bufio.Scanner] with the default split function [ScanLines]

    The lines of the input, each without its terminating newline; a last
    line without newline counts when it is not empty. *)
Fixpoint rawLines (s : string) : list string :=
  match s with
  | "" => []
  | String c s' =>
      if (byte_of c =? 10)%N then "" :: rawLines s'
      else match rawLines s' with
           | l :: ls => String c l :: ls
           | [] => [String c ""]
           end
  end.

(** [ScanLines] drops one trailing carriage return of a line. *)
Fixpoint dropCR (l : string) : string :=
  match l with
  | "" => ""
  | String c l' =>
      match l' with
      | "" => if (byte_of c =? 13)%N then "" else l
      | String _ _ => String c (dropCR l')
      end
  end.

(** The scanner's buffer holds 64 KiB: a line that does not fit makes
    [Scan] return false with [Err() = ErrTooLong]. *)
Definition MaxScanTokenSize : Z := 65536.

Definition tooLong (l : string) : bool := MaxScanTokenSize <=? len l.

End GoLib.

Import GoLib.

(* ===================================================================== *)
(** * Outcomes of a call                                                  *)
(* ===================================================================== *)

(** The errors the package builds with [fmt.Errorf], one constructor per
    message, with the values the message prints; [ErrTooLong] is the one
    error [bufio.Scanner.Err] can report on a readable file. *)
Inductive error : Type :=
  | ErrInvalidPageID (PageID PageCount : Z)
      (* "Invalid PageID: %d, PageCount: %d" *)
  | ErrPageNotFound (PageID : Z)                (* "Page %d not found" *)
  | ErrTooLong                                  (* bufio.ErrTooLong *)
  | ErrNotADataPage                             (* "Not a Data Page" *)
  | ErrNotDataPage                              (* "Not a data page" *)
  | ErrRecordNotFoundOnPage (EntryIndex : Z)
      (* "Record not found on page: EntryIndex %d" *)
  | ErrRecordToDeleteNotFound (EntryIndex : Z)
      (* "Record to delete not found on page: EntryIndex %d" *)
  | ErrFindNonLeafRoot
      (* "cannot find in non-leaf root (not implemented)" *)
  | ErrDeleteNonLeafRoot
      (* "cannot delete from non-leaf root (not implemented)" *)
  | ErrKeyNotFoundForDeletion                   (* "key not found for deletion" *)
  | ErrRecordExists (ID : string)
      (* "record with ID '%s' already exists" *)
  | ErrRecordNotFound (ID : string)             (* "record with ID '%s' not found" *)
  | ErrUpdateNonExistent (ID : string).
      (* "cannot update non-existent record with ID '%s'" *)

Inductive result (A : Type) : Type :=
  | Ok (a : A)
  | Err (e : error)
  | Panic.
Arguments Ok {A} a.
Arguments Err {A} e.
Arguments Panic {A}.

(** The order in which [range] visits a Go map is not specified.  The
    development is parametric in it: any enumeration of the bindings. *)
Class MapRange : Type := {
  mapRange : gmap string string -> list (string * string);
  mapRange_perm : forall m, mapRange m ≡ₚ map_to_list m
}.

(** One such order, for running the model. *)
Definition canonicalRange : MapRange :=
  {| mapRange := map_to_list;
     mapRange_perm := fun m => Permutation_refl (map_to_list m) |}.

(* ===================================================================== *)
(** * FileHandler.go                                                      *)
(* ===================================================================== *)

Definition NL : string := String (Ascii.ascii_of_N 10) "".

Record PageHeader : Type := {
  PageLSN : Z;
  PageID : Z;
  PageType : string
}.

Record Page : Type := {
  Header : PageHeader;
  Data : gmap string string
}.

(** The handler: [File] is the content of the backing file (the source
    reaches it through [File] and through [FilePath], the same file). *)
Record TextFileHandler : Type := {
  File : string;
  PageSize : Z;
  PageCount : Z;
  DeallocatedPages : list Z
}.

Definition HeaderSection : string := "# DATABASE HEADER".
Definition PageSection : string := "# PAGE".
Definition DefaultPageSize : Z := 4096.

(** A computation on the store: the outcome and the handler afterwards. *)
Definition M (A : Type) : Type := TextFileHandler -> result A * TextFileHandler.

Definition ret {A} (a : A) : M A := fun h => (Ok a, h).
Definition fail {A} (e : error) : M A := fun h => (Err e, h).
Definition panic {A} : M A := fun h => (Panic, h).
Definition bind {A B} (m : M A) (k : A -> M B) : M B :=
  fun h =>
    match m h with
    | (Ok a, h') => k a h'
    | (Err e, h') => (Err e, h')
    | (Panic, h') => (Panic, h')
    end.

Notation "'do' x <- m ; k" := (bind m (fun x => k))
  (at level 10, x name, m at level 100, k at level 200).
Notation "'do' ' pat <- m ; k" := (bind m (fun x => let 'pat := x in k))
  (at level 10, pat pattern, m at level 100, k at level 200).

Module TextFileHandler.

Definition setFile (h : TextFileHandler) (c : string) : TextFileHandler :=
  {| File := c; PageSize := PageSize h; PageCount := PageCount h;
     DeallocatedPages := DeallocatedPages h |}.
Definition setPageSize (h : TextFileHandler) (n : Z) : TextFileHandler :=
  {| File := File h; PageSize := n; PageCount := PageCount h;
     DeallocatedPages := DeallocatedPages h |}.
Definition setPageCount (h : TextFileHandler) (n : Z) : TextFileHandler :=
  {| File := File h; PageSize := PageSize h; PageCount := n;
     DeallocatedPages := DeallocatedPages h |}.
Definition setDeallocatedPages (h : TextFileHandler) (l : list Z)
  : TextFileHandler :=
  {| File := File h; PageSize := PageSize h; PageCount := PageCount h;
     DeallocatedPages := l |}.

(** The body of the loop of [LoadMetadata] on the switch over [Key]. *)
Definition loadKey (Key Value : string) (h : TextFileHandler)
  : TextFileHandler :=
  if decide (Key = "PAGESIZE") then
    match SscanInt Value with Some n => setPageSize h n | None => h end
  else if decide (Key = "PAGES") then
    match SscanUint Value with Some n => setPageCount h n | None => h end
  else if decide (Key = "DEALLOCATED_PAGES") then
    setDeallocatedPages h
      (DeallocatedPages h
       ++ map (fun Page => match SscanUint Page with Some n => n | None => 0 end)
              (Split Value ","))
  else h.

(** The loop of [LoadMetadata]; the boolean tells whether the scanner
    stopped on a line that is too long. *)
Fixpoint loadLoop (lines : list string) (InHeader : bool)
    (h : TextFileHandler) : TextFileHandler * bool :=
  match lines with
  | [] => (h, false)
  | raw :: rest =>
      if tooLong raw then (h, true)
      else
        let CurrentLine := dropCR raw in
        if decide (CurrentLine = HeaderSection) then loadLoop rest true h
        else if HasPrefix CurrentLine PageSection then (h, false)
        else if InHeader && negb (bool_decide (CurrentLine = "")) then
          match SplitN2 CurrentLine "=" with
          | [k; v] => loadLoop rest InHeader (loadKey (TrimSpace k) (TrimSpace v) h)
          | _ => loadLoop rest InHeader h
          end
        else loadLoop rest InHeader h
  end.

Definition LoadMetadata : M unit :=
  fun h =>
    match loadLoop (rawLines (File h)) false h with
    | (h', false) => (Ok tt, h')
    | (h', true) => (Err ErrTooLong, h')
    end.

Definition InitialContent : string :=
  HeaderSection +:+ NL +:+ "PAGESIZE=" +:+ FormatUint DefaultPageSize +:+ NL
  +:+ "ENCODING=UTF-8" +:+ NL +:+ "VERSION=1.0" +:+ NL +:+ "PAGES=0" +:+ NL +:+ NL.

(** [NewTextFileHandler]: [existing] is the content of the file at
    [FilePath], [None] when there is no such file. *)
Definition NewTextFileHandler (existing : option string)
  : result TextFileHandler :=
  let content := match existing with Some c => c | None => InitialContent end in
  let FileHandler :=
    {| File := content; PageSize := DefaultPageSize; PageCount := 0;
       DeallocatedPages := [] |} in
  match LoadMetadata FileHandler with
  | (Ok _, h) => Ok h
  | (Err e, _) => Err e
  | (Panic, _) => Panic
  end.

Definition PageIDMarker (PageID : Z) : string := "PageID: " +:+ FormatUint PageID.

Definition setLSN (p : Page) (n : Z) : Page :=
  {| Header := {| PageLSN := n; PageID := PageID (Header p);
                  PageType := PageType (Header p) |};
     Data := Data p |}.
Definition setType (p : Page) (t : string) : Page :=
  {| Header := {| PageLSN := PageLSN (Header p); PageID := PageID (Header p);
                  PageType := t |};
     Data := Data p |}.
Definition setData (p : Page) (d : gmap string string) : Page :=
  {| Header := Header p; Data := d |}.

(** The switch of [ReadPage] over the key of a line of the target page. *)
Definition readKey (Key Value : string) (p : Page) : Page :=
  if decide (Key = "LSN") then
    match SscanUint Value with Some n => setLSN p n | None => p end
  else if decide (Key = "Type") then setType p Value
  else if decide (Key = "PageID") then p
  else setData p (<[Key := Value]> (Data p)).

(** The loop of [ReadPage].  The result is [PageFound], the page built so
    far, and whether the scanner stopped on a line that is too long. *)
Fixpoint readLoop (marker : string) (lines : list string)
    (InTargetPage PageFound : bool) (p : Page) : bool * Page * bool :=
  match lines with
  | [] => (PageFound, p, false)
  | raw :: rest =>
      if tooLong raw then (PageFound, p, true)
      else
        let CurrentLine := dropCR raw in
        if HasPrefix CurrentLine PageSection && InTargetPage
        then (PageFound, p, false)                       (* break *)
        else
          let InTargetPage :=
            if HasPrefix CurrentLine PageSection then false else InTargetPage in
          let hit := Contains CurrentLine marker in
          let InTargetPage := if hit then true else InTargetPage in
          let PageFound := if hit then true else PageFound in
          if InTargetPage && negb (bool_decide (CurrentLine = "")) then
            match SplitN2 CurrentLine ": " with
            | [k; v] =>
                readLoop marker rest InTargetPage PageFound
                  (readKey (TrimSpace k) (TrimSpace v) p)
            | _ => readLoop marker rest InTargetPage PageFound p
            end
          else readLoop marker rest InTargetPage PageFound p
  end.

Definition ReadPage (id : Z) : M Page :=
  fun h =>
    if (id =? 0) || (PageCount h <? id)
    then (Err (ErrInvalidPageID id (PageCount h)), h)
    else
      let p := {| Header := {| PageLSN := 0; PageID := id; PageType := "" |};
                  Data := ∅ |} in
      match readLoop (PageIDMarker id) (rawLines (File h)) false false p with
      | (false, _, _) => (Err (ErrPageNotFound id), h)
      | (true, p', false) => (Ok p', h)
      | (true, _, true) => (Err ErrTooLong, h)
      end.

(** The text [WritePage] builds for a page: the section marker, the three
    header lines, one line per binding of [Data] in the order of [range]. *)
Definition dataLine (kv : string * string) : string :=
  fst kv +:+ ": " +:+ snd kv +:+ NL.

Fixpoint concatLines (ls : list string) : string :=
  match ls with
  | [] => ""
  | l :: ls' => l +:+ concatLines ls'
  end.

Definition PageContent `{MapRange} (p : Page) : string :=
  PageSection +:+ NL
  +:+ "PageID: " +:+ FormatUint (PageID (Header p)) +:+ NL
  +:+ "LSN: " +:+ FormatUint (PageLSN (Header p)) +:+ NL
  +:+ "Type: " +:+ PageType (Header p) +:+ NL
  +:+ concatLines (map dataLine (mapRange (Data p))).

(** The new content of the file: the section that holds the first
    occurrence of the marker is replaced, or the page is appended.  [None]
    is the panic of a slice expression out of range. *)
Definition replacePage (FileContent NewPageContent marker : string)
  : option string :=
  let StartIndex := Index FileContent marker in
  if negb (StartIndex =? -1) then
    before ← sliceTo FileContent StartIndex;
    let StartIndex := LastIndex before PageSection in
    rest ← sliceFrom FileContent (StartIndex + len PageSection);
    let EndIndex := Index rest PageSection in
    if negb (EndIndex =? -1) then
      let EndIndex := EndIndex + (StartIndex + len PageSection) in
      head ← sliceTo FileContent StartIndex;
      tail ← sliceFrom FileContent EndIndex;
      Some (head +:+ NewPageContent +:+ tail)
    else
      head ← sliceTo FileContent StartIndex;
      Some (head +:+ NewPageContent)
  else Some (FileContent +:+ NL +:+ NewPageContent).

Definition WritePage `{MapRange} (p : Page) : M unit :=
  fun h =>
    let id := PageID (Header p) in
    match replacePage (File h) (PageContent p) (PageIDMarker id) with
    | None => (Panic, h)
    | Some FileContent =>
        if PageCount h <? id then
          let OldPageCountString := "PAGES=" +:+ FormatUint (PageCount h) in
          let NewPageCountString := "PAGES=" +:+ FormatUint id in
          (Ok tt,
           {| File := Replace1 FileContent OldPageCountString NewPageCountString;
              PageSize := PageSize h; PageCount := id;
              DeallocatedPages := DeallocatedPages h |})
        else (Ok tt, setFile h FileContent)
    end.

Definition newPage (id : Z) : Page :=
  {| Header := {| PageLSN := 0; PageID := id; PageType := "" |}; Data := ∅ |}.

Definition AllocatePage : M Page :=
  fun h =>
    match DeallocatedPages h with
    | id :: rest => (Ok (newPage id), setDeallocatedPages h rest)
    | [] =>
        let n := wrap64 (PageCount h + 1) in
        (Ok (newPage n), setPageCount h n)
    end.

End TextFileHandler.

(* ===================================================================== *)
(** * Page.go: the records of a data page                                 *)
(* ===================================================================== *)

Record Record_ : Type := {
  EntryIndex : Z;
  Fields : list string
}.

Module Page.

Import TextFileHandler.

Definition EntryKey (EntryIndex : Z) : string := "Entry-" +:+ FormatUint EntryIndex.

(** [AddRecord]: the index given to the record, and the page and the
    record as the call leaves them. *)
Definition AddRecord (self : Page) (r : Record_) : result (Z * Page * Record_) :=
  if decide (PageType (Header self) = "Data") then
    let EntryIndex0 :=
      match Data self !! "EntryIndex" with
      | Some EntryIndexString =>
          match SscanUint EntryIndexString with Some n => n | None => 0 end
      | None => 0
      end in
    let EntryIndex := wrap64 (EntryIndex0 + 1) in
    let d := <["EntryIndex" := FormatUint EntryIndex]> (Data self) in
    let d := <[EntryKey EntryIndex := Join (Fields r) "|"]> d in
    Ok (EntryIndex, setData self d,
        {| EntryIndex := EntryIndex; Fields := Fields r |})
  else Err ErrNotADataPage.

Definition GetRecord (self : Page) (EntryIndex : Z) : result Record_ :=
  if decide (PageType (Header self) = "Data") then
    match Data self !! EntryKey EntryIndex with
    | Some RecordString =>
        Ok {| EntryIndex := EntryIndex; Fields := Split RecordString "|" |}
    | None => Err (ErrRecordNotFoundOnPage EntryIndex)
    end
  else Err ErrNotDataPage.

Definition DeleteRecord (self : Page) (EntryIndex : Z) : result Page :=
  if decide (PageType (Header self) = "Data") then
    match Data self !! EntryKey EntryIndex with
    | Some _ => Ok (setData self (delete (EntryKey EntryIndex) (Data self)))
    | None => Err (ErrRecordToDeleteNotFound EntryIndex)
    end
  else Err ErrNotDataPage.

End Page.

(** Lifting an outcome that does not touch the store. *)
Definition lift {A} (r : result A) : M A := fun h => (r, h).

(* ===================================================================== *)
(** * BTree.go                                                            *)
(* ===================================================================== *)

Definition BTreeOrder : Z := 4.

(** The tree holds the id of its root page; its [FileHandler] is the
    handler the computation runs on (the database and its index share one
    handler). *)
Record BPlusTree : Type := {
  RootPageID : Z
}.

Record BTreeNode : Type := {
  NodePage : Page;
  IsLeaf : bool;
  Keys : list string;
  Children : list Z;
  Pointers : list string;
  NextLeaf : Z
}.

Module BPlusTree.

Import TextFileHandler.

(** [l[:i]] and [l[i:]] on a slice whose capacity is its length, as the
    slices [strings.Split] returns are; [None] is the panic. *)
Definition sliceToL {A} (l : list A) (i : nat) : option (list A) :=
  if (i <=? length l)%nat then Some (firstn i l) else None.
Definition sliceFromL {A} (l : list A) (i : nat) : option (list A) :=
  if (i <=? length l)%nat then Some (skipn i l) else None.

Definition readNode (pageID : Z) : M BTreeNode :=
  do Page <- ReadPage pageID;
  let field (k : string) : list string :=
    match Data Page !! k with
    | Some v => if decide (v = "") then [] else Split v ","
    | None => []
    end in
  ret {| NodePage := Page;
         IsLeaf := ParseBool (default "" (Data Page !! "IsLeaf"));
         Keys := field "Keys";
         Children := [];
         Pointers := field "Pointers";
         NextLeaf := 0 |}.

Definition nodeData (node : BTreeNode) : gmap string string :=
  <["Pointers" := Join (Pointers node) ","]>
    (<["Keys" := Join (Keys node) ","]>
       (<["IsLeaf" := FormatBool (IsLeaf node)]> (Data (NodePage node)))).

Definition writeNode `{MapRange} (node : BTreeNode) : M unit :=
  WritePage (setData (NodePage node) (nodeData node)).

Definition withKeysPointers (node : BTreeNode) (ks ps : list string)
  : BTreeNode :=
  {| NodePage := NodePage node; IsLeaf := IsLeaf node; Keys := ks;
     Children := Children node; Pointers := ps; NextLeaf := NextLeaf node |}.

Definition formatPointer (pageID entryIndex : Z) : string :=
  FormatUint pageID +:+ ":" +:+ FormatUint entryIndex.

Definition Insert `{MapRange} (tree : BPlusTree) (key : string)
    (pageID entryIndex : Z) : M unit :=
  do RootNode <- readNode (RootPageID tree);
  if IsLeaf RootNode && (Z.of_nat (length (Keys RootNode)) <? BTreeOrder - 1)
  then
    let pointer := formatPointer pageID entryIndex in
    let insertIndex := SearchStrings (Keys RootNode) key in
    let keys :=
      firstn insertIndex (Keys RootNode)
      ++ key :: skipn insertIndex (Keys RootNode) in
    match sliceToL (Pointers RootNode) insertIndex,
          sliceFromL (Pointers RootNode) insertIndex with
    | Some before, Some after =>
        writeNode (withKeysPointers RootNode keys (before ++ pointer :: after))
    | _, _ => panic
    end
  else ret tt.

(** Index of the first key equal to [key]. *)
Fixpoint findIndex (keys : list string) (key : string) (i : nat) : option nat :=
  match keys with
  | [] => None
  | k :: keys' => if decide (k = key) then Some i else findIndex keys' key (S i)
  end.

Definition Find (tree : BPlusTree) (key : string) : M (Z * Z) :=
  do Node <- readNode (RootPageID tree);
  if negb (IsLeaf Node) then fail ErrFindNonLeafRoot
  else
    match findIndex (Keys Node) key 0 with
    | Some i =>
        match Pointers Node !! i with
        | Some pointer =>
            match Split pointer ":" with
            | p0 :: p1 :: _ => ret (ParseUint32 p0, ParseUint32 p1)
            | _ => panic
            end
        | None => panic
        end
    | None => ret (0, 0)
    end.

Definition Delete `{MapRange} (tree : BPlusTree) (key : string) : M unit :=
  do Node <- readNode (RootPageID tree);
  if negb (IsLeaf Node) then fail ErrDeleteNonLeafRoot
  else
    match findIndex (Keys Node) key 0 with
    | Some foundIndex =>
        let keys :=
          firstn foundIndex (Keys Node) ++ skipn (S foundIndex) (Keys Node) in
        match sliceToL (Pointers Node) foundIndex,
              sliceFromL (Pointers Node) (S foundIndex) with
        | Some before, Some after =>
            writeNode (withKeysPointers Node keys (before ++ after))
        | _, _ => panic
        end
    | None => fail ErrKeyNotFoundForDeletion
    end.

(** [NewBPlusTree]: any error of [ReadPage(1)] is taken to mean that there
    is no root yet. *)
Definition NewBPlusTree `{MapRange} : M BPlusTree :=
  fun h =>
    match ReadPage 1 h with
    | (Ok RootPage, h') => (Ok {| RootPageID := PageID (Header RootPage) |}, h')
    | (Panic, h') => (Panic, h')
    | (Err _, h') =>
        (do RootPage <- AllocatePage;
         let RootPage := setType RootPage "Index" in
         let RootPage :=
           setData RootPage
             (<["Pointers" := ""]>
                (<["Keys" := ""]> (<["IsLeaf" := "true"]> (Data RootPage)))) in
         do _ <- WritePage RootPage;
         ret {| RootPageID := PageID (Header RootPage) |}) h'
    end.

End BPlusTree.

(* ===================================================================== *)
(** * Database.go                                                         *)
(* ===================================================================== *)

(** [FileHandler] and [Index.FileHandler] point to the same handler, the
    one the computation runs on. *)
Record Database : Type := {
  Index : BPlusTree
}.

Module Database.

Import TextFileHandler.

Definition OpenDatabase `{MapRange} (existing : option string)
  : result Database * option TextFileHandler :=
  match NewTextFileHandler existing with
  | Ok FileHandler =>
      match BPlusTree.NewBPlusTree FileHandler with
      | (Ok Index, h) => (Ok {| Index := Index |}, Some h)
      | (Err e, h) => (Err e, Some h)
      | (Panic, h) => (Panic, Some h)
      end
  | Err e => (Err e, None)
  | Panic => (Panic, None)
  end.

(** [pageID, _, _ := db.Index.Find(ID)]: an error of [Find] is dropped and
    leaves the zero value. *)
Definition findIgnoringError (db : Database) (ID : string) : M Z :=
  fun h =>
    match BPlusTree.Find (Index db) ID h with
    | (Ok (pageID, _), h') => (Ok pageID, h')
    | (Err _, h') => (Ok 0, h')
    | (Panic, h') => (Panic, h')
    end.

Definition Insert `{MapRange} (db : Database) (ID Data : string) : M unit :=
  do pageID <- findIgnoringError db ID;
  if negb (pageID =? 0) then fail (ErrRecordExists ID)
  else
    do DataPage <- AllocatePage;
    let DataPage := setType DataPage "Data" in
    let record := {| EntryIndex := 0; Fields := [ID; Data] |} in
    do '(EntryIndex, DataPage, _) <- lift (Page.AddRecord DataPage record);
    do _ <- WritePage DataPage;
    BPlusTree.Insert (Index db) ID (PageID (Header DataPage)) EntryIndex.

(** [Get]: [Ok None] is the pair of a nil record and a nil error. *)
Definition Get (db : Database) (ID : string) : M (option Record_) :=
  do '(PageID, EntryIndex) <- BPlusTree.Find (Index db) ID;
  if PageID =? 0 then ret None
  else
    do DataPage <- ReadPage PageID;
    do r <- lift (Page.GetRecord DataPage EntryIndex);
    ret (Some r).

Definition Delete `{MapRange} (db : Database) (ID : string) : M unit :=
  do '(PageID, EntryIndex) <- BPlusTree.Find (Index db) ID;
  if PageID =? 0 then fail (ErrRecordNotFound ID)
  else
    do DataPage <- ReadPage PageID;
    do DataPage <- lift (Page.DeleteRecord DataPage EntryIndex);
    do _ <- WritePage DataPage;
    BPlusTree.Delete (Index db) ID.

Definition Update `{MapRange} (db : Database) (ID NewData : string) : M unit :=
  do '(PageID, EntryIndex) <- BPlusTree.Find (Index db) ID;
  if PageID =? 0 then fail (ErrUpdateNonExistent ID)
  else
    do DataPage <- ReadPage PageID;
    do OldRecord <- lift (Page.GetRecord DataPage EntryIndex);
    match Fields OldRecord with
    | f0 :: _ :: fs =>
        let fields := f0 :: NewData :: fs in
        WritePage
          (setData DataPage
             (<[Page.EntryKey EntryIndex := Join fields "|"]> (Data DataPage)))
    | _ => panic
    end.

End Database.

(* ===================================================================== *)
(** * database/storage/Page.go: records, with [GetAllRecords]             *)
(* ===================================================================== *)

(** The file Page.go of the directory [database/storage]: [AddRecord]
    returns the error only, the entries are bound to "EntryIndex<n>", and
    there is [GetAllRecords].  A call returns its error on the left or its
    value on the right; [AddRecord] gives the page as the call leaves it. *)
Module StoragePage.

Import TextFileHandler.

Inductive error : Type :=
  | ErrNotADataPage                         (* "Not a Data Page" *)
  | ErrNotDataPage                          (* "Not a data page" *)
  | ErrRecordNotFound (EntryIndex : Z).     (* "Record not found: PageIndex %d" *)

Definition EntryKey (EntryIndex : Z) : string :=
  "EntryIndex" +:+ FormatUint EntryIndex.

(** The counter as [Sscanf] leaves it: 0 without the binding or when the
    scan fails. *)
Definition scanCounter (self : Page) : Z :=
  match Data self !! "EntryIndex" with
  | Some EntryIndexString =>
      match SscanUint EntryIndexString with Some n => n | None => 0 end
  | None => 0
  end.

Definition AddRecord (self : Page) (r : Record_) : error + Page :=
  if decide (PageType (Header self) = "Data") then
    let EntryIndex := wrap64 (scanCounter self + 1) in
    let d := <["EntryIndex" := FormatUint EntryIndex]> (Data self) in
    let d := <[EntryKey EntryIndex := Join (Fields r) "|"]> d in
    inr (setData self d)
  else inl ErrNotADataPage.

Definition GetRecord (self : Page) (EntryIndex : Z) : error + Record_ :=
  if decide (PageType (Header self) = "Data") then
    match Data self !! EntryKey EntryIndex with
    | Some RecordString =>
        inr {| EntryIndex := EntryIndex; Fields := Split RecordString "|" |}
    | None => inl (ErrRecordNotFound EntryIndex)
    end
  else inl ErrNotDataPage.

(** [GetAllRecords]: the loop runs [Index] from 1 while [Index < EntryIndex]
    and collects the entries that are bound. *)
Definition GetAllRecords (self : Page) : error + list Record_ :=
  if decide (PageType (Header self) = "Data") then
    let EntryIndex := scanCounter self in
    inr (omap (fun i : nat =>
                 let Index := Z.of_nat i in
                 match Data self !! EntryKey Index with
                 | Some RecordString =>
                     Some {| EntryIndex := Index; Fields := Split RecordString "|" |}
                 | None => None
                 end)
              (seq 1 (Z.to_nat EntryIndex - 1)))
  else inl ErrNotDataPage.

End StoragePage.

(* ===================================================================== *)
(** * Vocabulary of the properties                                        *)
(* ===================================================================== *)

(** The store [NewTextFileHandler] builds when there is no file yet. *)
Definition newStore : TextFileHandler :=
  {| File := TextFileHandler.InitialContent; PageSize := DefaultPageSize;
     PageCount := 0; DeallocatedPages := [] |}.

(** The tree [NewBPlusTree] returns on the new store: its root is page 1. *)
Definition rootTree : BPlusTree := {| RootPageID := 1 |}.

(** The store after [NewBPlusTree] on the new store. *)
Definition emptyTreeStore `{MapRange} : TextFileHandler :=
  snd (BPlusTree.NewBPlusTree newStore).

(** Operations on the index, and a run of them: the caller goes on after a
    call that fails. *)
Inductive op : Type :=
  | OpInsert (key : string) (pageID entryIndex : Z)
  | OpDelete (key : string).

Definition runOp `{MapRange} (tree : BPlusTree) (o : op) : M unit :=
  match o with
  | OpInsert key pageID entryIndex => BPlusTree.Insert tree key pageID entryIndex
  | OpDelete key => BPlusTree.Delete tree key
  end.

Fixpoint runOps `{MapRange} (tree : BPlusTree) (ops : list op)
    (h : TextFileHandler) : TextFileHandler :=
  match ops with
  | [] => h
  | o :: ops' => runOps tree ops' (snd (runOp tree o h))
  end.

(** Keys strictly ascending, each below its successor. *)
Fixpoint ascending (keys : list string) : Prop :=
  match keys with
  | [] => True
  | k :: keys' =>
      match keys' with
      | [] => True
      | k' :: _ => String.ltb k k' = true /\ ascending keys'
      end
  end.

(** Scenario A: the keys "a" .. "e", the i-th with the pointer (10+i, i). *)
Definition scenarioA : list op :=
  [OpInsert "a" 11 1; OpInsert "b" 12 2; OpInsert "c" 13 3;
   OpInsert "d" 14 4; OpInsert "e" 15 5].

(** The store of scenario A after the first three inserts, in the
    canonical order of [range]. *)
Definition fullStore : TextFileHandler :=
  runOps (H := canonicalRange) rootTree (firstn 3 scenarioA)
    (emptyTreeStore (H := canonicalRange)).

Definition nodeOf (r : result BTreeNode * TextFileHandler) : BTreeNode :=
  match fst r with
  | Ok node => node
  | _ => {| NodePage := TextFileHandler.newPage 0; IsLeaf := false; Keys := [];
            Children := []; Pointers := []; NextLeaf := 0 |}
  end.

Definition fullRoot : BTreeNode := nodeOf (BPlusTree.readNode 1 fullStore).

(** A store on which twelve pages were allocated and only the twelfth was
    written (a data page with one binding). *)
Fixpoint allocateMany (n : nat) (h : TextFileHandler) : Page * TextFileHandler :=
  match n with
  | O => (TextFileHandler.newPage 0, h)
  | S n' =>
      match TextFileHandler.AllocatePage (snd (allocateMany n' h)) with
      | (Ok p, h') => (p, h')
      | (_, h') => (TextFileHandler.newPage 0, h')
      end
  end.

Definition twelfthPage : Page :=
  TextFileHandler.setData
    (TextFileHandler.setType (fst (allocateMany 12 newStore)) "Data")
    {["k" := "v"]}.

Definition sparseStore : TextFileHandler :=
  snd (TextFileHandler.WritePage (H := canonicalRange) twelfthPage
         (snd (allocateMany 12 newStore))).

(** A file whose header lists page 2 as free. *)
Definition recycledFile : string :=
  HeaderSection +:+ NL +:+ "PAGESIZE=4096" +:+ NL +:+ "ENCODING=UTF-8" +:+ NL
  +:+ "VERSION=1.0" +:+ NL +:+ "PAGES=3" +:+ NL +:+ "DEALLOCATED_PAGES=2" +:+ NL
  +:+ NL.

Definition storeOf (r : result TextFileHandler) : TextFileHandler :=
  match r with
  | Ok h => h
  | _ => newStore
  end.

(** A page whose one value starts with a blank, and the store it is
    written to: the new store after one allocation. *)
Definition blankPage : Page :=
  {| Header := {| PageLSN := 0; PageID := 1; PageType := "Data" |};
     Data := {["k" := " v"]} |}.

Definition oneAllocated : TextFileHandler :=
  snd (TextFileHandler.AllocatePage newStore).

(** Whether a byte occurs in a string. *)
Fixpoint hasByte (c : ascii) (s : string) : bool :=
  match s with
  | "" => false
  | String x s' => Ascii.eqb x c || hasByte c s'
  end.

(** The newline byte. *)
Definition NLc : ascii := Ascii.ascii_of_N 10.

(** Whether every byte of a string passes a test. *)
Fixpoint allBytes (P : ascii -> bool) (s : string) : bool :=
  match s with
  | "" => true
  | String c s' => P c && allBytes P s'
  end.

(** The printable ASCII bytes other than the blank. *)
Definition plainByte (c : ascii) : bool :=
  ((33 <=? byte_of c) && (byte_of c <=? 126))%N.

(** ** Pages and files the text format carries

    A value is carried when [TrimSpace] keeps it and it holds no newline;
    a key, when in addition it holds no ": ", does not start like a section
    and is not one of the three header keys; a binding, when its line fits
    the buffer of the scanner. *)
Definition carriedValue (v : string) : Prop :=
  TrimSpace v = v /\ hasByte NLc v = false.

Definition carriedKey (k : string) : Prop :=
  TrimSpace k = k /\ hasByte NLc k = false /\ Contains k ": " = false
  /\ HasPrefix k PageSection = false
  /\ k <> "LSN" /\ k <> "Type" /\ k <> "PageID".

Definition carriedBinding (k v : string) : Prop :=
  carriedKey k /\ carriedValue v /\ len k + 2 + len v < MaxScanTokenSize.

Definition carriedPage (p : Page) : Prop :=
  0 < PageID (Header p) < uintMax
  /\ 0 <= PageLSN (Header p) < uintMax
  /\ carriedValue (PageType (Header p))
  /\ 6 + len (PageType (Header p)) < MaxScanTokenSize
  /\ map_Forall carriedBinding (Data p).

(** A text made of whole lines, and one whose lines the scanner delivers. *)
Definition endsLines (s : string) : Prop :=
  s = "" \/ exists s', s = s' +:+ NL.

Definition scannable (s : string) : Prop :=
  Forall (fun l => tooLong l = false) (rawLines s).

(** What may follow the text of a page in the file: nothing, the next
    section, or a blank line and the next section (the blank line
    [WritePage] puts before a section it appends). *)
Definition sectionEnd (post : string) : Prop :=
  post = ""
  \/ (exists post', post = PageSection +:+ NL +:+ post')
  \/ (exists post', post = NL +:+ PageSection +:+ NL +:+ post').

(** The same without that blank line. *)
Definition nextSection (post : string) : string :=
  match post with
  | String c r => if Ascii.eqb c NLc then r else post
  | "" => ""
  end.

(** The two states of a file [WritePage] is made for: the id line of the
    page occurs nowhere, or its first occurrence is the id line of a section
    that runs to the next section mark or to the end of the file. *)
Definition pageAbsent (c : string) (id : Z) : Prop :=
  Contains c (TextFileHandler.PageIDMarker id) = false /\ scannable c.

Definition pageInPlace (c : string) (id : Z) : Prop :=
  exists pre old post,
    c = pre +:+ PageSection +:+ NL +:+ TextFileHandler.PageIDMarker id +:+ NL
        +:+ old +:+ post
    /\ endsLines pre /\ scannable pre
    /\ Contains pre (TextFileHandler.PageIDMarker id) = false
    /\ Contains old PageSection = false
    /\ (post = "" \/ exists post', post = PageSection +:+ NL +:+ post').

(** The line of a binding, without its newline. *)
Definition lineOf (kv : string * string) : string :=
  fst kv +:+ ": " +:+ snd kv.

(** One step of the loop of [ReadPage] on the payload. *)
Definition insertBinding (d : gmap string string) (kv : string * string)
  : gmap string string := <[fst kv := snd kv]> d.

(** A data page with one record. *)
Definition recordPage : Page :=
  {| Header := {| PageLSN := 7; PageID := 1; PageType := "Data" |};
     Data := {["Entry-1" := "user:1|John Doe"]} |}.

(** ** The root leaf and its abstract content

    Keys made of printable ASCII bytes, without blank and without comma,
    not empty, of at most 20000 bytes; pointers whose two numbers fit 32
    bits, as [Find] parses them. *)
Definition keyByte (c : ascii) : bool := plainByte c && negb (Ascii.eqb c ",").

Definition plainKey (k : string) : Prop :=
  k <> "" /\ allBytes keyByte k = true /\ len k <= 20000.

Definition pointerInRange (pe : Z * Z) : Prop :=
  (0 <= fst pe < 2 ^ 32) /\ (0 <= snd pe < 2 ^ 32).

(** An entry of the leaf: a key with the pointer inserted for it. *)
Definition pointerOf (e : string * (Z * Z)) : string :=
  BPlusTree.formatPointer (fst (snd e)) (snd (snd e)).

Definition insertAt {A} (i : nat) (x : A) (l : list A) : list A :=
  firstn i l ++ x :: skipn i l.

Definition removeAt {A} (i : nat) (l : list A) : list A :=
  firstn i l ++ skipn (S i) l.

(** The entries after an insert and after a delete, as the code places
    them. *)
Definition insertEntry (key : string) (pe : Z * Z)
    (es : list (string * (Z * Z))) : list (string * (Z * Z)) :=
  insertAt (SearchStrings (es.*1) key) (key, pe) es.

Definition deleteEntry (key : string) (es : list (string * (Z * Z)))
  : list (string * (Z * Z)) :=
  match BPlusTree.findIndex (es.*1) key 0 with
  | Some i => removeAt i es
  | None => es
  end.

Definition rootData (ks ps : list string) : gmap string string :=
  <["Pointers" := Join ps ","]>
    (<["Keys" := Join ks ","]> (<["IsLeaf" := "true"]> ∅)).

Definition rootPage (es : list (string * (Z * Z))) : Page :=
  {| Header := {| PageLSN := 0; PageID := 1; PageType := "Index" |};
     Data := rootData (es.*1) (map pointerOf es) |}.

Definition rootNode (es : list (string * (Z * Z))) : BTreeNode :=
  {| NodePage := rootPage es; IsLeaf := true; Keys := es.*1; Children := [];
     Pointers := map pointerOf es; NextLeaf := 0 |}.

(** The store holds the root leaf with the entries [es]: the file has the
    text of the root page behind lines without the id line of page 1, and
    ends there or goes on with another section. *)
Definition holdsLeaf `{MapRange} (h : TextFileHandler)
    (es : list (string * (Z * Z))) : Prop :=
  (exists pre post,
      File h = pre +:+ TextFileHandler.PageContent (rootPage es) +:+ post
      /\ endsLines pre /\ scannable pre
      /\ Contains pre (TextFileHandler.PageIDMarker 1) = false
      /\ sectionEnd post)
  /\ 1 <= PageCount h
  /\ NoDup (es.*1) /\ ascending (es.*1)
  /\ Forall plainKey (es.*1) /\ Forall pointerInRange (es.*2)
  /\ (length es <= 3)%nat.

(** The same whatever the pointers are: their bound matters to [Find]
    alone, which parses them, not to the keys of the leaf. *)
Definition holdsKeys `{MapRange} (h : TextFileHandler)
    (es : list (string * (Z * Z))) : Prop :=
  (exists pre post,
      File h = pre +:+ TextFileHandler.PageContent (rootPage es) +:+ post
      /\ endsLines pre /\ scannable pre
      /\ Contains pre (TextFileHandler.PageIDMarker 1) = false
      /\ sectionEnd post)
  /\ 1 <= PageCount h
  /\ NoDup (es.*1) /\ ascending (es.*1)
  /\ Forall plainKey (es.*1)
  /\ (length es <= 3)%nat.

(** The index as a finite map, and the runs this development follows: an
    insert brings a plain key that is not in the index, with a pointer in
    range, while the leaf has room; a delete is free. *)
Definition applyOp (idx : gmap string (Z * Z)) (o : op) : gmap string (Z * Z) :=
  match o with
  | OpInsert key pageID entryIndex => <[key := (pageID, entryIndex)]> idx
  | OpDelete key => delete key idx
  end.

Definition applyOps (idx : gmap string (Z * Z)) (ops : list op)
  : gmap string (Z * Z) := foldl applyOp idx ops.

Definition admissible (idx : gmap string (Z * Z)) (o : op) : Prop :=
  match o with
  | OpInsert key pageID entryIndex =>
      plainKey key /\ idx !! key = None
      /\ Z.of_nat (size idx) < BTreeOrder - 1
      /\ pointerInRange (pageID, entryIndex)
  | OpDelete key => True
  end.

Fixpoint admissibleRun (idx : gmap string (Z * Z)) (ops : list op) : Prop :=
  match ops with
  | [] => True
  | o :: ops' => admissible idx o /\ admissibleRun (applyOp idx o) ops'
  end.

(** The index the code keeps along any run: an insert that meets a leaf of
    [BTreeOrder - 1] keys leaves the index as it is. *)
Definition keepOp (idx : gmap string (Z * Z)) (o : op) : gmap string (Z * Z) :=
  match o with
  | OpInsert key pageID entryIndex =>
      if decide (Z.of_nat (size idx) < BTreeOrder - 1)
      then <[key := (pageID, entryIndex)]> idx else idx
  | OpDelete key => delete key idx
  end.

Definition keepOps (idx : gmap string (Z * Z)) (ops : list op)
  : gmap string (Z * Z) := foldl keepOp idx ops.

(** The runs along which the order of the keys is followed: an insert
    brings a plain key that is not in the index; its pointer is free, and
    so is the number of keys the leaf holds at that time. *)
Definition fresh (idx : gmap string (Z * Z)) (o : op) : Prop :=
  match o with
  | OpInsert key _ _ => plainKey key /\ idx !! key = None
  | OpDelete key => True
  end.

Fixpoint freshRun (idx : gmap string (Z * Z)) (ops : list op) : Prop :=
  match ops with
  | [] => True
  | o :: ops' => fresh idx o /\ freshRun (keepOp idx o) ops'
  end.

(** The text of a page behind its section mark and its id line. *)
Definition pageBody `{MapRange} (p : Page) : string :=
  "LSN: " +:+ FormatUint (PageLSN (Header p)) +:+ NL
  +:+ "Type: " +:+ PageType (Header p) +:+ NL
  +:+ TextFileHandler.concatLines
        (map TextFileHandler.dataLine (mapRange (Data p))).

(** A page no line of which holds a section mark: its section can be
    found again and replaced. *)
Definition markFree (p : Page) : Prop :=
  Contains ("Type: " +:+ PageType (Header p)) PageSection = false
  /\ map_Forall (fun k v => Contains (lineOf (k, v)) PageSection = false) (Data p).

(** A run with a delete in the middle. *)
Definition mixedRun : list op :=
  [OpInsert "a" 11 1; OpInsert "b" 12 2; OpDelete "a"; OpInsert "c" 13 3;
   OpInsert "a" 21 7; OpDelete "zz"].

(** The entries of scenario A once the leaf is full. *)
Definition scenarioA_entries : list (string * (Z * Z)) :=
  [("a", (11, 1)); ("b", (12, 2)); ("c", (13, 3))].

(** The database [OpenDatabase] returns when there is no file yet. *)
Definition newDatabase : Database := {| Index := rootTree |}.

(** A page no line of which holds a given text. *)
Definition linesFree (pat : string) (p : Page) : Prop :=
  Contains (TextFileHandler.PageIDMarker (PageID (Header p))) pat = false
  /\ Contains ("LSN: " +:+ FormatUint (PageLSN (Header p))) pat = false
  /\ Contains ("Type: " +:+ PageType (Header p)) pat = false
  /\ map_Forall (fun k v => Contains (lineOf (k, v)) pat = false) (Data p).

(** The data page of scenario C. *)
Definition userPage : Page :=
  {| Header := {| PageLSN := 0; PageID := 2; PageType := "Data" |};
     Data := <["Entry-1" := "user:1|X"]> (<["EntryIndex" := "1"]> ∅) |}.

Definition userEntries : list (string * (Z * Z)) := [("user:1", (2, 1))].

(** The store of scenario C after the first insert: the header, the root
    leaf with the key, the data page. *)
Definition userStore `{MapRange} : TextFileHandler :=
  {| File := (TextFileHandler.InitialContent +:+ NL)
             +:+ TextFileHandler.PageContent (rootPage userEntries)
             +:+ TextFileHandler.PageContent userPage;
     PageSize := DefaultPageSize; PageCount := 2; DeallocatedPages := [] |}.

(* ===================================================================== *)
(** * Vocabulary of the further properties                                *)
(* ===================================================================== *)

(** ** Records of a data page *)

(** The fields [Join] and [Split] carry: at least one field, none with the
    separator. *)
Definition cleanFields (fs : list string) : Prop :=
  fs <> [] /\ Forall (fun f => hasByte "|" f = false) fs.

(** The page after the records are added one after the other. *)
Fixpoint addRecords (p : Page) (rs : list Record_) : result Page :=
  match rs with
  | [] => Ok p
  | r :: rs' =>
      match Page.AddRecord p r with
      | Ok (_, p', _) => addRecords p' rs'
      | Err e => Err e
      | Panic => Panic
      end
  end.

(** The counter of a data page: the number its binding "EntryIndex" reads
    as, 0 when there is none or when it does not scan. *)
Definition entryCounter (p : Page) : Z :=
  match Data p !! "EntryIndex" with
  | Some s => match SscanUint s with Some n => n | None => 0 end
  | None => 0
  end.

(** ** Allocation *)

(** The ids of [n] calls of [AllocatePage] in a row, and the handler after
    them. *)
Fixpoint allocateIDs (n : nat) (h : TextFileHandler) : list Z * TextFileHandler :=
  match n with
  | O => ([], h)
  | S n' =>
      match TextFileHandler.AllocatePage h with
      | (Ok p, h') =>
          let '(ids, h'') := allocateIDs n' h' in (PageID (Header p) :: ids, h'')
      | (_, h') => ([], h')
      end
  end.

(** ** The header of the file *)

(** A line "key=value" of the header. *)
Definition assign (k v : string) : string := k +:+ "=" +:+ v.

(** The header with a page size, a page count and, when [free] is given,
    the line of the deallocated pages: the ids in decimal, separated by
    commas, as [LoadMetadata] takes them apart. *)
Definition headerText (size count : Z) (free : option (list Z)) : string :=
  HeaderSection +:+ NL
  +:+ assign "PAGESIZE" (FormatUint size) +:+ NL
  +:+ assign "ENCODING" "UTF-8" +:+ NL
  +:+ assign "VERSION" "1.0" +:+ NL
  +:+ assign "PAGES" (FormatUint count) +:+ NL
  +:+ match free with
      | Some ids =>
          assign "DEALLOCATED_PAGES" (Join (FormatUint <$> ids) ",") +:+ NL
      | None => ""
      end
  +:+ NL.

(** What [LoadMetadata] makes of the line of the deallocated pages: an
    empty list of ids is one empty piece, which reads as the id 0. *)
Definition loadedFree (free : option (list Z)) : list Z :=
  match free with
  | None => []
  | Some [] => [0]
  | Some ids => ids
  end.

(** ** Records of a data page, in database/storage/Page.go *)

Fixpoint addAll (p : Page) (rs : list Record_) : StoragePage.error + Page :=
  match rs with
  | [] => inr p
  | r :: rs' =>
      match StoragePage.AddRecord p r with
      | inr p' => addAll p' rs'
      | inl e => inl e
      end
  end.

(** The record [GetRecord] and [GetAllRecords] build for the [i]-th record
    added (counted from 0). *)
Definition numbered (i : nat) (r : Record_) : Record_ :=
  {| EntryIndex := Z.of_nat i + 1; Fields := Fields r |}.

(** ** The file of a database

    The ids and the data [Database.Insert] can store and find again.  An
    id is a key of the index without the separator of the fields.  The
    data are printable ASCII with blanks, without that separator and without
    blank at either end, and hold neither a section mark nor the start of
    an id line; they are at most 40000 bytes long. *)
Definition recordKey (ID : string) : Prop :=
  plainKey ID /\ hasByte "|" ID = false.

Definition textByte (c : ascii) : bool :=
  ((32 <=? byte_of c) && (byte_of c <=? 126))%N && negb (Ascii.eqb c "|").

Definition recordData (d : string) : Prop :=
  allBytes textByte d = true /\ TrimSpace d = d
  /\ Contains d PageSection = false /\ Contains d "PageID: " = false
  /\ len d <= 40000.

(** The data page [Database.Insert] writes for a record, and what
    [Database.Delete] leaves of it: the counter without the entry. *)
Definition recordOf (id : Z) (rec : option (string * string)) : Page :=
  {| Header := {| PageLSN := 0; PageID := id; PageType := "Data" |};
     Data := match rec with
             | Some (ID, d) =>
                 <["Entry-1" := ID +:+ "|" +:+ d]> (<["EntryIndex" := "1"]> ∅)
             | None => <["EntryIndex" := "1"]> ∅
             end |}.

Definition wellFormedRecord (rec : option (string * string)) : Prop :=
  match rec with
  | Some (ID, d) => recordKey ID /\ recordData d
  | None => True
  end.

(** The sections behind the root leaf: the data pages 2, 3, ... in the
    order of their ids, each with its record (or without, once it is
    deleted) and with or without a blank line before its section mark. *)
Fixpoint dataArea `{MapRange} (id : Z)
    (secs : list (bool * option (string * string))) : string :=
  match secs with
  | [] => ""
  | (blank, rec) :: secs' =>
      (if blank then NL else "")
      +:+ TextFileHandler.PageContent (recordOf id rec) +:+ dataArea (id + 1) secs'
  end.

(** The file of a database: the header the program writes, the root leaf
    with its entries, the data pages. *)
Definition dbFile `{MapRange} (es : list (string * (Z * Z)))
    (secs : list (bool * option (string * string))) : string :=
  (TextFileHandler.InitialContent +:+ NL)
  +:+ TextFileHandler.PageContent (rootPage es) +:+ dataArea 2 secs.

(** A section that is replaced takes the blank line of the next one with
    it. *)
Definition unblank (secs : list (bool * option (string * string)))
  : list (bool * option (string * string)) :=
  match secs with
  | (_, rec) :: secs' => (false, rec) :: secs'
  | [] => []
  end.

(** The sections after the [i]-th data page is written again. *)
Definition putRecord (i : nat) (rec : option (string * string))
    (secs : list (bool * option (string * string)))
  : list (bool * option (string * string)) :=
  match secs !! i with
  | Some (blank, _) => firstn i secs ++ (blank, rec) :: unblank (skipn (S i) secs)
  | None => secs ++ [(true, rec)]
  end.

(** ** The database as a finite map

    The store holds the database [m], a map from ids to data: its file is
    the file of a database; no page is queued for reuse; the page count
    covers the root leaf and some of the data pages (after the file is
    opened again, not all of them); every key of the index has a pointer to
    the first entry of a data page within the count, which holds the record
    of that key with the data [m] gives for it; and [m] has no other key. *)
Definition holdsDB `{MapRange} (h : TextFileHandler) (m : gmap string string)
  : Prop :=
  exists (es : list (string * (Z * Z)))
         (secs : list (bool * option (string * string))),
    holdsLeaf h es
    /\ File h = dbFile es secs
    /\ DeallocatedPages h = []
    /\ PageCount h <= 1 + Z.of_nat (length secs)
    /\ Z.of_nat (length secs) + 2 < 2 ^ 32
    /\ Forall wellFormedRecord (secs.*2)
    /\ (forall k pid idx,
          (list_to_map es : gmap string (Z * Z)) !! k = Some (pid, idx) ->
          idx = 1 /\ 2 <= pid <= PageCount h
          /\ exists d, secs.*2 !! Z.to_nat (pid - 2) = Some (Some (k, d))
                       /\ m !! k = Some d)
    /\ (forall k, (list_to_map es : gmap string (Z * Z)) !! k = None ->
                  m !! k = None).

(** The record [Database.Get] returns for an id and its data. *)
Definition recordFor (ID d : string) : Record_ :=
  {| EntryIndex := 1; Fields := [ID; d] |}.

(** ** Runs of inserts *)

(** The store after the records are inserted one after the other; the
    caller goes on whatever a call returns. *)
Fixpoint insertAll `{MapRange} (rs : list (string * string))
    (h : TextFileHandler) : TextFileHandler :=
  match rs with
  | [] => h
  | (ID, d) :: rs' => insertAll rs' (snd (Database.Insert newDatabase ID d h))
  end.

(** The same with what each call returned, in the order of the calls. *)
Fixpoint insertEach `{MapRange} (rs : list (string * string))
    (h : TextFileHandler) : list (result unit) * TextFileHandler :=
  match rs with
  | [] => ([], h)
  | (ID, d) :: rs' =>
      let r := Database.Insert newDatabase ID d h in
      let rest := insertEach rs' (snd r) in
      (fst r :: fst rest, snd rest)
  end.

(** What a map of at most three records makes of one more. *)
Definition keepRecord (m : gmap string string) (r : string * string)
  : gmap string string :=
  if decide (size m < 3)%nat then <[r.1 := r.2]> m else m.

Definition wellFormedEntry (r : string * string) : Prop :=
  recordKey r.1 /\ recordData r.2.

(** The records of main.go, and three records that fill the index. *)
Definition mainRecords : list (string * string) :=
  [("user:1", "John Doe"); ("user:2", "Jane Smith")].

Definition threeRecords : list (string * string) :=
  [("user:1", "John Doe"); ("user:2", "Jane Smith"); ("user:3", "Ann Lee")].

Definition mainStore : TextFileHandler :=
  insertAll (H := canonicalRange) mainRecords (emptyTreeStore (H := canonicalRange)).

Definition fullDatabase : TextFileHandler :=
  insertAll (H := canonicalRange) threeRecords (emptyTreeStore (H := canonicalRange)).

(** A database of three records without the id "user:1". *)
Definition otherRecords : list (string * string) :=
  [("user:2", "Jane Smith"); ("user:3", "Ann Lee"); ("user:4", "Bob Ray")].

Definition otherDatabase : TextFileHandler :=
  insertAll (H := canonicalRange) otherRecords (emptyTreeStore (H := canonicalRange)).

(** ** A key with a comma *)

(** The node [readNode] makes of the root leaf after the one key "a,b" was
    inserted: two keys and one pointer. *)
Definition splitNode (a b : string) (p e : Z) : BTreeNode :=
  {| NodePage := rootPage [(a +:+ "," +:+ b, (p, e))]; IsLeaf := true;
     Keys := [a; b]; Children := [];
     Pointers := [BPlusTree.formatPointer p e]; NextLeaf := 0 |}.

(** ** The page count in the header *)

(** No position of [pre] begins an occurrence of [m], whatever follows. *)
Definition startsNone (pre m : string) : Prop :=
  forall t j, (j < String.length pre)%nat -> HasPrefix (drop j pre +:+ t) m = false.

(** The header up to the line of the page count. *)
Definition headerStart (size : Z) : string :=
  HeaderSection +:+ NL
  +:+ assign "PAGESIZE" (FormatUint size) +:+ NL
  +:+ assign "ENCODING" "UTF-8" +:+ NL
  +:+ assign "VERSION" "1.0" +:+ NL.

(** ** A record that does not fit the buffer of the scanner *)

(** A text of [n] bytes "x". *)
Definition filler (n : N) : string := N.iter n (String "x") "".

(* ===================================================================== *)
(** * Properties                                                          *)
(* ===================================================================== *)

(** ** Reading leaves the store as it is *)

Lemma ReadPage_state id h : snd (TextFileHandler.ReadPage id h) = h.
Proof.
  unfold TextFileHandler.ReadPage.
  destruct ((id =? 0) || (PageCount h <? id)); [reflexivity|].
  destruct (TextFileHandler.readLoop _ _ _ _ _) as [[[] ?] []]; reflexivity.
Qed.

Lemma ReadPage_eq id h r h' :
  TextFileHandler.ReadPage id h = (r, h') -> h' = h.
Proof. intros E. rewrite <- (ReadPage_state id h), E. reflexivity. Qed.

Lemma readNode_state id h : snd (BPlusTree.readNode id h) = h.
Proof.
  unfold BPlusTree.readNode, bind.
  destruct (TextFileHandler.ReadPage id h) as [r h'] eqn:E.
  apply ReadPage_eq in E. subst h'. destruct r; reflexivity.
Qed.

Lemma readNode_eq id h r h' : BPlusTree.readNode id h = (r, h') -> h' = h.
Proof. intros E. rewrite <- (readNode_state id h), E. reflexivity. Qed.

Lemma Find_state tree key h : snd (BPlusTree.Find tree key h) = h.
Proof.
  unfold BPlusTree.Find, bind.
  destruct (BPlusTree.readNode _ h) as [r h'] eqn:E.
  apply readNode_eq in E. subst h'. destruct r as [node| |]; try reflexivity.
  destruct (negb (IsLeaf node)); [reflexivity|].
  destruct (BPlusTree.findIndex _ _ _); [|reflexivity].
  destruct (Pointers node !! _); [|reflexivity].
  destruct (Split _ _) as [|? [|? ?]]; reflexivity.
Qed.

Lemma findIndex_None keys key i :
  key ∉ keys -> BPlusTree.findIndex keys key i = None.
Proof.
  revert i. induction keys as [|k keys IH]; intros i Hn; [reflexivity|].
  simpl. destruct (decide (k = key)) as [->|_].
  - exfalso. apply Hn. left.
  - apply IH. intros Hin. apply Hn. right. exact Hin.
Qed.


(** ** Strings: concatenation, slices, prefixes and occurrences *)

#[local] Arguments String.append !_ _ / : simpl nomatch.

Lemma app_nil_r s : s +:+ "" = s.
Proof. induction s as [|c s IH]; simpl; [reflexivity | rewrite IH; reflexivity]. Qed.

Lemma app_assoc a b c : (a +:+ b) +:+ c = a +:+ b +:+ c.
Proof. induction a as [|x a IH]; simpl; [reflexivity | rewrite IH; reflexivity]. Qed.

Lemma length_app a b :
  String.length (a +:+ b) = (String.length a + String.length b)%nat.
Proof. induction a as [|x a IH]; simpl; [reflexivity | rewrite IH; reflexivity]. Qed.

Lemma len_app a b : len (a +:+ b) = len a + len b.
Proof. unfold len. rewrite length_app. lia. Qed.

Lemma len_nonneg s : 0 <= len s.
Proof. unfold len. lia. Qed.

Lemma take_app a b : take (String.length a) (a +:+ b) = a.
Proof. induction a as [|x a IH]; simpl; [destruct b; reflexivity | rewrite IH; reflexivity]. Qed.

Lemma drop_app a b : drop (String.length a) (a +:+ b) = b.
Proof. induction a as [|x a IH]; simpl; [reflexivity | exact IH]. Qed.

Lemma drop_0 s : drop 0 s = s.
Proof. destruct s; reflexivity. Qed.

Lemma sliceTo_app a b : sliceTo (a +:+ b) (len a) = Some a.
Proof.
  unfold sliceTo. rewrite len_app.
  pose proof (len_nonneg a). pose proof (len_nonneg b).
  replace (0 <=? len a) with true by (symmetry; apply Z.leb_le; lia).
  replace (len a <=? len a + len b) with true by (symmetry; apply Z.leb_le; lia).
  simpl. unfold len. rewrite Nat2Z.id, take_app. reflexivity.
Qed.

Lemma sliceFrom_app a b : sliceFrom (a +:+ b) (len a) = Some b.
Proof.
  unfold sliceFrom. rewrite len_app.
  pose proof (len_nonneg a). pose proof (len_nonneg b).
  replace (0 <=? len a) with true by (symmetry; apply Z.leb_le; lia).
  replace (len a <=? len a + len b) with true by (symmetry; apply Z.leb_le; lia).
  simpl. unfold len. rewrite Nat2Z.id, drop_app. reflexivity.
Qed.

Lemma HasPrefix_nil s : HasPrefix s "" = true.
Proof. destruct s; reflexivity. Qed.

Lemma HasPrefix_self_app m b : HasPrefix (m +:+ b) m = true.
Proof.
  induction m as [|c m IH]; simpl; [apply HasPrefix_nil|].
  rewrite Ascii.eqb_refl. exact IH.
Qed.

Lemma HasPrefix_inv s m : HasPrefix s m = true -> exists b, s = m +:+ b.
Proof.
  revert s. induction m as [|c m IH]; intros s Hp.
  - exists s. reflexivity.
  - destruct s as [|x s]; simpl in Hp; [discriminate|].
    destruct (Ascii.eqb x c) eqn:E; [|discriminate].
    apply Ascii.eqb_eq in E. subst x.
    destruct (IH s Hp) as [b ->]. exists b. reflexivity.
Qed.

(** An occurrence cannot run over a byte it does not hold. *)
Lemma HasPrefix_straddle x c y m :
  HasPrefix (x +:+ String c y) m = true ->
  hasByte c m = false ->
  HasPrefix x m = true.
Proof.
  revert x. induction m as [|p m IH]; intros x Hp Hc.
  - apply HasPrefix_nil.
  - simpl in Hc. apply orb_false_iff in Hc as [Hpc Hc].
    destruct x as [|a x]; simpl in Hp |- *.
    + rewrite Ascii.eqb_sym, Hpc in Hp. discriminate.
    + destruct (Ascii.eqb a p); [|discriminate]. apply IH; assumption.
Qed.

(** The same when the byte may be the first one of the pattern only. *)
Lemma HasPrefix_straddle_tail a x c y p m :
  HasPrefix (String a x +:+ String c y) (String p m) = true ->
  hasByte c m = false ->
  HasPrefix (String a x) (String p m) = true.
Proof.
  simpl. destruct (Ascii.eqb a p); [|discriminate].
  apply HasPrefix_straddle.
Qed.

Lemma indexFrom_nil i m :
  indexFrom i "" m = if HasPrefix "" m then Some i else None.
Proof. reflexivity. Qed.

Lemma indexFrom_cons i c s m :
  indexFrom i (String c s) m
  = if HasPrefix (String c s) m then Some i else indexFrom (S i) s m.
Proof. reflexivity. Qed.

Lemma indexFrom_shift i s m :
  indexFrom i s m = (fun j => (i + j)%nat) <$> indexFrom 0 s m.
Proof.
  revert i. induction s as [|c s IH]; intros i.
  - rewrite !indexFrom_nil.
    destruct (HasPrefix "" m); simpl; [f_equal; lia | reflexivity].
  - rewrite !indexFrom_cons.
    destruct (HasPrefix (String c s) m); simpl; [f_equal; lia|].
    rewrite (IH (S i)), (IH 1%nat).
    destruct (indexFrom 0 s m); simpl; [f_equal; lia | reflexivity].
Qed.

Lemma indexFrom_skip i pre t m :
  (forall k, (k < String.length pre)%nat ->
             HasPrefix (drop k pre +:+ t) m = false) ->
  indexFrom i (pre +:+ t) m = indexFrom (i + String.length pre) t m.
Proof.
  revert i. induction pre as [|c pre IH]; intros i Hno.
  - simpl. f_equal. lia.
  - pose proof (Hno 0%nat ltac:(simpl; lia)) as H0.
    change (String c pre +:+ t) with (String c (pre +:+ t)) in *.
    rewrite indexFrom_cons. rewrite drop_0 in H0.
    change (String c pre +:+ t) with (String c (pre +:+ t)) in H0.
    rewrite H0, IH.
    + f_equal. simpl. lia.
    + intros k Hk. apply (Hno (S k)). simpl. lia.
Qed.

Lemma Contains_false_drop s m k :
  Contains s m = false -> HasPrefix (drop k s) m = false.
Proof.
  unfold Contains. revert k. induction s as [|c s IH]; intros k Hc.
  - rewrite indexFrom_nil in Hc.
    destruct k; simpl drop; destruct (HasPrefix "" m); congruence.
  - rewrite indexFrom_cons in Hc.
    destruct (HasPrefix (String c s) m) eqn:E; [discriminate|].
    destruct k; simpl drop; [exact E|].
    apply IH. rewrite indexFrom_shift in Hc.
    destruct (indexFrom 0 s m); [discriminate | reflexivity].
Qed.

Lemma drop_nonempty k s :
  (k < String.length s)%nat -> exists a x, drop k s = String a x.
Proof.
  revert k. induction s as [|c s IH]; intros k Hk; simpl in Hk; [lia|].
  destruct k; simpl; [eauto|]. apply IH. lia.
Qed.

(** The search goes through a text without occurrence when what follows
    starts with a byte the pattern does not hold. *)
Lemma indexFrom_app_clean i pre c t m :
  Contains pre m = false ->
  hasByte c m = false ->
  indexFrom i (pre +:+ String c t) m
  = indexFrom (i + String.length pre) (String c t) m.
Proof.
  intros Hno Hc. apply indexFrom_skip. intros k Hk.
  destruct (HasPrefix (drop k pre +:+ String c t) m) eqn:E; [|reflexivity].
  apply HasPrefix_straddle in E; [|exact Hc].
  rewrite (Contains_false_drop _ _ k Hno) in E. discriminate.
Qed.

Lemma indexFrom_app_clean_tail i pre c t p m :
  Contains pre (String p m) = false ->
  hasByte c m = false ->
  indexFrom i (pre +:+ String c t) (String p m)
  = indexFrom (i + String.length pre) (String c t) (String p m).
Proof.
  intros Hno Hc. apply indexFrom_skip. intros k Hk.
  destruct (drop_nonempty k pre Hk) as (a & x & Hd). rewrite Hd.
  destruct (HasPrefix (String a x +:+ String c t) (String p m)) eqn:E;
    [|reflexivity].
  apply HasPrefix_straddle_tail in E; [|exact Hc].
  rewrite <- Hd, (Contains_false_drop _ _ k Hno) in E. discriminate.
Qed.

Lemma lastIndexFrom_app i pre t m j :
  lastIndexFrom (i + String.length pre) t m = Some j ->
  lastIndexFrom i (pre +:+ t) m = Some j.
Proof.
  revert i. induction pre as [|c pre IH]; intros i Hl; simpl in *.
  - rewrite Nat.add_0_r in Hl. exact Hl.
  - rewrite (IH (S i)); [reflexivity|].
    rewrite <- Hl. f_equal. lia.
Qed.

Lemma Contains_true_iff s m :
  Contains s m = true <-> exists a b, s = a +:+ m +:+ b.
Proof.
  unfold Contains. split.
  - induction s as [|c s IH].
    + rewrite indexFrom_nil. destruct (HasPrefix "" m) eqn:E; [|discriminate].
      intros _. apply HasPrefix_inv in E as [b Hb]. exists "", b. exact Hb.
    + rewrite indexFrom_cons.
      destruct (HasPrefix (String c s) m) eqn:E.
      * intros _. apply HasPrefix_inv in E as [b Hb]. exists "", b. exact Hb.
      * rewrite indexFrom_shift. intros Hc.
        destruct (indexFrom 0 s m) eqn:E'; [|discriminate].
        destruct (IH eq_refl) as (a & b & ->). exists (String c a), b. reflexivity.
  - intros (a & b & ->). induction a as [|c a IH].
    + simpl "+:+". destruct (m +:+ b) eqn:Emb.
      * rewrite indexFrom_nil, <- Emb, HasPrefix_self_app. reflexivity.
      * rewrite indexFrom_cons, <- Emb, HasPrefix_self_app. reflexivity.
    + change (String c a +:+ m +:+ b) with (String c (a +:+ m +:+ b)).
      rewrite indexFrom_cons.
      destruct (HasPrefix _ m); [reflexivity|].
      rewrite indexFrom_shift.
      destruct (indexFrom 0 (a +:+ m +:+ b) m); [reflexivity | discriminate].
Qed.

Lemma Contains_false_sub a s b m :
  Contains (a +:+ s +:+ b) m = false -> Contains s m = false.
Proof.
  intros Hno. destruct (Contains s m) eqn:E; [|reflexivity].
  apply Contains_true_iff in E as (a' & b' & ->).
  assert (Contains (a +:+ (a' +:+ m +:+ b') +:+ b) m = true) as Ht.
  { apply Contains_true_iff. exists (a +:+ a'), (b' +:+ b).
    rewrite !app_assoc. reflexivity. }
  congruence.
Qed.

(** ** Lines *)

Lemma isNL c : (byte_of c =? 10)%N = Ascii.eqb c NLc.
Proof.
  unfold byte_of, NLc. destruct (Ascii.eqb c _) eqn:E.
  - apply Ascii.eqb_eq in E. subst c. reflexivity.
  - apply N.eqb_neq. intros Hc. apply Ascii.eqb_neq in E. apply E.
    rewrite <- (Ascii.ascii_N_embedding c), Hc. reflexivity.
Qed.

Lemma rawLines_cons c s :
  rawLines (String c s)
  = if Ascii.eqb c NLc then "" :: rawLines s
    else match rawLines s with
         | l :: ls => String c l :: ls
         | [] => [String c ""]
         end.
Proof. simpl. rewrite isNL. reflexivity. Qed.

(** A line, its newline, and the rest. *)
Lemma rawLines_line l s :
  hasByte NLc l = false -> rawLines (l +:+ NL +:+ s) = l :: rawLines s.
Proof.
  induction l as [|c l IH]; intros Hl.
  - change ("" +:+ NL +:+ s) with (String NLc s).
    rewrite rawLines_cons, Ascii.eqb_refl. reflexivity.
  - simpl in Hl. apply orb_false_iff in Hl as [Hc Hl].
    change (String c l +:+ NL +:+ s) with (String c (l +:+ NL +:+ s)).
    rewrite rawLines_cons, Hc, (IH Hl). reflexivity.
Qed.

Lemma rawLines_last l :
  hasByte NLc l = false -> l <> "" -> rawLines l = [l].
Proof.
  induction l as [|c l IH]; intros Hl Hne; [congruence|].
  simpl in Hl. apply orb_false_iff in Hl as [Hc Hl].
  rewrite rawLines_cons, Hc. destruct l as [|c' l']; [reflexivity|].
  rewrite IH; [reflexivity | exact Hl | discriminate].
Qed.

Lemma rawLines_app_NL a b :
  rawLines ((a +:+ NL) +:+ b) = rawLines (a +:+ NL) ++ rawLines b.
Proof.
  induction a as [|c a IH].
  - change (("" +:+ NL) +:+ b) with (String NLc b).
    change ("" +:+ NL) with (String NLc "").
    rewrite !rawLines_cons, Ascii.eqb_refl. reflexivity.
  - change ((String c a +:+ NL) +:+ b) with (String c ((a +:+ NL) +:+ b)).
    change (String c a +:+ NL) with (String c (a +:+ NL)).
    rewrite !rawLines_cons, IH.
    destruct (Ascii.eqb c NLc); [reflexivity|].
    destruct (rawLines (a +:+ NL)) as [|l ls] eqn:E; [|reflexivity].
    exfalso. clear -E. induction a as [|x a IH].
    + change ("" +:+ NL) with (String NLc "") in E.
      rewrite rawLines_cons, Ascii.eqb_refl in E. discriminate.
    + change (String x a +:+ NL) with (String x (a +:+ NL)) in E.
      rewrite rawLines_cons in E.
      destruct (Ascii.eqb x NLc); [discriminate|].
      destruct (rawLines (a +:+ NL)); [auto | discriminate].
Qed.

Lemma rawLines_nil s : rawLines s = [] -> s = "".
Proof.
  destruct s as [|c s]; [reflexivity|]. rewrite rawLines_cons.
  destruct (Ascii.eqb c NLc); [discriminate|].
  destruct (rawLines s); discriminate.
Qed.

(** The first line starts the text, and every line is a piece of it. *)
Lemma rawLines_pieces s :
  (forall l0 ls, rawLines s = l0 :: ls -> exists b, s = l0 +:+ b)
  /\ (forall l, l ∈ rawLines s -> exists a b, s = a +:+ l +:+ b).
Proof.
  induction s as [|c s [IH1 IH2]].
  - split; [discriminate|]. intros l Hin. apply elem_of_nil in Hin. contradiction.
  - rewrite rawLines_cons. destruct (Ascii.eqb c NLc).
    + split.
      * intros l0 ls [= <- _]. exists (String c s). reflexivity.
      * intros l [-> | Hin]%elem_of_cons.
        -- exists "", (String c s). reflexivity.
        -- destruct (IH2 l Hin) as (a & b & ->).
           exists (String c a), b. reflexivity.
    + destruct (rawLines s) as [|l1 ls1] eqn:E.
      * apply rawLines_nil in E. subst s. split.
        -- intros l0 ls [= <- _]. exists "". reflexivity.
        -- intros l ->%list_elem_of_singleton. exists "", "". reflexivity.
      * destruct (IH1 l1 ls1 eq_refl) as [b1 Hb1]. split.
        -- intros l0 ls [= <- _]. exists b1. rewrite Hb1 at 1. reflexivity.
        -- intros l [-> | Hin]%elem_of_cons.
           ++ exists "", b1. rewrite Hb1 at 1. reflexivity.
           ++ destruct (IH2 l) as (a & b & Hs); [right; exact Hin|].
              exists (String c a), b. rewrite Hs at 1. reflexivity.
Qed.

Lemma rawLines_sub l s : l ∈ rawLines s -> exists a b, s = a +:+ l +:+ b.
Proof. apply rawLines_pieces. Qed.

Lemma dropCR_cons c l :
  dropCR (String c l)
  = match l with
    | "" => if (byte_of c =? 13)%N then "" else String c ""
    | String _ _ => String c (dropCR l)
    end.
Proof. destruct l; reflexivity. Qed.

Lemma dropCR_prefix l : exists r, l = dropCR l +:+ r.
Proof.
  induction l as [|c l [r IH]]; [exists ""; reflexivity|].
  rewrite dropCR_cons. destruct l as [|c' l'].
  - destruct (byte_of c =? 13)%N; [exists (String c "") | exists ""]; reflexivity.
  - exists r.
    change (String c (dropCR (String c' l')) +:+ r)
      with (String c (dropCR (String c' l') +:+ r)).
    rewrite <- IH. reflexivity.
Qed.

(** No line of a text without occurrence holds an occurrence. *)
Lemma lines_without_occurrence s m l :
  Contains s m = false -> l ∈ rawLines s -> Contains (dropCR l) m = false.
Proof.
  intros Hno Hin. destruct (rawLines_sub l s Hin) as (a & b & ->).
  destruct (dropCR_prefix l) as [r Hr]. rewrite Hr in Hno.
  rewrite app_assoc in Hno. apply Contains_false_sub in Hno. exact Hno.
Qed.

(** ** Reversal and [TrimSpace] *)

Lemma rev_app a b : rev (a +:+ b) = rev b +:+ rev a.
Proof.
  induction a as [|c a IH]; simpl.
  - rewrite app_nil_r. reflexivity.
  - rewrite IH, app_assoc. reflexivity.
Qed.

Lemma rev_involutive s : rev (rev s) = s.
Proof.
  induction s as [|c s IH]; [reflexivity|].
  simpl. rewrite rev_app, IH. reflexivity.
Qed.

Lemma length_rev s : String.length (rev s) = String.length s.
Proof.
  induction s as [|c s IH]; [reflexivity|].
  simpl. rewrite length_app, IH. simpl. lia.
Qed.

Lemma TrimLeftSpace_cons c1 s1 :
  TrimLeftSpace (String c1 s1)
  = if asciiSpace (byte_of c1) then TrimLeftSpace s1
    else match s1 with
         | "" => String c1 s1
         | String c2 s2 =>
             if space2 (byte_of c1) (byte_of c2) then TrimLeftSpace s2
             else match s2 with
                  | "" => String c1 s1
                  | String c3 s3 =>
                      if space3 (byte_of c1) (byte_of c2) (byte_of c3)
                      then TrimLeftSpace s3 else String c1 s1
                  end
         end.
Proof. reflexivity. Qed.

Lemma trimLeftSpaceRev_cons c1 s1 :
  trimLeftSpaceRev (String c1 s1)
  = if asciiSpace (byte_of c1) then trimLeftSpaceRev s1
    else match s1 with
         | "" => String c1 s1
         | String c2 s2 =>
             if space2 (byte_of c2) (byte_of c1) then trimLeftSpaceRev s2
             else match s2 with
                  | "" => String c1 s1
                  | String c3 s3 =>
                      if space3 (byte_of c3) (byte_of c2) (byte_of c1)
                      then trimLeftSpaceRev s3 else String c1 s1
                  end
         end.
Proof. reflexivity. Qed.

Lemma TrimLeftSpace_shorter s :
  TrimLeftSpace s = s
  \/ (String.length (TrimLeftSpace s) < String.length s)%nat.
Proof.
  assert (Hle : (String.length s <= String.length s)%nat) by lia.
  revert Hle. generalize (String.length s) at 2. intros n.
  revert s. induction n as [|n IH]; intros s Hle.
  - destruct s; [left; reflexivity | simpl in Hle; lia].
  - destruct s as [|c1 s1]; [left; reflexivity|].
    simpl String.length in *. rewrite TrimLeftSpace_cons.
    destruct (asciiSpace (byte_of c1)).
    { right. destruct (IH s1 ltac:(lia)) as [Heq | Hlt]; [rewrite Heq|]; lia. }
    destruct s1 as [|c2 s2]; [left; reflexivity|].
    simpl String.length in *.
    destruct (space2 _ _).
    { right. destruct (IH s2 ltac:(lia)) as [Heq | Hlt]; [rewrite Heq|]; lia. }
    destruct s2 as [|c3 s3]; [left; reflexivity|].
    simpl String.length in *.
    destruct (space3 _ _ _); [|left; reflexivity].
    right. destruct (IH s3 ltac:(lia)) as [Heq | Hlt]; [rewrite Heq|]; lia.
Qed.

Lemma trimLeftSpaceRev_shorter s :
  trimLeftSpaceRev s = s
  \/ (String.length (trimLeftSpaceRev s) < String.length s)%nat.
Proof.
  assert (Hle : (String.length s <= String.length s)%nat) by lia.
  revert Hle. generalize (String.length s) at 2. intros n.
  revert s. induction n as [|n IH]; intros s Hle.
  - destruct s; [left; reflexivity | simpl in Hle; lia].
  - destruct s as [|c1 s1]; [left; reflexivity|].
    simpl String.length in *. rewrite trimLeftSpaceRev_cons.
    destruct (asciiSpace (byte_of c1)).
    { right. destruct (IH s1 ltac:(lia)) as [Heq | Hlt]; [rewrite Heq|]; lia. }
    destruct s1 as [|c2 s2]; [left; reflexivity|].
    simpl String.length in *.
    destruct (space2 _ _).
    { right. destruct (IH s2 ltac:(lia)) as [Heq | Hlt]; [rewrite Heq|]; lia. }
    destruct s2 as [|c3 s3]; [left; reflexivity|].
    simpl String.length in *.
    destruct (space3 _ _ _); [|left; reflexivity].
    right. destruct (IH s3 ltac:(lia)) as [Heq | Hlt]; [rewrite Heq|]; lia.
Qed.

(** A string [TrimSpace] keeps is kept by both of its halves. *)
Lemma TrimSpace_fixed s :
  TrimSpace s = s ->
  TrimLeftSpace s = s /\ trimLeftSpaceRev (rev s) = rev s.
Proof.
  unfold TrimSpace, TrimRightSpace. intros Hs.
  assert (Hlen : (String.length s <= String.length (TrimLeftSpace s))%nat).
  { rewrite <- Hs at 1. rewrite length_rev.
    destruct (trimLeftSpaceRev_shorter (rev (TrimLeftSpace s))) as [-> | Hlt].
    - rewrite length_rev. lia.
    - rewrite length_rev in Hlt. lia. }
  destruct (TrimLeftSpace_shorter s) as [Hl | Hlt]; [|lia].
  split; [exact Hl|]. rewrite Hl in Hs.
  rewrite <- Hs at 2. rewrite rev_involutive. reflexivity.
Qed.

Lemma rev_cons_inv s c r : rev s = String c r -> s = rev r +:+ String c "".
Proof. intros Hr. rewrite <- (rev_involutive s), Hr. reflexivity. Qed.

Lemma dropCR_snoc y c :
  (byte_of c =? 13)%N = false ->
  dropCR (y +:+ String c "") = y +:+ String c "".
Proof.
  intros Hc. induction y as [|x y IH].
  - simpl. rewrite Hc. reflexivity.
  - change (String x y +:+ String c "") with (String x (y +:+ String c "")).
    rewrite dropCR_cons, IH. destruct y; reflexivity.
Qed.

Lemma asciiSpace_CR c : (byte_of c =? 13)%N = true -> asciiSpace (byte_of c) = true.
Proof. intros Hc%N.eqb_eq. rewrite Hc. reflexivity. Qed.

(** A value [TrimSpace] keeps does not end with a carriage return: the
    line that ends with it is the line the scanner delivers. *)
Lemma dropCR_trimmed x c0 v :
  (byte_of c0 =? 13)%N = false ->
  TrimSpace v = v ->
  dropCR (x +:+ String c0 v) = x +:+ String c0 v.
Proof.
  intros Hc0 Hv. apply TrimSpace_fixed in Hv as [_ Hr].
  destruct (rev v) as [|c r] eqn:Erev.
  - assert (v = "") as -> by (rewrite <- (rev_involutive v), Erev; reflexivity).
    apply dropCR_snoc. exact Hc0.
  - apply rev_cons_inv in Erev as Hv. rewrite Hv.
    change (x +:+ String c0 (rev r +:+ String c ""))
      with (x +:+ (String c0 (rev r) +:+ String c "")).
    rewrite <- app_assoc. apply dropCR_snoc.
    destruct (byte_of c =? 13)%N eqn:Ec; [|reflexivity]. exfalso.
    apply asciiSpace_CR in Ec. simpl in Hr. rewrite Ec in Hr.
    destruct (trimLeftSpaceRev_shorter r) as [Heq | Hlt].
    + rewrite Heq in Hr. apply (f_equal String.length) in Hr. simpl in Hr. lia.
    + apply (f_equal String.length) in Hr. simpl in Hr. lia.
Qed.

Lemma plainByte_not_space c :
  plainByte c = true ->
  asciiSpace (byte_of c) = false
  /\ (forall b, space2 (byte_of c) b = false)
  /\ (forall b, space2 b (byte_of c) = false)
  /\ (forall b b', space3 (byte_of c) b b' = false)
  /\ (forall b b', space3 b' b (byte_of c) = false).
Proof.
  unfold plainByte, asciiSpace, space2, space3.
  intros [H1 H2]%andb_true_iff. apply N.leb_le in H1, H2.
  repeat split; intros;
    repeat match goal with
           | |- context [(?a =? ?b)%N] =>
               destruct (N.eqb_spec a b); try lia
           | |- context [(?a <=? ?b)%N] =>
               destruct (N.leb_spec a b); try lia
           end; reflexivity.
Qed.

Lemma TrimLeftSpace_plain c s :
  plainByte c = true -> TrimLeftSpace (String c s) = String c s.
Proof.
  intros (H1 & H2 & _ & H3 & _)%plainByte_not_space.
  simpl. rewrite H1. destruct s as [|c2 [|c3 s3]]; [reflexivity| |].
  - rewrite H2. reflexivity.
  - rewrite H2, H3. reflexivity.
Qed.

Lemma trimLeftSpaceRev_plain c s :
  plainByte c = true -> trimLeftSpaceRev (String c s) = String c s.
Proof.
  intros (H1 & _ & H2 & _ & H3)%plainByte_not_space.
  simpl. rewrite H1. destruct s as [|c2 [|c3 s3]]; [reflexivity| |].
  - rewrite H2. reflexivity.
  - rewrite H2, H3. reflexivity.
Qed.

Lemma allBytes_app P a b :
  allBytes P (a +:+ b) = allBytes P a && allBytes P b.
Proof.
  induction a as [|c a IH]; [reflexivity|].
  simpl. rewrite IH, andb_assoc. reflexivity.
Qed.

Lemma allBytes_rev P s : allBytes P (rev s) = allBytes P s.
Proof.
  induction s as [|c s IH]; [reflexivity|].
  simpl. rewrite allBytes_app, IH. simpl. rewrite andb_true_r, andb_comm.
  reflexivity.
Qed.

Lemma allBytes_impl (P Q : ascii -> bool) s :
  (forall c, P c = true -> Q c = true) ->
  allBytes P s = true -> allBytes Q s = true.
Proof.
  intros HPQ. induction s as [|c s IH]; [reflexivity|].
  simpl. intros [Hc Hs]%andb_true_iff.
  rewrite (HPQ c Hc), (IH Hs). reflexivity.
Qed.

(** [TrimSpace] keeps a string of printable bytes without blank. *)
Lemma TrimSpace_plain s : allBytes plainByte s = true -> TrimSpace s = s.
Proof.
  intros Hs. unfold TrimSpace, TrimRightSpace.
  destruct s as [|c s]; [reflexivity|].
  simpl in Hs. apply andb_true_iff in Hs as Hcs. destruct Hcs as [Hc _].
  rewrite (TrimLeftSpace_plain c s Hc).
  assert (Hr : allBytes plainByte (rev (String c s)) = true)
    by (rewrite allBytes_rev; exact Hs).
  destruct (rev (String c s)) as [|c' r] eqn:E.
  - apply (f_equal String.length) in E. rewrite length_rev in E. discriminate.
  - simpl in Hr. apply andb_true_iff in Hr as [Hc' _].
    rewrite (trimLeftSpaceRev_plain c' r Hc'), <- E. apply rev_involutive.
Qed.

(** ** Numbers in decimal *)

Lemma byte_of_digitChar d :
  0 <= d <= 9 -> byte_of (digitChar d) = Z.to_N (48 + d).
Proof.
  intros Hd. unfold byte_of, digitChar. apply Ascii.N_ascii_embedding. lia.
Qed.

Lemma isDigit_digitChar d : 0 <= d <= 9 -> isDigit (digitChar d) = true.
Proof.
  intros Hd. unfold isDigit. rewrite byte_of_digitChar by exact Hd.
  apply andb_true_iff. split; apply N.leb_le; lia.
Qed.

Lemma digitVal_digitChar d : 0 <= d <= 9 -> digitVal (digitChar d) = d.
Proof.
  intros Hd. unfold digitVal. rewrite byte_of_digitChar by exact Hd. lia.
Qed.

Lemma showDigits_digits fuel n acc :
  allBytes isDigit acc = true -> allBytes isDigit (showDigits fuel n acc) = true.
Proof.
  revert n acc. induction fuel as [|fuel IH]; intros n acc Hacc; [exact Hacc|].
  simpl. pose proof (Z.mod_pos_bound n 10 ltac:(lia)) as Hm.
  assert (Hd : allBytes isDigit (String (digitChar (n mod 10)) acc) = true).
  { simpl. rewrite isDigit_digitChar by lia. exact Hacc. }
  destruct (n <? 10); [exact Hd | apply IH; exact Hd].
Qed.

Lemma showDigits_nonempty fuel n acc :
  showDigits (S fuel) n acc <> "".
Proof.
  revert n acc. induction fuel as [|fuel IH]; intros n acc.
  - simpl. destruct (n <? 10); discriminate.
  - change (showDigits (S (S fuel)) n acc)
      with (let acc' := String (digitChar (n mod 10)) acc in
            if n <? 10 then acc' else showDigits (S fuel) (n / 10) acc').
    simpl. destruct (n <? 10); [discriminate | apply IH].
Qed.

Lemma showDigits_value fuel n rest :
  0 <= n < 10 ^ Z.of_nat fuel ->
  digitsValue 0 (showDigits fuel n rest) = digitsValue n rest.
Proof.
  revert n rest. induction fuel as [|fuel IH]; intros n rest Hn.
  - simpl in Hn. assert (n = 0) as -> by lia. reflexivity.
  - simpl showDigits.
    pose proof (Z.mod_pos_bound n 10 ltac:(lia)) as Hm.
    destruct (n <? 10) eqn:E.
    + apply Z.ltb_lt in E. simpl.
      rewrite digitVal_digitChar by lia. rewrite Z.mod_small by lia. reflexivity.
    + apply Z.ltb_ge in E. rewrite IH.
      * simpl. rewrite digitVal_digitChar by lia.
        f_equal. pose proof (Z.div_mod n 10 ltac:(lia)). lia.
      * rewrite Nat2Z.inj_succ, Z.pow_succ_r in Hn by lia.
        split; [apply Z.div_pos; lia|].
        apply Z.div_lt_upper_bound; lia.
Qed.

Lemma FormatUint_digits n : allBytes isDigit (FormatUint n) = true.
Proof. apply showDigits_digits. reflexivity. Qed.

Lemma FormatUint_nonempty n : FormatUint n <> "".
Proof. apply showDigits_nonempty. Qed.

Lemma FormatUint_value n : 0 <= n < uintMax -> digitsValue 0 (FormatUint n) = n.
Proof.
  intros Hn. unfold FormatUint. rewrite showDigits_value; [reflexivity|].
  unfold uintMax in Hn. split; [lia|].
  eapply Z.lt_trans; [apply Hn|]. reflexivity.
Qed.

Lemma leadingDigits_all s : allBytes isDigit s = true -> leadingDigits s = s.
Proof.
  induction s as [|c s IH]; [reflexivity|].
  simpl. intros [Hc Hs]%andb_true_iff. rewrite Hc, (IH Hs). reflexivity.
Qed.

Lemma isDigit_plain c : isDigit c = true -> plainByte c = true.
Proof.
  unfold isDigit, plainByte. intros [H1 H2]%andb_true_iff.
  apply N.leb_le in H1, H2. apply andb_true_iff. split; apply N.leb_le; lia.
Qed.

Lemma skipSpace_plain c s :
  plainByte c = true -> skipSpace (String c s) = Some (String c s).
Proof.
  intros Hc. pose proof Hc as (H1 & H2 & _ & H3 & _)%plainByte_not_space.
  simpl. rewrite H1.
  assert ((byte_of c =? 10)%N = false) as ->.
  { unfold plainByte in Hc. apply andb_true_iff in Hc as [Hc _].
    apply N.leb_le in Hc. apply N.eqb_neq. lia. }
  destruct s as [|c2 [|c3 s3]]; [reflexivity| |].
  - rewrite H2. reflexivity.
  - rewrite H2, H3. reflexivity.
Qed.

(** Reading back a number the program printed. *)
Lemma SscanUint_FormatUint n :
  0 <= n < uintMax -> SscanUint (FormatUint n) = Some n.
Proof.
  intros Hn. unfold SscanUint.
  pose proof (FormatUint_digits n) as Hd.
  pose proof (FormatUint_nonempty n) as Hne.
  pose proof (FormatUint_value n Hn) as Hv.
  destruct (FormatUint n) as [|c s] eqn:E; [congruence|].
  rewrite skipSpace_plain.
  - rewrite (leadingDigits_all _ Hd), Hv.
    destruct (n <? uintMax) eqn:El; [reflexivity|].
    apply Z.ltb_ge in El. lia.
  - simpl in Hd. apply andb_true_iff in Hd as [Hc _].
    apply isDigit_plain. exact Hc.
Qed.

Lemma digitsValue_ge b : forall acc,
  allBytes isDigit b = true -> 0 <= acc -> acc <= digitsValue acc b.
Proof.
  induction b as [|c b IH]; intros acc Hb Hacc; [cbn; lia|].
  cbn in Hb. apply andb_true_iff in Hb as [Hc Hb]. cbn [digitsValue].
  unfold isDigit in Hc. apply andb_true_iff in Hc as [H1 H2].
  apply N.leb_le in H1, H2.
  assert (0 <= digitVal c <= 9) as Hd by (unfold digitVal; lia).
  specialize (IH (acc * 10 + digitVal c) Hb ltac:(lia)). lia.
Qed.

(** On digits whose value is within [maxVal] the loop of [ParseUint] gives
    the value. *)
Lemma parseUintLoop_digits maxVal s : forall n,
  allBytes isDigit s = true -> 0 <= n -> digitsValue n s <= maxVal ->
  parseUintLoop maxVal n s = digitsValue n s.
Proof.
  induction s as [|c s IH]; intros n Hs Hn Hv; [reflexivity|].
  cbn in Hs. apply andb_true_iff in Hs as [Hc Hs].
  cbn [parseUintLoop digitsValue] in *. rewrite Hc.
  assert (0 <= digitVal c).
  { unfold isDigit in Hc. apply andb_true_iff in Hc as [H1 _].
    apply N.leb_le in H1. unfold digitVal. lia. }
  pose proof (digitsValue_ge s (n * 10 + digitVal c) Hs ltac:(lia)) as Hge.
  replace (maxVal <? n * 10 + digitVal c) with false
    by (symmetry; apply Z.ltb_ge; lia).
  apply IH; [exact Hs | lia | exact Hv].
Qed.

Lemma ParseUint32_FormatUint n :
  0 <= n < 2 ^ 32 -> ParseUint32 (FormatUint n) = n.
Proof.
  intros Hn. unfold ParseUint32.
  assert (Hn' : 0 <= n < uintMax) by (unfold uintMax; lia).
  pose proof (FormatUint_value n Hn') as Hv.
  rewrite parseUintLoop_digits; [exact Hv | apply FormatUint_digits | lia | rewrite Hv; lia].
Qed.

(** Text behind a number: a syntax error gives 0, unless the digits read
    so far are above 32 bits already. *)
Example ParseUint32_errors :
  ParseUint32 "" = 0 /\ ParseUint32 "42x" = 0
  /\ ParseUint32 "4294967295" = 4294967295
  /\ ParseUint32 "4294967296" = 4294967295
  /\ ParseUint32 "4294967296x" = 4294967295.
Proof. vm_compute. repeat split. Qed.

Lemma FormatUint_inj n m :
  0 <= n < uintMax -> 0 <= m < uintMax -> FormatUint n = FormatUint m -> n = m.
Proof.
  intros Hn Hm Heq. apply SscanUint_FormatUint in Hn, Hm.
  rewrite Heq, Hm in Hn. congruence.
Qed.

Lemma allBytes_hasByte P c s :
  allBytes P s = true -> P c = false -> hasByte c s = false.
Proof.
  intros Hs Hc. induction s as [|x s IH]; [reflexivity|].
  simpl in *. apply andb_true_iff in Hs as [Hx Hs].
  rewrite (IH Hs), orb_false_r. apply Ascii.eqb_neq. intros ->. congruence.
Qed.

Lemma TrimSpace_FormatUint n : TrimSpace (FormatUint n) = FormatUint n.
Proof.
  apply TrimSpace_plain.
  eapply allBytes_impl; [apply isDigit_plain | apply FormatUint_digits].
Qed.

Lemma showDigits_length fuel n acc :
  (String.length (showDigits fuel n acc) <= fuel + String.length acc)%nat.
Proof.
  revert n acc. induction fuel as [|fuel IH]; intros n acc; simpl; [lia|].
  destruct (n <? 10); simpl; [lia|].
  etrans; [apply IH|]. simpl. lia.
Qed.

Lemma FormatUint_len n : len (FormatUint n) <= 20.
Proof.
  unfold len, FormatUint.
  pose proof (showDigits_length 20 n ""). simpl in *. lia.
Qed.

(** ** Reading a section back *)

Import TextFileHandler.

Lemma readLoop_cons marker raw rest it pf p :
  readLoop marker (raw :: rest) it pf p
  = if tooLong raw then (pf, p, true)
    else
      let CurrentLine := dropCR raw in
      if HasPrefix CurrentLine PageSection && it then (pf, p, false)
      else
        let it1 := if HasPrefix CurrentLine PageSection then false else it in
        let hit := Contains CurrentLine marker in
        let it2 := if hit then true else it1 in
        let pf2 := if hit then true else pf in
        if it2 && negb (bool_decide (CurrentLine = "")) then
          match SplitN2 CurrentLine ": " with
          | [k; v] => readLoop marker rest it2 pf2 (readKey (TrimSpace k) (TrimSpace v) p)
          | _ => readLoop marker rest it2 pf2 p
          end
        else readLoop marker rest it2 pf2 p.
Proof. reflexivity. Qed.

(** Lines before the page: none holds the id line. *)
Lemma readLoop_skip marker ls rest p :
  Forall (fun l => tooLong l = false /\ Contains (dropCR l) marker = false) ls ->
  readLoop marker (ls ++ rest) false false p = readLoop marker rest false false p.
Proof.
  induction 1 as [|l ls [Hlong Hno] _ IH]; [reflexivity|].
  change ((l :: ls) ++ rest) with (l :: (ls ++ rest)).
  rewrite readLoop_cons, Hlong. simpl. rewrite andb_false_r, Hno.
  destruct (HasPrefix (dropCR l) PageSection); simpl; exact IH.
Qed.

(** A line of the page once the id line was seen. *)
Lemma readLoop_in_target marker line rest p k v :
  tooLong line = false ->
  dropCR line = line ->
  HasPrefix line PageSection = false ->
  SplitN2 line ": " = [k; v] ->
  readLoop marker (line :: rest) true true p
  = readLoop marker rest true true (readKey (TrimSpace k) (TrimSpace v) p).
Proof.
  intros Hlong Hcr Hsec Hsplit.
  rewrite readLoop_cons, Hlong. simpl. rewrite Hcr, Hsec. simpl.
  assert (Hne : bool_decide (line = "") = false).
  { apply bool_decide_eq_false. intros ->. discriminate Hsplit. }
  rewrite Hne, Hsplit. simpl.
  destruct (Contains line marker); reflexivity.
Qed.

Lemma cut_at k sep v :
  (forall j, (j < String.length k)%nat ->
             HasPrefix (drop j k +:+ sep +:+ v) sep = false) ->
  cut (k +:+ sep +:+ v) sep = Some (k, v).
Proof.
  intros Hno. unfold cut.
  rewrite (indexFrom_skip 0 k (sep +:+ v) sep Hno).
  assert (indexFrom (0 + String.length k) (sep +:+ v) sep
          = Some (String.length k)) as ->.
  { destruct (sep +:+ v) eqn:E.
    - rewrite indexFrom_nil, <- E, HasPrefix_self_app. reflexivity.
    - rewrite indexFrom_cons, <- E, HasPrefix_self_app. reflexivity. }
  rewrite take_app. f_equal. f_equal.
  rewrite <- app_assoc, <- length_app, drop_app. reflexivity.
Qed.

Lemma SplitN2_binding k v :
  Contains k ": " = false -> SplitN2 (k +:+ ": " +:+ v) ": " = [k; v].
Proof.
  intros Hno. unfold SplitN2. rewrite cut_at; [reflexivity|].
  intros j Hj. destruct (drop_nonempty j k Hj) as (a & x & Hd). rewrite Hd.
  destruct (HasPrefix _ _) eqn:E; [|reflexivity].
  apply (HasPrefix_straddle_tail a x ":" (String " " v) ":" " ") in E;
    [|reflexivity].
  rewrite <- Hd, (Contains_false_drop _ _ j Hno) in E. discriminate.
Qed.

Lemma hasByte_app c a b : hasByte c (a +:+ b) = hasByte c a || hasByte c b.
Proof.
  induction a as [|x a IH]; [reflexivity|].
  simpl. rewrite IH, orb_assoc. reflexivity.
Qed.

Lemma tooLong_false l : len l < MaxScanTokenSize -> tooLong l = false.
Proof. intros Hl. unfold tooLong. apply Z.leb_gt. exact Hl. Qed.

(** What the loop makes of the line of a carried binding. *)
Lemma binding_line k v :
  carriedBinding k v ->
  let line := lineOf (k, v) in
  tooLong line = false /\ dropCR line = line
  /\ HasPrefix line PageSection = false
  /\ SplitN2 line ": " = [k; v]
  /\ hasByte NLc line = false
  /\ (forall p, readKey (TrimSpace k) (TrimSpace v) p
                = setData p (<[k := v]> (Data p))).
Proof.
  intros ((Hkt & Hknl & Hkc & Hkp & Hk1 & Hk2 & Hk3) & (Hvt & Hvnl) & Hlen).
  unfold lineOf. simpl fst. simpl snd. repeat split.
  - apply tooLong_false. rewrite !len_app. change (len ": ") with 2. lia.
  - change (k +:+ ": " +:+ v) with (k +:+ (":" +:+ String " " v)).
    rewrite <- app_assoc. apply dropCR_trimmed; [reflexivity | exact Hvt].
  - destruct (HasPrefix (k +:+ ": " +:+ v) PageSection) eqn:E; [|reflexivity].
    apply HasPrefix_straddle in E; [congruence | reflexivity].
  - apply SplitN2_binding. exact Hkc.
  - rewrite !hasByte_app, Hknl, Hvnl. reflexivity.
  - intros p. rewrite Hkt, Hvt. unfold readKey.
    repeat (destruct (decide _); [congruence|]). reflexivity.
Qed.

Lemma readLoop_bindings marker kvs rest p :
  Forall (fun kv => carriedBinding (fst kv) (snd kv)) kvs ->
  readLoop marker (map lineOf kvs ++ rest) true true p
  = readLoop marker rest true true
      (setData p (foldl insertBinding (Data p) kvs)).
Proof.
  intros Hall. revert p. induction Hall as [|[k v] kvs Hkv _ IH]; intros p.
  - destruct p. reflexivity.
  - destruct (binding_line k v Hkv) as (H1 & H2 & H3 & H4 & _ & H5).
    change (map lineOf ((k, v) :: kvs) ++ rest)
      with (lineOf (k, v) :: (map lineOf kvs ++ rest)).
    rewrite (readLoop_in_target marker _ _ p k v H1 H2 H3 H4), H5, IH.
    reflexivity.
Qed.

Lemma foldl_insertBinding d kvs :
  foldl insertBinding d kvs
  = foldr (fun kv m => <[fst kv := snd kv]> m) d (reverse kvs).
Proof.
  revert d. induction kvs as [|kv kvs IH]; intros d; [reflexivity|].
  simpl. rewrite IH, reverse_cons, foldr_app. reflexivity.
Qed.

(** The bindings come back whatever the order of [range] was. *)
Lemma foldl_insertBinding_range `{MapRange} (m : gmap string string) :
  foldl insertBinding ∅ (mapRange m) = m.
Proof.
  rewrite foldl_insertBinding.
  change (foldr _ ∅ (reverse (mapRange m)))
    with (list_to_map (reverse (mapRange m)) : gmap string string).
  etrans; [|apply (list_to_map_to_list m)].
  apply list_to_map_proper.
  - rewrite reverse_Permutation, (mapRange_perm m).
    apply NoDup_fst_map_to_list.
  - rewrite reverse_Permutation. apply mapRange_perm.
Qed.

Lemma carried_range `{MapRange} (m : gmap string string) :
  map_Forall carriedBinding m ->
  Forall (fun kv => carriedBinding (fst kv) (snd kv)) (mapRange m).
Proof.
  intros Hm. apply Forall_forall. intros [k v] Hin.
  rewrite (mapRange_perm m) in Hin. apply elem_of_map_to_list in Hin.
  exact (Hm k v Hin).
Qed.

Lemma rawLines_bindings kvs post :
  Forall (fun kv => carriedBinding (fst kv) (snd kv)) kvs ->
  rawLines (concatLines (map dataLine kvs) +:+ post)
  = map lineOf kvs ++ rawLines post.
Proof.
  induction 1 as [|[k v] kvs Hkv _ IH]; [reflexivity|].
  destruct (binding_line k v Hkv) as (_ & _ & _ & _ & Hnl & _).
  assert (E : concatLines (map dataLine ((k, v) :: kvs)) +:+ post
              = lineOf (k, v) +:+ NL
                +:+ (concatLines (map dataLine kvs) +:+ post)).
  { change (concatLines (map dataLine ((k, v) :: kvs)))
      with ((k +:+ ": " +:+ v +:+ NL) +:+ concatLines (map dataLine kvs)).
    change (lineOf (k, v)) with (k +:+ ": " +:+ v).
    rewrite !app_assoc. reflexivity. }
  rewrite E, (rawLines_line _ _ Hnl), IH. reflexivity.
Qed.

Lemma marker_digits id :
  exists ds, FormatUint id = ds /\ allBytes isDigit ds = true
             /\ TrimSpace ds = ds /\ len ds <= 20.
Proof.
  exists (FormatUint id). split; [reflexivity|].
  split; [apply FormatUint_digits|].
  split; [apply TrimSpace_FormatUint | apply FormatUint_len].
Qed.

Lemma digits_no_NL ds : allBytes isDigit ds = true -> hasByte NLc ds = false.
Proof. intros Hd. eapply allBytes_hasByte; [exact Hd | reflexivity]. Qed.

(** The lines of the text of a page. *)
Lemma rawLines_PageContent `{MapRange} p post :
  carriedPage p ->
  rawLines (PageContent p +:+ post)
  = PageSection
    :: PageIDMarker (PageID (Header p))
    :: ("LSN: " +:+ FormatUint (PageLSN (Header p)))
    :: ("Type: " +:+ PageType (Header p))
    :: map lineOf (mapRange (Data p)) ++ rawLines post.
Proof.
  intros (_ & _ & (_ & Htnl) & _ & Hm).
  unfold PageContent, PageIDMarker.
  pose proof (digits_no_NL _ (FormatUint_digits (PageID (Header p)))) as Hid.
  pose proof (digits_no_NL _ (FormatUint_digits (PageLSN (Header p)))) as Hlsn.
  set (a := FormatUint (PageID (Header p))) in *.
  set (b := FormatUint (PageLSN (Header p))) in *.
  set (t := PageType (Header p)) in *.
  set (body := concatLines _).
  replace ((PageSection +:+ NL +:+ "PageID: " +:+ a +:+ NL +:+ "LSN: " +:+ b
            +:+ NL +:+ "Type: " +:+ t +:+ NL +:+ body) +:+ post)
    with (PageSection +:+ NL +:+ ("PageID: " +:+ a) +:+ NL +:+ ("LSN: " +:+ b)
          +:+ NL +:+ ("Type: " +:+ t) +:+ NL +:+ (body +:+ post))
    by (rewrite !app_assoc; reflexivity).
  rewrite (rawLines_line PageSection) by reflexivity.
  rewrite (rawLines_line ("PageID: " +:+ a))
    by (rewrite hasByte_app, Hid; reflexivity).
  rewrite (rawLines_line ("LSN: " +:+ b))
    by (rewrite hasByte_app, Hlsn; reflexivity).
  rewrite (rawLines_line ("Type: " +:+ t))
    by (rewrite hasByte_app, Htnl; reflexivity).
  unfold body. rewrite rawLines_bindings by (apply carried_range; exact Hm).
  reflexivity.
Qed.

Lemma Contains_self m : m <> "" -> Contains m m = true.
Proof.
  intros _. apply Contains_true_iff. exists "", "".
  rewrite app_nil_r. reflexivity.
Qed.

Lemma readLoop_skip_one marker l rest p :
  tooLong l = false ->
  Contains (dropCR l) marker = false ->
  readLoop marker (l :: rest) false false p = readLoop marker rest false false p.
Proof.
  intros Hlong Hno. apply (readLoop_skip marker [l] rest p).
  constructor; [split; assumption | constructor].
Qed.

(** The id line: the loop enters the page. *)
Lemma readLoop_enter marker line rest p k v :
  tooLong line = false ->
  dropCR line = line ->
  HasPrefix line PageSection = false ->
  Contains line marker = true ->
  SplitN2 line ": " = [k; v] ->
  readLoop marker (line :: rest) false false p
  = readLoop marker rest true true (readKey (TrimSpace k) (TrimSpace v) p).
Proof.
  intros Hlong Hcr Hsec Hhit Hsplit.
  rewrite readLoop_cons, Hlong. simpl. rewrite Hcr, Hsec, Hhit. simpl.
  assert (Hne : bool_decide (line = "") = false).
  { apply bool_decide_eq_false. intros ->. discriminate Hsplit. }
  rewrite Hne, Hsplit. reflexivity.
Qed.

(** The mark of the next section: the loop leaves. *)
Lemma readLoop_leave marker rest p :
  readLoop marker (PageSection :: rest) true true p = (true, p, false).
Proof. reflexivity. Qed.

(** A blank line before it changes nothing. *)
Lemma readLoop_blank marker rest p :
  readLoop marker ("" :: PageSection :: rest) true true p = (true, p, false).
Proof.
  rewrite readLoop_cons.
  change (tooLong "") with false. change (dropCR "") with "".
  change (HasPrefix "" PageSection) with false.
  cbv beta iota zeta. cbn [andb negb].
  destruct (Contains "" marker); reflexivity.
Qed.

(** The loop of [ReadPage] on the text of a carried page: the page. *)
Lemma readLoop_PageContent `{MapRange} p post :
  carriedPage p ->
  sectionEnd post ->
  readLoop (PageIDMarker (PageID (Header p))) (rawLines (PageContent p +:+ post))
    false false
    {| Header := {| PageLSN := 0; PageID := PageID (Header p); PageType := "" |};
       Data := ∅ |}
  = (true, p, false).
Proof.
  intros Hp Hpost. rewrite (rawLines_PageContent p post Hp).
  destruct Hp as (Hid & Hlsn & (Htt & Htnl) & Htlen & Hm).
  destruct p as [[lsn id t] m].
  cbn [Header Data PageLSN PageID PageType] in *.
  destruct (marker_digits id) as (a & Ea & Hda & Hta & Hla).
  destruct (marker_digits lsn) as (b & Eb & Hdb & Htb & Hlb).
  unfold PageIDMarker. rewrite Ea, Eb.
  set (marker := "PageID: " +:+ a).
  (* the section mark *)
  rewrite (readLoop_skip_one marker PageSection) by reflexivity.
  (* the id line *)
  rewrite (readLoop_enter marker marker _ _ "PageID" a).
  2:{ apply tooLong_false. unfold marker. rewrite len_app.
      change (len "PageID: ") with 8. unfold MaxScanTokenSize. lia. }
  2:{ change marker with ("PageID:" +:+ String " " a).
      apply dropCR_trimmed; [reflexivity | exact Hta]. }
  2:{ reflexivity. }
  2:{ apply Contains_self. discriminate. }
  2:{ apply (SplitN2_binding "PageID"). reflexivity. }
  change (TrimSpace "PageID") with "PageID".
  change (readKey "PageID" (TrimSpace a) ?p) with p.
  (* the sequence number *)
  rewrite (readLoop_in_target _ _ _ _ "LSN" b).
  2:{ apply tooLong_false. rewrite len_app. change (len "LSN: ") with 5.
      unfold MaxScanTokenSize. lia. }
  2:{ change ("LSN: " +:+ b) with ("LSN:" +:+ String " " b).
      apply dropCR_trimmed; [reflexivity | exact Htb]. }
  2:{ reflexivity. }
  2:{ apply (SplitN2_binding "LSN"). reflexivity. }
  change (TrimSpace "LSN") with "LSN". rewrite Htb.
  assert (Hscan : SscanUint b = Some lsn)
    by (rewrite <- Eb; apply SscanUint_FormatUint; exact Hlsn).
  change (readKey "LSN" b ?p)
    with (match SscanUint b with Some n => setLSN p n | None => p end).
  rewrite Hscan.
  (* the type *)
  rewrite (readLoop_in_target _ _ _ _ "Type" t).
  2:{ apply tooLong_false. rewrite len_app. change (len "Type: ") with 6. lia. }
  2:{ change ("Type: " +:+ t) with ("Type:" +:+ String " " t).
      apply dropCR_trimmed; [reflexivity | exact Htt]. }
  2:{ reflexivity. }
  2:{ apply (SplitN2_binding "Type"). reflexivity. }
  change (TrimSpace "Type") with "Type". rewrite Htt.
  change (readKey "Type" t ?p) with (setType p t).
  (* the payload *)
  rewrite readLoop_bindings by (apply carried_range; exact Hm).
  unfold setType, setLSN, setData.
  cbn [Header Data PageLSN PageID PageType].
  rewrite foldl_insertBinding_range.
  (* the end of the section *)
  destruct Hpost as [-> | [[post' ->] | [post' ->]]].
  - reflexivity.
  - rewrite (rawLines_line PageSection) by reflexivity.
    apply readLoop_leave.
  - change (NL +:+ PageSection +:+ NL +:+ post')
      with ("" +:+ NL +:+ PageSection +:+ NL +:+ post').
    rewrite (rawLines_line "") by reflexivity.
    rewrite (rawLines_line PageSection) by reflexivity.
    apply readLoop_blank.
Qed.

Lemma sectionEnd_simple post :
  post = "" \/ (exists post', post = PageSection +:+ NL +:+ post') ->
  sectionEnd post.
Proof. intros [-> | Hp]; [left; reflexivity | right; left; exact Hp]. Qed.

(** [ReadPage] on a file that holds the text of a carried page behind
    lines without its id line. *)
Lemma ReadPage_written `{MapRange} h p pre post :
  File h = pre +:+ PageContent p +:+ post ->
  endsLines pre -> scannable pre ->
  Contains pre (PageIDMarker (PageID (Header p))) = false ->
  sectionEnd post ->
  carriedPage p ->
  PageID (Header p) <= PageCount h ->
  ReadPage (PageID (Header p)) h = (Ok p, h).
Proof.
  intros Hfile Hends Hscan Hno Hpost Hp Hcount.
  unfold ReadPage.
  destruct Hp as (Hid & Hrest). pose proof (conj Hid Hrest) as Hp.
  replace ((PageID (Header p) =? 0) || (PageCount h <? PageID (Header p)))
    with false.
  2:{ symmetry. apply orb_false_iff. split; [apply Z.eqb_neq | apply Z.ltb_ge]; lia. }
  assert (Hlines : rawLines (File h)
                   = rawLines pre ++ rawLines (PageContent p +:+ post)).
  { rewrite Hfile. destruct Hends as [-> | [pre' ->]]; [reflexivity|].
    apply rawLines_app_NL. }
  rewrite Hlines, readLoop_skip, (readLoop_PageContent p post Hp Hpost).
  - reflexivity.
  - apply Forall_forall. intros l Hin. split.
    + exact (proj1 (Forall_forall _ _) Hscan l Hin).
    + exact (lines_without_occurrence _ _ _ Hno Hin).
Qed.

(** ** Writing a section *)

Lemma indexFrom_here i m rest : indexFrom i (m +:+ rest) m = Some i.
Proof.
  destruct (m +:+ rest) eqn:E.
  - rewrite indexFrom_nil, <- E, HasPrefix_self_app. reflexivity.
  - rewrite indexFrom_cons, <- E, HasPrefix_self_app. reflexivity.
Qed.

Lemma Index_Some s m i : indexFrom 0 s m = Some i -> GoLib.Index s m = Z.of_nat i.
Proof. unfold GoLib.Index. intros ->. reflexivity. Qed.

Lemma Index_None s m : Contains s m = false -> GoLib.Index s m = -1.
Proof. unfold GoLib.Index, Contains. destruct (indexFrom 0 s m); [discriminate | reflexivity]. Qed.

Lemma Contains_no_first_byte c m s :
  hasByte c s = false -> Contains s (String c m) = false.
Proof.
  unfold Contains. intros Hs.
  assert (Hall : forall i, indexFrom i s (String c m) = None).
  { induction s as [|x s IH]; intros i; [reflexivity|].
    simpl in Hs. apply orb_false_iff in Hs as [Hx Hs].
    rewrite indexFrom_cons. simpl HasPrefix. rewrite Hx. apply IH. exact Hs. }
  rewrite Hall. reflexivity.
Qed.

(** A pattern without newline occurs in a text only inside a line. *)
Lemma Contains_line l rest p m :
  Ascii.eqb NLc p = false -> hasByte NLc m = false ->
  Contains l (String p m) = false ->
  Contains rest (String p m) = false ->
  Contains (l +:+ NL +:+ rest) (String p m) = false.
Proof.
  intros Hp Hm Hl Hrest. unfold Contains.
  change (l +:+ NL +:+ rest) with (l +:+ String NLc rest).
  rewrite indexFrom_app_clean_tail by assumption.
  rewrite indexFrom_cons.
  change (HasPrefix (String NLc rest) (String p m))
    with (if Ascii.eqb NLc p then HasPrefix rest m else false).
  rewrite Hp.
  rewrite indexFrom_shift. unfold Contains in Hrest.
  destruct (indexFrom 0 rest (String p m)); [discriminate | reflexivity].
Qed.

Lemma marker_no_hash id : hasByte "#" (PageIDMarker id) = false.
Proof.
  unfold PageIDMarker. rewrite hasByte_app.
  rewrite (allBytes_hasByte isDigit "#" _ (FormatUint_digits id) eq_refl).
  reflexivity.
Qed.

Lemma marker_no_NL id : hasByte NLc (PageIDMarker id) = false.
Proof.
  unfold PageIDMarker. rewrite hasByte_app.
  rewrite (digits_no_NL _ (FormatUint_digits id)). reflexivity.
Qed.

(** The first occurrence of the id line, behind a text without one. *)
Lemma Index_marker pre id rest :
  Contains pre (PageIDMarker id) = false ->
  GoLib.Index (pre +:+ PageSection +:+ NL +:+ PageIDMarker id +:+ rest) (PageIDMarker id)
  = len pre + 7.
Proof.
  intros Hno.
  assert (E : indexFrom 0
                (pre +:+ PageSection +:+ NL +:+ PageIDMarker id +:+ rest)
                (PageIDMarker id)
              = Some (String.length pre + 7)%nat).
  { change (pre +:+ PageSection +:+ NL +:+ PageIDMarker id +:+ rest)
      with (pre +:+ String "#" (" PAGE" +:+ NL +:+ PageIDMarker id +:+ rest)).
    rewrite indexFrom_app_clean by (exact Hno || apply marker_no_hash).
    change (String "#" (" PAGE" +:+ NL +:+ PageIDMarker id +:+ rest))
      with ((PageSection +:+ NL) +:+ (PageIDMarker id +:+ rest)).
    rewrite indexFrom_skip.
    - rewrite indexFrom_here. reflexivity.
    - intros k Hk. change (String.length (PageSection +:+ NL)) with 7%nat in Hk.
      unfold PageIDMarker.
      do 7 (destruct k as [|k]; [reflexivity|]). lia. }
  rewrite (Index_Some _ _ _ E). unfold len. lia.
Qed.

Lemma LastIndex_section pre :
  LastIndex (pre +:+ PageSection +:+ NL) PageSection = len pre.
Proof.
  unfold LastIndex.
  rewrite (lastIndexFrom_app 0 pre (PageSection +:+ NL) PageSection
             (String.length pre)); [reflexivity|].
  reflexivity.
Qed.

(** The text [WritePage] puts in place of the section of the page. *)
Lemma replacePage_in_place pre id old post new :
  Contains pre (PageIDMarker id) = false ->
  Contains old PageSection = false ->
  post = "" \/ (exists post', post = PageSection +:+ NL +:+ post') ->
  replacePage
    (pre +:+ PageSection +:+ NL +:+ PageIDMarker id +:+ NL +:+ old +:+ post)
    new (PageIDMarker id)
  = Some (pre +:+ new +:+ post).
Proof.
  intros Hpre Hold Hpost. unfold replacePage.
  pose proof (marker_no_hash id) as Hhash.
  pose proof (Index_marker pre id (NL +:+ old +:+ post) Hpre) as Hidx.
  remember (PageIDMarker id) as marker eqn:Emarker.
  remember (NL +:+ marker +:+ NL +:+ old) as tail eqn:Etail.
  remember (pre +:+ PageSection +:+ NL +:+ marker +:+ NL +:+ old +:+ post)
    as c eqn:Ec.
  rewrite Hidx. pose proof (len_nonneg pre) as Hl.
  replace (len pre + 7 =? -1) with false by (symmetry; apply Z.eqb_neq; lia).
  (* the text before the id line *)
  assert (Hto : sliceTo c (len pre + 7) = Some (pre +:+ PageSection +:+ NL)).
  { replace c with ((pre +:+ PageSection +:+ NL)
                    +:+ (marker +:+ NL +:+ old +:+ post))
      by (rewrite Ec, !app_assoc; reflexivity).
    replace (len pre + 7) with (len (pre +:+ PageSection +:+ NL))
      by (rewrite len_app; reflexivity).
    apply sliceTo_app. }
  (* the text behind the section mark *)
  assert (Hc2 : c = (pre +:+ PageSection) +:+ (tail +:+ post))
    by (rewrite Ec, Etail, !app_assoc; reflexivity).
  assert (Hfrom : sliceFrom c (len pre + 6) = Some (tail +:+ post)).
  { rewrite Hc2 at 1.
    replace (len pre + 6) with (len (pre +:+ PageSection))
      by (rewrite len_app; reflexivity).
    apply sliceFrom_app. }
  assert (Htail : Contains tail PageSection = false).
  { rewrite Etail. apply (Contains_line "" _ "#" " PAGE"); try reflexivity.
    apply Contains_line; try reflexivity; [|exact Hold].
    apply Contains_no_first_byte. exact Hhash. }
  assert (Hhead : sliceTo c (len pre) = Some pre)
    by (rewrite Ec; apply sliceTo_app).
  cbn [negb]. rewrite Hto. cbn [mbind option_bind].
  rewrite LastIndex_section. change (len PageSection) with 6.
  rewrite Hfrom. cbn [mbind option_bind]. rewrite Hhead.
  destruct Hpost as [-> | [post' ->]].
  - rewrite !app_nil_r, (Index_None _ _ Htail). reflexivity.
  - assert (E : indexFrom 0 (tail +:+ PageSection +:+ NL +:+ post') PageSection
                = Some (String.length tail)).
    { change (tail +:+ PageSection +:+ NL +:+ post')
        with (tail +:+ String "#" (" PAGE" +:+ NL +:+ post')).
      rewrite (indexFrom_app_clean_tail 0 tail "#" _ "#" " PAGE" Htail eq_refl).
      change (String "#" (" PAGE" +:+ NL +:+ post'))
        with (PageSection +:+ (NL +:+ post')).
      rewrite indexFrom_here. reflexivity. }
    rewrite (Index_Some _ _ _ E).
    pose proof (len_nonneg tail) as Hlt. fold (len tail).
    replace (len tail =? -1) with false by (symmetry; apply Z.eqb_neq; lia).
    cbn [negb mbind option_bind].
    assert (Hend : sliceFrom c (len tail + (len pre + 6))
                   = Some (PageSection +:+ NL +:+ post')).
    { replace c with (((pre +:+ PageSection) +:+ tail)
                      +:+ (PageSection +:+ NL +:+ post'))
        by (rewrite Hc2, !app_assoc; reflexivity).
      replace (len tail + (len pre + 6))
        with (len ((pre +:+ PageSection) +:+ tail))
        by (rewrite !len_app; change (len PageSection) with 6; lia).
      apply sliceFrom_app. }
    rewrite Hend. reflexivity.
Qed.

Lemma replacePage_absent c new marker :
  Contains c marker = false ->
  replacePage c new marker = Some (c +:+ NL +:+ new).
Proof.
  intros Hno. unfold replacePage. rewrite (Index_None _ _ Hno). reflexivity.
Qed.

Lemma rawLines_snoc_NL c :
  rawLines (c +:+ NL) = rawLines c ++ [""]
  \/ (rawLines (c +:+ NL) = rawLines c /\ rawLines c <> []).
Proof.
  induction c as [|x c IH].
  - left. reflexivity.
  - change (String x c +:+ NL) with (String x (c +:+ NL)).
    rewrite !rawLines_cons. destruct (Ascii.eqb x NLc).
    + destruct IH as [-> | [-> _]]; [left | right]; [reflexivity|].
      split; [reflexivity | discriminate].
    + destruct IH as [E | [E Hne]]; rewrite E.
      * destruct (rawLines c) as [|l1 ls1]; [right | left]; [|reflexivity].
        split; [reflexivity | discriminate].
      * right. split; [reflexivity|]. destruct (rawLines c); [congruence | discriminate].
Qed.

Lemma scannable_snoc_NL c : scannable c -> scannable (c +:+ NL).
Proof.
  unfold scannable. intros Hc.
  destruct (rawLines_snoc_NL c) as [-> | [-> _]]; [|exact Hc].
  apply Forall_app. split; [exact Hc|]. constructor; [reflexivity | constructor].
Qed.

Lemma Contains_snoc_NL c id :
  Contains c (PageIDMarker id) = false ->
  Contains (c +:+ NL) (PageIDMarker id) = false.
Proof.
  intros Hno. rewrite <- (app_nil_r NL).
  pose proof (digits_no_NL _ (FormatUint_digits id)) as Hd.
  change (PageIDMarker id) with (String "P" ("ageID: " +:+ FormatUint id)) in *.
  apply Contains_line; [reflexivity | | exact Hno | reflexivity].
  rewrite hasByte_app, Hd. reflexivity.
Qed.

(** The file after [WritePage], in the two states it is made for. *)
Lemma WritePage_file `{MapRange} h p :
  PageID (Header p) <= PageCount h ->
  pageAbsent (File h) (PageID (Header p)) \/ pageInPlace (File h) (PageID (Header p)) ->
  exists pre post,
    WritePage p h = (Ok tt, setFile h (pre +:+ PageContent p +:+ post))
    /\ endsLines pre /\ scannable pre
    /\ Contains pre (PageIDMarker (PageID (Header p))) = false
    /\ (post = "" \/ (exists post', post = PageSection +:+ NL +:+ post')).
Proof.
  intros Hcount Hfile. unfold WritePage.
  replace (PageCount h <? PageID (Header p)) with false
    by (symmetry; apply Z.ltb_ge; lia).
  destruct Hfile as [[Hno Hscan] | (pre & old & post & Hc & He & Hs & Hno & Hold & Hpost)].
  - exists (File h +:+ NL), "".
    rewrite (replacePage_absent _ _ _ Hno), app_nil_r, app_assoc.
    split; [reflexivity|]. split; [right; eexists; reflexivity|].
    split; [apply scannable_snoc_NL; exact Hscan|].
    split; [apply Contains_snoc_NL; exact Hno | left; reflexivity].
  - exists pre, post. rewrite Hc, (replacePage_in_place _ _ _ _ _ Hno Hold Hpost).
    repeat split; assumption.
Qed.

(** ** The order of strings *)

Lemma compare_refl s : String.compare s s = Eq.
Proof.
  pose proof (String.compare_antisym s s) as H.
  destruct (String.compare s s); [reflexivity | discriminate | discriminate].
Qed.

Lemma ltb_irrefl s : String.ltb s s = false.
Proof. unfold String.ltb. rewrite compare_refl. reflexivity. Qed.

Lemma ltb_leb s t : String.ltb s t = true -> String.leb s t = true.
Proof. unfold String.ltb, String.leb. destruct (String.compare s t); congruence. Qed.

Lemma leb_false_ltb s t : String.leb s t = false -> String.ltb t s = true.
Proof.
  unfold String.ltb, String.leb. rewrite (String.compare_antisym t s).
  destruct (String.compare s t); simpl; congruence.
Qed.

Lemma leb_neq_ltb s t : String.leb s t = true -> s <> t -> String.ltb s t = true.
Proof.
  unfold String.ltb, String.leb. intros Hle Hne.
  destruct (String.compare s t) eqn:E; [|reflexivity | discriminate].
  apply String.compare_eq_iff in E. contradiction.
Qed.

Lemma ltb_trans s t u :
  String.ltb s t = true -> String.ltb t u = true -> String.ltb s u = true.
Proof.
  intros Hst Htu. apply leb_neq_ltb.
  - apply Is_true_true. change (String.le s u). trans t.
    + apply Is_true_true, ltb_leb, Hst.
    + apply Is_true_true, ltb_leb, Htu.
  - intros ->. apply ltb_leb in Hst.
    assert (t = u) as -> by (apply String.leb_antisym; [apply ltb_leb, Htu | exact Hst]).
    rewrite ltb_irrefl in Htu. discriminate.
Qed.

(** ** [Split] and [Join] *)

Lemma Split_cons c s sep :
  Split (String c s) sep
  = if Ascii.eqb c sep then "" :: Split s sep
    else match Split s sep with
         | piece :: pieces => String c piece :: pieces
         | [] => [String c ""]
         end.
Proof. reflexivity. Qed.

Lemma Split_no_sep s sep : hasByte sep s = false -> Split s sep = [s].
Proof.
  induction s as [|c s IH]; intros Hs; [reflexivity|].
  simpl in Hs. apply orb_false_iff in Hs as [Hc Hs].
  rewrite Split_cons, Hc, (IH Hs). reflexivity.
Qed.

Lemma Split_app a sep b :
  hasByte sep a = false -> Split (a +:+ String sep b) sep = a :: Split b sep.
Proof.
  induction a as [|c a IH]; intros Ha.
  - change ("" +:+ String sep b) with (String sep b).
    rewrite Split_cons, Ascii.eqb_refl. reflexivity.
  - simpl in Ha. apply orb_false_iff in Ha as [Hc Ha].
    change (String c a +:+ String sep b) with (String c (a +:+ String sep b)).
    rewrite Split_cons, Hc, (IH Ha). reflexivity.
Qed.

Lemma Join_cons e e' rest sep :
  Join (e :: e' :: rest) sep = e +:+ sep +:+ Join (e' :: rest) sep.
Proof. reflexivity. Qed.

Lemma Split_Join ks sep :
  ks <> [] ->
  Forall (fun k => hasByte sep k = false) ks ->
  Split (Join ks (String sep "")) sep = ks.
Proof.
  intros Hne Hall. induction Hall as [|k ks Hk Hall IH]; [congruence|].
  destruct ks as [|k' ks'].
  - apply Split_no_sep. exact Hk.
  - rewrite Join_cons.
    change (k +:+ String sep "" +:+ Join (k' :: ks') (String sep ""))
      with (k +:+ String sep (Join (k' :: ks') (String sep ""))).
    rewrite (Split_app _ _ _ Hk), IH; [reflexivity | discriminate].
Qed.

Lemma Join_nonempty ks sep :
  ks <> [] -> Forall (fun k => k <> "") ks -> Join ks sep <> "".
Proof.
  intros Hne Hall. destruct Hall as [|k ks Hk Hall]; [congruence|].
  destruct ks as [|k' ks']; [exact Hk|].
  rewrite Join_cons. destruct k; [congruence | discriminate].
Qed.

Lemma allBytes_Join P ks sep :
  Forall (fun k => allBytes P k = true) ks ->
  allBytes P sep = true ->
  allBytes P (Join ks sep) = true.
Proof.
  intros Hall Hsep. induction Hall as [|k ks Hk Hall IH]; [reflexivity|].
  destruct ks as [|k' ks']; [exact Hk|].
  rewrite Join_cons, !allBytes_app, Hk, Hsep, IH. reflexivity.
Qed.

Lemma len_Join ks sep n :
  Forall (fun k => len k <= n) ks ->
  len (Join ks sep) <= Z.of_nat (length ks) * (n + len sep).
Proof.
  intros Hall. pose proof (len_nonneg sep) as Hs.
  induction Hall as [|k ks Hk Hall IH]; [simpl; unfold len; simpl; lia|].
  destruct ks as [|k' ks'].
  - simpl. lia.
  - rewrite Join_cons, !len_app.
    change (length (k :: k' :: ks')) with (S (length (k' :: ks'))).
    rewrite Nat2Z.inj_succ. lia.
Qed.

(** ** The root page *)

Lemma keyByte_plain c : keyByte c = true -> plainByte c = true.
Proof. unfold keyByte. intros [Hc _]%andb_true_iff. exact Hc. Qed.

Lemma plainKey_plain k : plainKey k -> allBytes plainByte k = true.
Proof. intros (_ & Hk & _). eapply allBytes_impl; [apply keyByte_plain | exact Hk]. Qed.

Lemma plainKey_no_comma k : plainKey k -> hasByte "," k = false.
Proof.
  intros (_ & Hk & _). eapply allBytes_hasByte; [exact Hk | reflexivity].
Qed.

Lemma digits_plain n : allBytes plainByte (FormatUint n) = true.
Proof. eapply allBytes_impl; [apply isDigit_plain | apply FormatUint_digits]. Qed.

Lemma pointerOf_plain e : allBytes plainByte (pointerOf e) = true.
Proof.
  unfold pointerOf, BPlusTree.formatPointer.
  rewrite !allBytes_app, !digits_plain. reflexivity.
Qed.

Lemma pointerOf_no_comma e : hasByte "," (pointerOf e) = false.
Proof.
  unfold pointerOf, BPlusTree.formatPointer. rewrite !hasByte_app.
  rewrite !(allBytes_hasByte isDigit "," _ (FormatUint_digits _) eq_refl).
  reflexivity.
Qed.

Lemma pointerOf_nonempty e : pointerOf e <> "".
Proof.
  unfold pointerOf, BPlusTree.formatPointer.
  pose proof (FormatUint_nonempty (fst (snd e))) as Hn.
  destruct (FormatUint (fst (snd e))); [congruence | discriminate].
Qed.

Lemma pointerOf_len e : len (pointerOf e) <= 41.
Proof.
  unfold pointerOf, BPlusTree.formatPointer. rewrite !len_app.
  pose proof (FormatUint_len (fst (snd e))).
  pose proof (FormatUint_len (snd (snd e))).
  change (len ":") with 1. lia.
Qed.

Lemma carriedValue_plain v : allBytes plainByte v = true -> carriedValue v.
Proof.
  intros Hv. split; [apply TrimSpace_plain; exact Hv|].
  eapply allBytes_hasByte; [exact Hv | reflexivity].
Qed.

Lemma plain_Join_keys ks :
  Forall plainKey ks -> allBytes plainByte (Join ks ",") = true.
Proof.
  intros Hks. apply allBytes_Join; [|reflexivity].
  eapply Forall_impl; [exact Hks|]. intros k. apply plainKey_plain.
Qed.

Lemma plain_Join_pointers (es : list (string * (Z * Z))) :
  allBytes plainByte (Join (map pointerOf es) ",") = true.
Proof.
  apply allBytes_Join; [|reflexivity].
  apply Forall_forall. intros x [e [-> _]]%list_elem_of_fmap. apply pointerOf_plain.
Qed.

Lemma carried_rootPage (es : list (string * (Z * Z))) :
  Forall plainKey (es.*1) -> (length es <= 3)%nat -> carriedPage (rootPage es).
Proof.
  intros Hks Hlen. unfold carriedPage, rootPage, rootData.
  cbn [Header Data PageID PageLSN PageType].
  split; [split; reflexivity|].
  split; [split; [discriminate | reflexivity]|].
  split; [split; reflexivity|].
  split; [reflexivity|].
  apply map_Forall_insert_2; [|apply map_Forall_insert_2;
    [|apply map_Forall_insert_2; [|apply map_Forall_empty]]].
  - split; [repeat split; try reflexivity; discriminate|].
    split; [apply carriedValue_plain, plain_Join_pointers|].
    assert (Hl : len (Join (map pointerOf es) ",")
                 <= Z.of_nat (length (map pointerOf es)) * (41 + len ",")).
    { apply len_Join. apply Forall_forall.
      intros x [e [-> _]]%list_elem_of_fmap. apply pointerOf_len. }
    rewrite length_map in Hl. change (len ",") with 1 in Hl.
    change (len "Pointers") with 8. unfold MaxScanTokenSize. nia.
  - split; [repeat split; try reflexivity; discriminate|].
    split; [apply carriedValue_plain, plain_Join_keys; exact Hks|].
    assert (Hl : len (Join (es.*1) ",")
                 <= Z.of_nat (length (es.*1)) * (20000 + len ",")).
    { apply len_Join. eapply Forall_impl; [exact Hks|]. intros k (_ & _ & Hk). exact Hk. }
    rewrite length_fmap in Hl. change (len ",") with 1 in Hl.
    change (len "Keys") with 4. unfold MaxScanTokenSize. nia.
  - split; [repeat split; try reflexivity; discriminate|].
    split; [split; reflexivity | reflexivity].
Qed.

Lemma Contains_no_byte c s m :
  hasByte c s = false -> hasByte c m = true -> Contains s m = false.
Proof.
  intros Hs Hm. destruct (Contains s m) eqn:E; [|reflexivity].
  apply Contains_true_iff in E as (a & b & ->).
  rewrite !hasByte_app, Hm, orb_true_r in Hs. discriminate.
Qed.

Lemma Contains_app_no_first a b c0 m :
  hasByte c0 a = false ->
  Contains b (String c0 m) = false ->
  Contains (a +:+ b) (String c0 m) = false.
Proof.
  intros Ha Hb. unfold Contains. rewrite indexFrom_skip.
  - rewrite indexFrom_shift. unfold Contains in Hb.
    destruct (indexFrom 0 b (String c0 m)); [discriminate | reflexivity].
  - intros j Hj. clear Hb. revert j Hj.
    induction a as [|x a IH]; intros j Hj; [simpl in Hj; lia|].
    simpl in Ha. apply orb_false_iff in Ha as [Hx Ha].
    destruct j as [|j].
    + change (drop 0 (String x a) +:+ b) with (String x (a +:+ b)).
      simpl HasPrefix. rewrite Hx. reflexivity.
    + change (drop (S j) (String x a)) with (drop j a).
      apply IH; [exact Ha | simpl in Hj; lia].
Qed.

Lemma plain_no_blank v : allBytes plainByte v = true -> hasByte " " v = false.
Proof. intros Hv. eapply allBytes_hasByte; [exact Hv | reflexivity]. Qed.

Lemma markFree_rootPage (es : list (string * (Z * Z))) :
  Forall plainKey (es.*1) -> markFree (rootPage es).
Proof.
  intros Hks. split; [reflexivity|].
  unfold rootPage, rootData. cbn [Data].
  apply map_Forall_insert_2; [|apply map_Forall_insert_2;
    [|apply map_Forall_insert_2; [|apply map_Forall_empty]]].
  - apply (Contains_app_no_first "Pointers: " _ "#" " PAGE"); [reflexivity|].
    apply (Contains_no_byte " "); [|reflexivity].
    apply plain_no_blank, plain_Join_pointers.
  - apply (Contains_app_no_first "Keys: " _ "#" " PAGE"); [reflexivity|].
    apply (Contains_no_byte " "); [|reflexivity].
    apply plain_no_blank, plain_Join_keys. exact Hks.
  - reflexivity.
Qed.

Lemma PageContent_shape `{MapRange} p :
  PageContent p
  = PageSection +:+ NL +:+ PageIDMarker (PageID (Header p)) +:+ NL +:+ pageBody p.
Proof.
  unfold PageContent, PageIDMarker, pageBody. rewrite !app_assoc. reflexivity.
Qed.

Lemma concatLines_free kvs :
  Forall (fun kv => Contains (lineOf kv) PageSection = false) kvs ->
  Contains (concatLines (map dataLine kvs)) PageSection = false.
Proof.
  induction 1 as [|[k v] kvs Hkv _ IH]; [reflexivity|].
  change (concatLines (map dataLine ((k, v) :: kvs)))
    with ((k +:+ ": " +:+ v +:+ NL) +:+ concatLines (map dataLine kvs)).
  replace ((k +:+ ": " +:+ v +:+ NL) +:+ concatLines (map dataLine kvs))
    with (lineOf (k, v) +:+ NL +:+ concatLines (map dataLine kvs))
    by (unfold lineOf; cbn [fst snd]; rewrite !app_assoc; reflexivity).
  apply (Contains_line _ _ "#" " PAGE"); try reflexivity; assumption.
Qed.

Lemma pageBody_free `{MapRange} p :
  markFree p -> Contains (pageBody p) PageSection = false.
Proof.
  intros [Ht Hm]. unfold pageBody.
  replace ("LSN: " +:+ FormatUint (PageLSN (Header p)) +:+ NL
           +:+ "Type: " +:+ PageType (Header p) +:+ NL
           +:+ concatLines (map dataLine (mapRange (Data p))))
    with (("LSN: " +:+ FormatUint (PageLSN (Header p))) +:+ NL
          +:+ ("Type: " +:+ PageType (Header p)) +:+ NL
          +:+ concatLines (map dataLine (mapRange (Data p))))
    by (rewrite !app_assoc; reflexivity).
  apply (Contains_line _ _ "#" " PAGE"); try reflexivity.
  - apply Contains_no_first_byte. rewrite hasByte_app.
    rewrite (allBytes_hasByte isDigit "#" _ (FormatUint_digits _) eq_refl).
    reflexivity.
  - apply (Contains_line _ _ "#" " PAGE"); try reflexivity; [exact Ht|].
    apply concatLines_free. apply Forall_forall. intros [k v] Hin.
    rewrite (mapRange_perm (Data p)) in Hin. apply elem_of_map_to_list in Hin.
    exact (Hm k v Hin).
Qed.

Lemma pageBody_NL_free `{MapRange} p :
  markFree p -> Contains (pageBody p +:+ NL) PageSection = false.
Proof.
  intros Hfree. rewrite <- (app_nil_r NL).
  apply (Contains_line _ _ "#" " PAGE"); try reflexivity.
  apply pageBody_free. exact Hfree.
Qed.

(** The text [WritePage] leaves when it writes a page over the text of a
    mark-free page with the same id. *)
Lemma replacePage_over `{MapRange} p0 pre post new :
  Contains pre (PageIDMarker (PageID (Header p0))) = false ->
  sectionEnd post ->
  markFree p0 ->
  replacePage (pre +:+ PageContent p0 +:+ post) new
    (PageIDMarker (PageID (Header p0)))
  = Some (pre +:+ new +:+ nextSection post).
Proof.
  intros Hno Hpost Hfree. rewrite PageContent_shape.
  destruct Hpost as [-> | [[post' ->] | [post' ->]]].
  - replace (pre +:+ (PageSection +:+ NL +:+ PageIDMarker (PageID (Header p0))
                      +:+ NL +:+ pageBody p0) +:+ "")
      with (pre +:+ PageSection +:+ NL +:+ PageIDMarker (PageID (Header p0))
            +:+ NL +:+ pageBody p0 +:+ "")
      by (rewrite !app_assoc; reflexivity).
    apply replacePage_in_place;
      [exact Hno | apply pageBody_free; exact Hfree | left; reflexivity].
  - replace (pre +:+ (PageSection +:+ NL +:+ PageIDMarker (PageID (Header p0))
                      +:+ NL +:+ pageBody p0) +:+ PageSection +:+ NL +:+ post')
      with (pre +:+ PageSection +:+ NL +:+ PageIDMarker (PageID (Header p0))
            +:+ NL +:+ pageBody p0 +:+ (PageSection +:+ NL +:+ post'))
      by (rewrite !app_assoc; reflexivity).
    apply replacePage_in_place;
      [exact Hno | apply pageBody_free; exact Hfree | right; eexists; reflexivity].
  - replace (pre +:+ (PageSection +:+ NL +:+ PageIDMarker (PageID (Header p0))
                      +:+ NL +:+ pageBody p0)
             +:+ NL +:+ PageSection +:+ NL +:+ post')
      with (pre +:+ PageSection +:+ NL +:+ PageIDMarker (PageID (Header p0))
            +:+ NL +:+ (pageBody p0 +:+ NL) +:+ (PageSection +:+ NL +:+ post'))
      by (rewrite !app_assoc; reflexivity).
    apply replacePage_in_place;
      [exact Hno | apply pageBody_NL_free; exact Hfree | right; eexists; reflexivity].
Qed.

Lemma sectionEnd_next post :
  sectionEnd post ->
  nextSection post = ""
  \/ (exists post', nextSection post = PageSection +:+ NL +:+ post').
Proof.
  intros [-> | [[post' ->] | [post' ->]]];
    [left; reflexivity | right; eexists; reflexivity | right; eexists; reflexivity].
Qed.

Lemma WritePage_over `{MapRange} h p0 p pre post :
  File h = pre +:+ PageContent p0 +:+ post ->
  PageID (Header p0) = PageID (Header p) ->
  Contains pre (PageIDMarker (PageID (Header p))) = false ->
  sectionEnd post ->
  markFree p0 ->
  PageID (Header p) <= PageCount h ->
  WritePage p h
  = (Ok tt, setFile h (pre +:+ PageContent p +:+ nextSection post)).
Proof.
  intros Hfile Hid Hno Hpost Hfree Hcount. unfold WritePage.
  rewrite Hfile, <- Hid. rewrite <- Hid in Hno.
  rewrite (replacePage_over p0 pre post _ Hno Hpost Hfree).
  rewrite Hid. replace (PageCount h <? PageID (Header p)) with false
    by (symmetry; apply Z.ltb_ge; lia).
  reflexivity.
Qed.

(** ** Reading the root leaf *)

Lemma rootData_IsLeaf ks ps : rootData ks ps !! "IsLeaf" = Some "true".
Proof.
  unfold rootData.
  rewrite lookup_insert_ne by discriminate.
  rewrite lookup_insert_ne by discriminate.
  apply lookup_insert_eq.
Qed.

Lemma rootData_Keys ks ps : rootData ks ps !! "Keys" = Some (Join ks ",").
Proof.
  unfold rootData. rewrite lookup_insert_ne by discriminate.
  apply lookup_insert_eq.
Qed.

Lemma rootData_Pointers ks ps : rootData ks ps !! "Pointers" = Some (Join ps ",").
Proof. unfold rootData. apply lookup_insert_eq. Qed.

Lemma field_Join ks :
  Forall (fun k => k <> "" /\ hasByte "," k = false) ks ->
  (if decide (Join ks "," = "") then [] else Split (Join ks ",") ",") = ks.
Proof.
  intros Hks. destruct ks as [|k ks']; [reflexivity|].
  destruct (decide _) as [E | _].
  - exfalso. revert E. apply Join_nonempty; [discriminate|].
    eapply Forall_impl; [exact Hks|]. intros x [Hx _]. exact Hx.
  - apply Split_Join; [discriminate|].
    eapply Forall_impl; [exact Hks|]. intros x [_ Hx]. exact Hx.
Qed.

Lemma holdsLeaf_keys `{MapRange} h es : holdsLeaf h es -> holdsKeys h es.
Proof.
  intros (Hfile & Hcount & Hnd & Hasc & Hks & _ & Hlen).
  exact (conj Hfile (conj Hcount (conj Hnd (conj Hasc (conj Hks Hlen))))).
Qed.

Lemma holdsKeys_leaf `{MapRange} h es :
  holdsKeys h es -> Forall pointerInRange (es.*2) -> holdsLeaf h es.
Proof.
  intros (Hfile & Hcount & Hnd & Hasc & Hks & Hlen) Hrange.
  exact (conj Hfile (conj Hcount (conj Hnd (conj Hasc (conj Hks (conj Hrange Hlen)))))).
Qed.

Lemma readNode_keys `{MapRange} h es :
  holdsKeys h es -> BPlusTree.readNode 1 h = (Ok (rootNode es), h).
Proof.
  intros ((pre & post & Hfile & He & Hs & Hno & Hpost) & Hcount & _ & _ & Hks & Hlen).
  pose proof (ReadPage_written h (rootPage es) pre post Hfile He Hs Hno Hpost
                (carried_rootPage es Hks Hlen) Hcount) as Hread.
  change (PageID (Header (rootPage es))) with 1 in Hread.
  unfold BPlusTree.readNode, bind. rewrite Hread. unfold ret.
  f_equal. unfold rootNode. cbn [Data rootPage].
  rewrite rootData_IsLeaf, rootData_Keys, rootData_Pointers.
  rewrite !field_Join.
  - reflexivity.
  - apply Forall_forall. intros x [e [-> _]]%list_elem_of_fmap.
    split; [apply pointerOf_nonempty | apply pointerOf_no_comma].
  - eapply Forall_impl; [exact Hks|]. intros k Hk.
    split; [apply Hk | apply plainKey_no_comma, Hk].
Qed.

Lemma readNode_leaf `{MapRange} h es :
  holdsLeaf h es -> BPlusTree.readNode 1 h = (Ok (rootNode es), h).
Proof. intros Hh. apply readNode_keys, holdsLeaf_keys, Hh. Qed.

Lemma findIndex_Some keys key i j :
  BPlusTree.findIndex keys key i = Some j ->
  exists n, j = (i + n)%nat /\ keys !! n = Some key.
Proof.
  revert i. induction keys as [|k keys IH]; intros i Hf; [discriminate|].
  simpl in Hf. destruct (decide (k = key)) as [-> | _].
  - injection Hf as <-. exists 0%nat. split; [lia | reflexivity].
  - destruct (IH _ Hf) as (n & -> & Hn). exists (S n). split; [lia | exact Hn].
Qed.

Lemma findIndex_not_None keys key i :
  key ∈ keys -> BPlusTree.findIndex keys key i <> None.
Proof.
  revert i. induction keys as [|k keys IH]; intros i Hin.
  - apply elem_of_nil in Hin. contradiction.
  - simpl. destruct (decide (k = key)) as [-> | Hne]; [discriminate|].
    apply IH. apply elem_of_cons in Hin as [-> | Hin]; [congruence | exact Hin].
Qed.

Lemma Split_pointer p e :
  Split (BPlusTree.formatPointer p e) ":" = [FormatUint p; FormatUint e].
Proof.
  unfold BPlusTree.formatPointer.
  change (FormatUint p +:+ ":" +:+ FormatUint e)
    with (FormatUint p +:+ String ":" (FormatUint e)).
  rewrite Split_app, Split_no_sep; [reflexivity | |];
    (eapply allBytes_hasByte; [apply FormatUint_digits | reflexivity]).
Qed.

(** [Find] on a store that holds the leaf: the pointer of the key in the
    index, or (0, 0). *)
Lemma Find_leaf `{MapRange} h es key :
  holdsLeaf h es ->
  BPlusTree.Find rootTree key h
  = (Ok (default (0, 0) ((list_to_map es : gmap string (Z * Z)) !! key)), h).
Proof.
  intros Hh. pose proof (readNode_leaf h es Hh) as Hread.
  destruct Hh as (_ & _ & Hnd & _ & _ & Hrange & _).
  unfold BPlusTree.Find, bind. cbn [RootPageID rootTree]. rewrite Hread.
  cbn [IsLeaf rootNode negb Keys Pointers].
  destruct (BPlusTree.findIndex (es.*1) key 0) as [i|] eqn:Efind.
  - apply findIndex_Some in Efind as (n & -> & Hn).
    rewrite list_lookup_fmap in Hn.
    destruct (es !! n) as [[k [p e]]|] eqn:En; [|discriminate].
    injection Hn as ->.
    change (0 + n)%nat with n. rewrite list_lookup_fmap, En. cbn [fmap option_fmap option_map].
    unfold pointerOf. cbn [fst snd]. rewrite Split_pointer.
    assert (Hpe : pointerInRange (p, e)).
    { apply (proj1 (Forall_forall _ _) Hrange).
      apply list_elem_of_fmap. exists (key, (p, e)). split; [reflexivity|].
      apply list_elem_of_lookup. eauto. }
    destruct Hpe as [Hp He]. cbn [fst snd] in Hp, He.
    rewrite !ParseUint32_FormatUint by assumption.
    assert ((list_to_map es : gmap string (Z * Z)) !! key = Some (p, e)) as ->.
    { apply elem_of_list_to_map_1; [exact Hnd|]. apply list_elem_of_lookup. eauto. }
    reflexivity.
  - assert (Hnot : key ∉ es.*1).
    { intros Hin. exact (findIndex_not_None _ _ 0 Hin Efind). }
    rewrite (not_elem_of_list_to_map_1 es key Hnot). reflexivity.
Qed.

(** ** Writing the root leaf *)

Lemma nodeData_root es ks ps :
  BPlusTree.nodeData (BPlusTree.withKeysPointers (rootNode es) ks ps)
  = rootData ks ps.
Proof.
  unfold BPlusTree.nodeData, BPlusTree.withKeysPointers, rootNode, rootPage, rootData.
  cbn [NodePage IsLeaf Keys Pointers Data FormatBool].
  apply map_eq. intros k.
  destruct (decide (k = "Pointers")) as [-> | HP];
    [rewrite !lookup_insert_eq; reflexivity|].
  rewrite !(lookup_insert_ne _ "Pointers") by congruence.
  destruct (decide (k = "Keys")) as [-> | HK];
    [rewrite !lookup_insert_eq; reflexivity|].
  rewrite !(lookup_insert_ne _ "Keys") by congruence.
  destruct (decide (k = "IsLeaf")) as [-> | HL];
    [rewrite !lookup_insert_eq; reflexivity|].
  rewrite !(lookup_insert_ne _ "IsLeaf") by congruence.
  rewrite !(lookup_insert_ne _ "Pointers") by congruence.
  rewrite !(lookup_insert_ne _ "Keys") by congruence.
  rewrite !(lookup_insert_ne _ "IsLeaf") by congruence.
  reflexivity.
Qed.

Lemma writeNode_as_WritePage `{MapRange} es (es' : list (string * (Z * Z))) :
  BPlusTree.writeNode
    (BPlusTree.withKeysPointers (rootNode es) (es'.*1) (map pointerOf es'))
  = WritePage (rootPage es').
Proof.
  unfold BPlusTree.writeNode. rewrite nodeData_root. reflexivity.
Qed.

(** The store after the leaf was written with other entries. *)
Lemma WritePage_leaf `{MapRange} h es es' pre post :
  File h = pre +:+ PageContent (rootPage es) +:+ post ->
  Contains pre (PageIDMarker 1) = false ->
  sectionEnd post ->
  Forall plainKey (es.*1) ->
  1 <= PageCount h ->
  WritePage (rootPage es') h
  = (Ok tt, setFile h (pre +:+ PageContent (rootPage es') +:+ nextSection post)).
Proof.
  intros Hfile Hno Hpost Hks Hcount.
  apply (WritePage_over h (rootPage es) (rootPage es') pre post);
    try assumption; [reflexivity|].
  apply markFree_rootPage. exact Hks.
Qed.

Lemma writeNode_keys `{MapRange} h es es' :
  holdsKeys h es ->
  NoDup (es'.*1) -> ascending (es'.*1) ->
  Forall plainKey (es'.*1) -> (length es' <= 3)%nat ->
  exists h',
    BPlusTree.writeNode
      (BPlusTree.withKeysPointers (rootNode es) (es'.*1) (map pointerOf es')) h
    = (Ok tt, h')
    /\ holdsKeys h' es'.
Proof.
  intros ((pre & post & Hfile & He & Hs & Hno & Hpost) & Hcount & _ & _ & Hks & _)
         Hnd Hasc Hks' Hlen.
  rewrite writeNode_as_WritePage.
  rewrite (WritePage_leaf h es es' pre post Hfile Hno Hpost Hks Hcount).
  eexists. split; [reflexivity|].
  split.
  { exists pre, (nextSection post). split; [reflexivity|].
    repeat split; try assumption.
    apply sectionEnd_simple, sectionEnd_next. exact Hpost. }
  repeat split; assumption.
Qed.

Lemma insertAt_perm {A} i (x : A) l : insertAt i x l ≡ₚ x :: l.
Proof.
  unfold insertAt. rewrite <- Permutation_middle, take_drop. reflexivity.
Qed.

Lemma insertAt_fmap {A B} (f : A -> B) i x l :
  f <$> insertAt i x l = insertAt i (f x) (f <$> l).
Proof.
  unfold insertAt. rewrite fmap_app, fmap_cons, fmap_take, fmap_drop. reflexivity.
Qed.

Lemma removeAt_fmap {A B} (f : A -> B) i l :
  f <$> removeAt i l = removeAt i (f <$> l).
Proof.
  unfold removeAt. rewrite fmap_app, fmap_take, fmap_drop. reflexivity.
Qed.

Lemma removeAt_sublist {A} i (l : list A) : removeAt i l `sublist_of` l.
Proof.
  unfold removeAt. rewrite <- (take_drop i l) at 3.
  apply sublist_app; [reflexivity|].
  replace (S i) with (i + 1)%nat by lia. rewrite <- (drop_drop l 1 i).
  destruct (skipn i l) as [|x r]; [reflexivity|].
  apply sublist_cons. reflexivity.
Qed.

(** The place [sort.SearchStrings] finds in a leaf with room keeps the
    keys ascending. *)
Lemma SearchStrings_place ks key :
  (length ks <= 2)%nat -> ascending ks -> key ∉ ks ->
  (SearchStrings ks key <= length ks)%nat
  /\ ascending (insertAt (SearchStrings ks key) key ks).
Proof.
  intros Hlen Hasc Hnot.
  destruct ks as [|a [|b [|c ks]]]; [| | |simpl in Hlen; lia].
  - split; [reflexivity | exact I].
  - assert (Ha : key <> a) by (intros ->; apply Hnot; left).
    unfold SearchStrings, insertAt. simpl.
    destruct (String.leb key a) eqn:E; simpl.
    + split; [lia|]. split; [apply leb_neq_ltb; assumption | exact I].
    + split; [lia|]. split; [apply leb_false_ltb; assumption | exact I].
  - assert (Ha : key <> a) by (intros ->; apply Hnot; left).
    assert (Hb : key <> b) by (intros ->; apply Hnot; right; left).
    destruct Hasc as [Hab _].
    unfold SearchStrings, insertAt. simpl.
    destruct (String.leb key b) eqn:Eb; simpl.
    + destruct (String.leb key a) eqn:Ea; simpl.
      * split; [lia|]. split; [apply leb_neq_ltb; assumption|].
        split; [exact Hab | exact I].
      * split; [lia|]. split; [apply leb_false_ltb; assumption|].
        split; [apply leb_neq_ltb; assumption | exact I].
    + split; [lia|]. split; [exact Hab|].
      split; [apply leb_false_ltb; assumption | exact I].
Qed.

Lemma ascending_tail k ks : ascending (k :: ks) -> ascending ks.
Proof. destruct ks as [|k' ks']; [intros _; exact I | intros [_ H]; exact H]. Qed.

Lemma ascending_remove l1 x l2 :
  ascending (l1 ++ x :: l2) -> ascending (l1 ++ l2).
Proof.
  induction l1 as [|a l1 IH]; intros Hasc.
  - apply ascending_tail in Hasc. exact Hasc.
  - destruct l1 as [|a' l1'].
    + simpl in *. destruct Hasc as [Hax Hasc].
      destruct l2 as [|y l2']; [exact I|].
      destruct Hasc as [Hxy Hasc]. split; [exact (ltb_trans _ _ _ Hax Hxy) | exact Hasc].
    + change ((a :: a' :: l1') ++ x :: l2) with (a :: a' :: (l1' ++ x :: l2)) in Hasc.
      destruct Hasc as [Haa Hasc].
      change ((a :: a' :: l1') ++ l2) with (a :: a' :: (l1' ++ l2)).
      split; [exact Haa|]. apply IH. exact Hasc.
Qed.

Lemma removeAt_ascending i ks : ascending ks -> ascending (removeAt i ks).
Proof.
  intros Hasc. unfold removeAt.
  destruct (ks !! i) as [x|] eqn:E.
  - rewrite <- (take_drop_middle ks i x E) in Hasc.
    apply ascending_remove in Hasc. exact Hasc.
  - apply lookup_ge_None in E.
    rewrite take_ge, drop_ge, List.app_nil_r by lia. exact Hasc.
Qed.

(** ** [Insert] and [Delete] on a store that holds the leaf *)

Lemma Forall_of_sublist {A} (P : A -> Prop) l1 l2 :
  l1 `sublist_of` l2 -> Forall P l2 -> Forall P l1.
Proof.
  intros Hsub Hall. apply Forall_forall. intros x Hx.
  apply (proj1 (Forall_forall _ _) Hall). exact (elem_of_sublist _ _ _ Hx Hsub).
Qed.

(** With room in the leaf, [Insert] writes the root page with the entry
    at its place. *)
Lemma Insert_keys_as_WritePage `{MapRange} h es key p e :
  holdsKeys h es ->
  key ∉ es.*1 -> (length es < 3)%nat ->
  BPlusTree.Insert rootTree key p e h
  = WritePage (rootPage (insertEntry key (p, e) es)) h.
Proof.
  intros Hh Hnot Hlen.
  pose proof (readNode_keys h es Hh) as Hread.
  pose proof Hh as (_ & _ & Hnd & Hasc & Hks & _).
  destruct (SearchStrings_place (es.*1) key) as [Hi _];
    [rewrite length_fmap; lia | exact Hasc | exact Hnot |].
  rewrite length_fmap in Hi.
  rewrite <- writeNode_as_WritePage with (es := es).
  unfold BPlusTree.Insert, bind. cbn [RootPageID rootTree]. rewrite Hread.
  cbn [IsLeaf rootNode Keys Pointers andb].
  replace (Z.of_nat (length (es.*1)) <? BTreeOrder - 1) with true.
  2:{ symmetry. apply Z.ltb_lt. rewrite length_fmap. unfold BTreeOrder. lia. }
  unfold BPlusTree.sliceToL, BPlusTree.sliceFromL. rewrite length_map.
  replace (SearchStrings (es.*1) key <=? length es)%nat with true
    by (symmetry; apply Nat.leb_le; exact Hi).
  f_equal. f_equal.
  - unfold insertEntry. rewrite insertAt_fmap. reflexivity.
  - unfold insertEntry. change (map pointerOf) with (fmap (M := list) pointerOf).
    rewrite insertAt_fmap. reflexivity.
Qed.

Lemma Insert_as_WritePage `{MapRange} h es key p e :
  holdsLeaf h es ->
  key ∉ es.*1 -> (length es < 3)%nat ->
  BPlusTree.Insert rootTree key p e h
  = WritePage (rootPage (insertEntry key (p, e) es)) h.
Proof. intros Hh. apply Insert_keys_as_WritePage, holdsLeaf_keys, Hh. Qed.

(** An insert into a leaf with room: whatever the pointer, the key is put
    at its place among the keys. *)
Lemma Insert_keys `{MapRange} h es key p e :
  holdsKeys h es ->
  plainKey key -> key ∉ es.*1 -> (length es < 3)%nat ->
  exists h',
    BPlusTree.Insert rootTree key p e h = (Ok tt, h')
    /\ holdsKeys h' (insertEntry key (p, e) es).
Proof.
  intros Hh Hkey Hnot Hlen.
  pose proof Hh as (_ & _ & Hnd & Hasc & Hks & _).
  destruct (SearchStrings_place (es.*1) key) as [_ Hasc'];
    [rewrite length_fmap; lia | exact Hasc | exact Hnot |].
  assert (Hperm : insertEntry key (p, e) es ≡ₚ (key, (p, e)) :: es)
    by apply insertAt_perm.
  rewrite (Insert_keys_as_WritePage h es key p e Hh Hnot Hlen).
  rewrite <- writeNode_as_WritePage with (es := es).
  apply writeNode_keys; [exact Hh | | | |].
  - rewrite Hperm. apply NoDup_cons. split; assumption.
  - unfold insertEntry. rewrite insertAt_fmap. exact Hasc'.
  - rewrite Hperm. constructor; assumption.
  - rewrite Hperm. simpl. lia.
Qed.

Lemma Insert_leaf `{MapRange} h es key p e :
  holdsLeaf h es ->
  plainKey key -> key ∉ es.*1 -> (length es < 3)%nat ->
  pointerInRange (p, e) ->
  exists h',
    BPlusTree.Insert rootTree key p e h = (Ok tt, h')
    /\ holdsLeaf h' (insertEntry key (p, e) es).
Proof.
  intros Hh Hkey Hnot Hlen Hpe.
  destruct (Insert_keys h es key p e (holdsLeaf_keys _ _ Hh) Hkey Hnot Hlen)
    as (h' & Hins & Hh').
  exists h'. split; [exact Hins|]. apply holdsKeys_leaf; [exact Hh'|].
  destruct Hh as (_ & _ & _ & _ & _ & Hrange & _).
  assert (Hperm : insertEntry key (p, e) es ≡ₚ (key, (p, e)) :: es)
    by apply insertAt_perm.
  rewrite Hperm. constructor; assumption.
Qed.

Lemma Insert_keys_full `{MapRange} h es key p e :
  holdsKeys h es -> length es = 3%nat ->
  BPlusTree.Insert rootTree key p e h = (Ok tt, h).
Proof.
  intros Hh Hlen. pose proof (readNode_keys h es Hh) as Hread.
  unfold BPlusTree.Insert, bind. cbn [RootPageID rootTree]. rewrite Hread.
  cbn [IsLeaf rootNode Keys andb]. rewrite length_fmap, Hlen. reflexivity.
Qed.

Lemma Insert_leaf_full `{MapRange} h es key p e :
  holdsLeaf h es -> length es = 3%nat ->
  BPlusTree.Insert rootTree key p e h = (Ok tt, h).
Proof. intros Hh. apply Insert_keys_full, holdsLeaf_keys, Hh. Qed.

Lemma deleteEntry_sublist key (es : list (string * (Z * Z))) :
  deleteEntry key es `sublist_of` es.
Proof.
  unfold deleteEntry. destruct (BPlusTree.findIndex (es.*1) key 0);
    [apply removeAt_sublist | reflexivity].
Qed.

Lemma Delete_keys `{MapRange} h es key :
  holdsKeys h es ->
  holdsKeys (snd (BPlusTree.Delete rootTree key h)) (deleteEntry key es)
  /\ fst (BPlusTree.Delete rootTree key h)
     = if bool_decide (key ∈ es.*1) then Ok tt else Err ErrKeyNotFoundForDeletion.
Proof.
  intros Hh. pose proof (readNode_keys h es Hh) as Hread.
  pose proof Hh as (_ & _ & Hnd & Hasc & Hks & Hlen).
  unfold BPlusTree.Delete, bind, deleteEntry. cbn [RootPageID rootTree].
  rewrite Hread. cbn [IsLeaf rootNode Keys Pointers negb].
  destruct (BPlusTree.findIndex (es.*1) key 0) as [i|] eqn:Efind.
  - apply findIndex_Some in Efind as (n & -> & Hn). change (0 + n)%nat with n.
    assert (Hin : key ∈ es.*1) by (apply list_elem_of_lookup; eauto).
    rewrite (bool_decide_eq_true_2 _ Hin).
    apply lookup_lt_Some in Hn as Hlt. rewrite length_fmap in Hlt.
    pose proof (removeAt_sublist n es) as Hsub.
    destruct (writeNode_keys h es (removeAt n es) Hh) as (h' & Hw & Hh').
    { apply (sublist_NoDup _ (es.*1)); [exact Hnd | apply fmap_sublist; exact Hsub]. }
    { rewrite removeAt_fmap. apply removeAt_ascending. exact Hasc. }
    { apply (Forall_of_sublist _ _ (es.*1)); [apply fmap_sublist; exact Hsub | exact Hks]. }
    { apply sublist_length in Hsub. lia. }
    unfold BPlusTree.sliceToL, BPlusTree.sliceFromL. rewrite length_map.
    replace (n <=? length es)%nat with true by (symmetry; apply Nat.leb_le; lia).
    replace (S n <=? length es)%nat with true by (symmetry; apply Nat.leb_le; lia).
    assert (Hnode :
      BPlusTree.withKeysPointers (rootNode es)
        (firstn n (es.*1) ++ skipn (S n) (es.*1))
        (firstn n (map pointerOf es) ++ skipn (S n) (map pointerOf es))
      = BPlusTree.withKeysPointers (rootNode es) ((removeAt n es).*1)
          (map pointerOf (removeAt n es))).
    { f_equal.
      - rewrite removeAt_fmap. reflexivity.
      - change (map pointerOf) with (fmap (M := list) pointerOf).
        rewrite removeAt_fmap. reflexivity. }
    rewrite Hnode, Hw. split; [exact Hh' | reflexivity].
  - assert (Hnot : key ∉ es.*1).
    { intros Hin. exact (findIndex_not_None _ _ 0 Hin Efind). }
    rewrite (bool_decide_eq_false_2 _ Hnot). split; [exact Hh | reflexivity].
Qed.

Lemma Delete_leaf `{MapRange} h es key :
  holdsLeaf h es ->
  holdsLeaf (snd (BPlusTree.Delete rootTree key h)) (deleteEntry key es)
  /\ fst (BPlusTree.Delete rootTree key h)
     = if bool_decide (key ∈ es.*1) then Ok tt else Err ErrKeyNotFoundForDeletion.
Proof.
  intros Hh.
  destruct (Delete_keys h es key (holdsLeaf_keys _ _ Hh)) as [Hh' Hres].
  split; [|exact Hres]. apply holdsKeys_leaf; [exact Hh'|].
  destruct Hh as (_ & _ & _ & _ & _ & Hrange & _).
  apply (Forall_of_sublist _ _ (es.*2)); [|exact Hrange].
  apply fmap_sublist, deleteEntry_sublist.
Qed.

(** ** The entries and the index as a map *)

Lemma insertEntry_map key pe (es : list (string * (Z * Z))) :
  NoDup (es.*1) -> key ∉ es.*1 ->
  (list_to_map (insertEntry key pe es) : gmap string (Z * Z))
  = <[key := pe]> (list_to_map es).
Proof.
  intros Hnd Hnot. rewrite <- list_to_map_cons.
  apply list_to_map_proper; [|apply insertAt_perm].
  unfold insertEntry. rewrite insertAt_perm. apply NoDup_cons. split; assumption.
Qed.

Lemma deleteEntry_map key (es : list (string * (Z * Z))) :
  NoDup (es.*1) ->
  (list_to_map (deleteEntry key es) : gmap string (Z * Z))
  = delete key (list_to_map es).
Proof.
  intros Hnd. unfold deleteEntry.
  destruct (BPlusTree.findIndex (es.*1) key 0) as [i|] eqn:Efind.
  - apply findIndex_Some in Efind as (n & -> & Hn). change (0 + n)%nat with n.
    rewrite list_lookup_fmap in Hn.
    destruct (es !! n) as [[k pe]|] eqn:En; [|discriminate].
    injection Hn as ->.
    pose proof (take_drop_middle es n (key, pe) En) as Hes.
    assert (Hperm : es ≡ₚ (key, pe) :: removeAt n es).
    { rewrite <- Hes at 1. unfold removeAt. rewrite <- Permutation_middle. reflexivity. }
    assert (Hnd' : NoDup (((key, pe) :: removeAt n es).*1))
      by (rewrite <- Hperm; exact Hnd).
    rewrite (list_to_map_proper es _ Hnd Hperm), list_to_map_cons.
    rewrite delete_insert_eq. symmetry. apply delete_id.
    apply not_elem_of_list_to_map_1.
    rewrite fmap_cons in Hnd'. apply NoDup_cons in Hnd' as [Hnot _]. exact Hnot.
  - symmetry. apply delete_id. apply not_elem_of_list_to_map_1.
    intros Hin. exact (findIndex_not_None _ _ 0 Hin Efind).
Qed.

(** ** Runs of operations *)

Lemma newStore_allocated :
  AllocatePage newStore = (Ok (newPage 1), setPageCount newStore 1).
Proof. reflexivity. Qed.

Lemma NewBPlusTree_newStore `{MapRange} :
  BPlusTree.NewBPlusTree newStore
  = (do _ <- WritePage (rootPage []); ret rootTree) (setPageCount newStore 1).
Proof. reflexivity. Qed.

(** The store of the empty tree: the header of a new file, a blank line
    and the text of the empty root leaf. *)
Lemma NewBPlusTree_new `{MapRange} :
  BPlusTree.NewBPlusTree newStore
  = (Ok rootTree,
     setFile (setPageCount newStore 1)
       ((InitialContent +:+ NL) +:+ PageContent (rootPage []) +:+ "")).
Proof.
  rewrite NewBPlusTree_newStore. unfold bind, WritePage.
  change (File (setPageCount newStore 1)) with InitialContent.
  rewrite replacePage_absent by reflexivity.
  rewrite app_nil_r, app_assoc. reflexivity.
Qed.

Lemma emptyTree_holdsLeaf `{MapRange} :
  fst (BPlusTree.NewBPlusTree newStore) = Ok rootTree
  /\ holdsLeaf emptyTreeStore [].
Proof.
  unfold emptyTreeStore. rewrite NewBPlusTree_new. split; [reflexivity|].
  cbn [snd]. split.
  { exists (InitialContent +:+ NL), "".
    split; [reflexivity|]. split; [right; eexists; reflexivity|].
    split; [unfold scannable; vm_compute; repeat constructor|].
    split; [reflexivity | left; reflexivity]. }
  split; [simpl; lia|].
  split; [constructor|]. split; [exact I|].
  split; [constructor|]. split; [constructor | simpl; lia].
Qed.

Lemma runOps_leaf `{MapRange} ops :
  forall h es,
    holdsLeaf h es ->
    admissibleRun (list_to_map es) ops ->
    exists es',
      holdsLeaf (runOps rootTree ops h) es'
      /\ (list_to_map es' : gmap string (Z * Z)) = applyOps (list_to_map es) ops.
Proof.
  induction ops as [|o ops IH]; intros h es Hh Hrun.
  - exists es. split; [exact Hh | reflexivity].
  - destruct Hrun as [Hadm Hrun].
    pose proof Hh as (_ & _ & Hnd & _).
    destruct o as [key p e | key]; cbn [runOps runOp applyOps foldl].
    + destruct Hadm as (Hkey & Hnone & Hsize & Hpe).
      apply not_elem_of_list_to_map in Hnone.
      rewrite map_size_list_to_map in Hsize by exact Hnd.
      destruct (Insert_leaf h es key p e Hh Hkey Hnone) as (h' & Hins & Hh');
        [unfold BTreeOrder in Hsize; lia | exact Hpe |].
      rewrite Hins. cbn [snd].
      cbn [applyOp] in Hrun. rewrite <- (insertEntry_map key (p, e) es Hnd Hnone) in Hrun.
      destruct (IH h' _ Hh' Hrun) as (es' & Hes' & Hmap).
      exists es'. split; [exact Hes'|].
      rewrite Hmap, (insertEntry_map key (p, e) es Hnd Hnone). reflexivity.
    + destruct (Delete_leaf h es key Hh) as [Hh' _].
      cbn [applyOp] in Hrun. rewrite <- (deleteEntry_map key es Hnd) in Hrun.
      destruct (IH _ _ Hh' Hrun) as (es' & Hes' & Hmap).
      exists es'. split; [exact Hes'|].
      rewrite Hmap, (deleteEntry_map key es Hnd). reflexivity.
Qed.

Lemma admissibleRun_firstn n : forall idx ops,
  admissibleRun idx ops -> admissibleRun idx (firstn n ops).
Proof.
  induction n as [|n IH]; intros idx ops Hrun; [exact I|].
  destruct ops as [|o ops]; [exact I|].
  destruct Hrun as [Ho Hrun]. split; [exact Ho | apply IH; exact Hrun].
Qed.

(** The store after a run from the empty tree holds a leaf whose entries
    are the index the run builds. *)
Lemma run_from_empty `{MapRange} ops :
  admissibleRun ∅ ops ->
  exists es,
    holdsLeaf (runOps rootTree ops emptyTreeStore) es
    /\ (list_to_map es : gmap string (Z * Z)) = applyOps ∅ ops.
Proof.
  intros Hrun. destruct emptyTree_holdsLeaf as [_ H0].
  exact (runOps_leaf ops emptyTreeStore [] H0 Hrun).
Qed.

(** ** Runs with inserts into the full leaf and with any pointers *)

Lemma runOps_keys `{MapRange} ops :
  forall h es,
    holdsKeys h es ->
    freshRun (list_to_map es) ops ->
    exists es',
      holdsKeys (runOps rootTree ops h) es'
      /\ (list_to_map es' : gmap string (Z * Z)) = keepOps (list_to_map es) ops.
Proof.
  induction ops as [|o ops IH]; intros h es Hh Hrun.
  - exists es. split; [exact Hh | reflexivity].
  - destruct Hrun as [Hfresh Hrun].
    pose proof Hh as (_ & _ & Hnd & _ & _ & Hlen).
    unfold keepOps. destruct o as [key p e | key]; cbn [runOps runOp foldl].
    + destruct Hfresh as (Hkey & Hnone).
      apply not_elem_of_list_to_map in Hnone.
      cbn [keepOp] in Hrun |- *.
      rewrite map_size_list_to_map in Hrun |- * by exact Hnd.
      destruct (decide (Z.of_nat (length es) < BTreeOrder - 1)) as [Hroom|Hfull].
      * destruct (Insert_keys h es key p e Hh Hkey Hnone) as (h' & Hins & Hh');
          [unfold BTreeOrder in Hroom; lia|].
        rewrite Hins. cbn [snd].
        rewrite <- (insertEntry_map key (p, e) es Hnd Hnone) in Hrun |- *.
        exact (IH h' _ Hh' Hrun).
      * rewrite (Insert_keys_full h es key p e Hh)
          by (unfold BTreeOrder in Hfull; lia).
        cbn [snd]. exact (IH h es Hh Hrun).
    + destruct (Delete_keys h es key Hh) as [Hh' _].
      cbn [keepOp] in Hrun |- *.
      rewrite <- (deleteEntry_map key es Hnd) in Hrun |- *.
      exact (IH _ _ Hh' Hrun).
Qed.

Lemma freshRun_firstn n : forall idx ops,
  freshRun idx ops -> freshRun idx (firstn n ops).
Proof.
  induction n as [|n IH]; intros idx ops Hrun; [exact I|].
  destruct ops as [|o ops]; [exact I|].
  destruct Hrun as [Ho Hrun]. split; [exact Ho | apply IH; exact Hrun].
Qed.

Lemma keys_from_empty `{MapRange} ops :
  freshRun ∅ ops ->
  exists es,
    holdsKeys (runOps rootTree ops emptyTreeStore) es
    /\ (list_to_map es : gmap string (Z * Z)) = keepOps ∅ ops.
Proof.
  intros Hrun. destruct emptyTree_holdsLeaf as [_ H0].
  exact (runOps_keys ops emptyTreeStore [] (holdsLeaf_keys _ _ H0) Hrun).
Qed.

(** The runs in which every insert finds room and brings a pointer of 32
    bits are among them, with the same index. *)
Lemma admissibleRun_fresh ops : forall idx,
  admissibleRun idx ops -> freshRun idx ops /\ keepOps idx ops = applyOps idx ops.
Proof.
  unfold keepOps, applyOps.
  induction ops as [|o ops IH]; intros idx Hrun; [split; [exact I | reflexivity]|].
  destruct Hrun as [Ho Hrun].
  assert (Hstep : keepOp idx o = applyOp idx o).
  { destruct o as [key p e | key]; [|reflexivity].
    destruct Ho as (_ & _ & Hsize & _). cbn [keepOp applyOp].
    rewrite decide_True by exact Hsize. reflexivity. }
  destruct (IH _ Hrun) as [Hfresh Heq]. cbn [freshRun foldl]. rewrite Hstep.
  split; [|exact Heq]. split; [|exact Hfresh].
  destruct o as [key p e | key]; [|exact I].
  destruct Ho as (Hkey & Hnone & _). split; assumption.
Qed.

Lemma plainKey_letter c :
  keyByte c = true -> plainKey (String c "").
Proof.
  intros Hc. split; [discriminate|]. split; [simpl; rewrite Hc; reflexivity|].
  vm_compute. discriminate.
Qed.

(** Scenario A: after three inserts the leaf is full. *)
Lemma scenarioA_leaf `{MapRange} :
  holdsLeaf (runOps rootTree (firstn 3 scenarioA) emptyTreeStore) scenarioA_entries.
Proof.
  destruct emptyTree_holdsLeaf as [_ H0].
  destruct (Insert_leaf emptyTreeStore [] "a" 11 1 H0) as (h1 & E1 & H1).
  { apply plainKey_letter. reflexivity. }
  { apply not_elem_of_nil. }
  { simpl. lia. }
  { split; simpl; lia. }
  change (insertEntry "a" (11, 1) []) with [("a", (11, 1))] in H1.
  destruct (Insert_leaf h1 _ "b" 12 2 H1) as (h2 & E2 & H2).
  { apply plainKey_letter. reflexivity. }
  { apply (bool_decide_unpack _). vm_compute. exact I. }
  { simpl. lia. }
  { split; simpl; lia. }
  change (insertEntry "b" (12, 2) [("a", (11, 1))])
    with [("a", (11, 1)); ("b", (12, 2))] in H2.
  destruct (Insert_leaf h2 _ "c" 13 3 H2) as (h3 & E3 & H3).
  { apply plainKey_letter. reflexivity. }
  { apply (bool_decide_unpack _). vm_compute. exact I. }
  { simpl. lia. }
  { split; simpl; lia. }
  change (insertEntry "c" (13, 3) [("a", (11, 1)); ("b", (12, 2))])
    with scenarioA_entries in H3.
  cbn [firstn scenarioA runOps runOp]. rewrite E1. cbn [snd].
  rewrite E2. cbn [snd]. rewrite E3. exact H3.
Qed.

(** ** Texts of pages next to each other *)

Lemma concatLines_free_of c m kvs :
  Ascii.eqb NLc c = false -> hasByte NLc m = false ->
  Forall (fun kv => Contains (lineOf kv) (String c m) = false) kvs ->
  Contains (concatLines (map dataLine kvs)) (String c m) = false.
Proof.
  intros Hc Hm. induction 1 as [|[k v] kvs Hkv _ IH]; [reflexivity|].
  change (concatLines (map dataLine ((k, v) :: kvs)))
    with ((k +:+ ": " +:+ v +:+ NL) +:+ concatLines (map dataLine kvs)).
  replace ((k +:+ ": " +:+ v +:+ NL) +:+ concatLines (map dataLine kvs))
    with (lineOf (k, v) +:+ NL +:+ concatLines (map dataLine kvs))
    by (unfold lineOf; cbn [fst snd]; rewrite !app_assoc; reflexivity).
  apply Contains_line; assumption.
Qed.

(** A text without newline that no line of a page holds does not occur in
    the text of the page. *)
Lemma PageContent_free_of `{MapRange} p c m :
  Ascii.eqb NLc c = false -> hasByte NLc m = false ->
  Contains PageSection (String c m) = false ->
  linesFree (String c m) p ->
  Contains (PageContent p) (String c m) = false.
Proof.
  intros Hc Hm Hsec (Hid & Hlsn & Ht & Hd).
  unfold PageContent.
  replace (PageSection +:+ NL +:+ "PageID: " +:+ FormatUint (PageID (Header p))
           +:+ NL +:+ "LSN: " +:+ FormatUint (PageLSN (Header p)) +:+ NL
           +:+ "Type: " +:+ PageType (Header p) +:+ NL
           +:+ concatLines (map dataLine (mapRange (Data p))))
    with (PageSection +:+ NL +:+ PageIDMarker (PageID (Header p))
          +:+ NL +:+ ("LSN: " +:+ FormatUint (PageLSN (Header p))) +:+ NL
          +:+ ("Type: " +:+ PageType (Header p)) +:+ NL
          +:+ concatLines (map dataLine (mapRange (Data p))))
    by (unfold PageIDMarker; rewrite !app_assoc; reflexivity).
  repeat (apply Contains_line; [exact Hc | exact Hm | assumption |]).
  apply concatLines_free_of; [exact Hc | exact Hm |].
  apply Forall_forall. intros [k v] Hin.
  rewrite (mapRange_perm (Data p)) in Hin. apply elem_of_map_to_list in Hin.
  exact (Hd k v Hin).
Qed.

Lemma Contains_app_lines a b c m :
  Ascii.eqb NLc c = false -> hasByte NLc m = false ->
  endsLines a ->
  Contains a (String c m) = false ->
  Contains b (String c m) = false ->
  Contains (a +:+ b) (String c m) = false.
Proof.
  intros Hc Hm [-> | [a' ->]] Ha Hb; [exact Hb|].
  rewrite app_assoc. apply Contains_line; try assumption.
  apply (Contains_false_sub "" a' NL). exact Ha.
Qed.

Lemma concatLines_ends kvs :
  concatLines (map dataLine kvs) = ""
  \/ exists s, concatLines (map dataLine kvs) = s +:+ NL.
Proof.
  induction kvs as [|[k v] kvs IH]; [left; reflexivity|]. right.
  change (concatLines (map dataLine ((k, v) :: kvs)))
    with ((k +:+ ": " +:+ v +:+ NL) +:+ concatLines (map dataLine kvs)).
  destruct IH as [-> | [s ->]].
  - exists (k +:+ ": " +:+ v). rewrite app_nil_r, !app_assoc. reflexivity.
  - exists ((k +:+ ": " +:+ v +:+ NL) +:+ s). rewrite !app_assoc. reflexivity.
Qed.

Lemma PageContent_ends `{MapRange} p : exists s, PageContent p = s +:+ NL.
Proof.
  unfold PageContent.
  destruct (concatLines_ends (mapRange (Data p))) as [-> | [s ->]].
  - eexists (PageSection +:+ NL +:+ "PageID: " +:+ FormatUint (PageID (Header p))
             +:+ NL +:+ "LSN: " +:+ FormatUint (PageLSN (Header p)) +:+ NL
             +:+ "Type: " +:+ PageType (Header p)).
    rewrite app_nil_r, !app_assoc. reflexivity.
  - eexists (PageSection +:+ NL +:+ "PageID: " +:+ FormatUint (PageID (Header p))
             +:+ NL +:+ "LSN: " +:+ FormatUint (PageLSN (Header p)) +:+ NL
             +:+ "Type: " +:+ PageType (Header p) +:+ NL +:+ s).
    rewrite !app_assoc. reflexivity.
Qed.

Lemma endsLines_PageContent `{MapRange} pre p : endsLines (pre +:+ PageContent p).
Proof.
  destruct (PageContent_ends p) as [s ->]. right. exists (pre +:+ s).
  rewrite app_assoc. reflexivity.
Qed.

(** The scanner delivers every line of the text of a carried page. *)
Lemma scannable_PageContent `{MapRange} pre p :
  endsLines pre -> scannable pre -> carriedPage p ->
  scannable (pre +:+ PageContent p).
Proof.
  intros He Hs Hp. unfold scannable.
  assert (Hlines : rawLines (pre +:+ PageContent p)
                   = rawLines pre ++ rawLines (PageContent p +:+ "")).
  { rewrite app_nil_r. destruct He as [-> | [pre' ->]]; [reflexivity|].
    apply rawLines_app_NL. }
  rewrite Hlines, (rawLines_PageContent p "" Hp).
  destruct Hp as (Hid & Hlsn & (Htt & Htnl) & Htlen & Hm).
  apply Forall_app. split; [exact Hs|].
  pose proof (FormatUint_len (PageID (Header p))) as Hl1.
  pose proof (FormatUint_len (PageLSN (Header p))) as Hl2.
  constructor; [reflexivity|].
  constructor.
  { apply tooLong_false. unfold PageIDMarker. rewrite len_app.
    change (len "PageID: ") with 8. unfold MaxScanTokenSize. lia. }
  constructor.
  { apply tooLong_false. rewrite len_app. change (len "LSN: ") with 5.
    unfold MaxScanTokenSize. lia. }
  constructor.
  { apply tooLong_false. rewrite len_app. change (len "Type: ") with 6. lia. }
  apply Forall_app. split; [|constructor].
  apply Forall_forall. intros l [[k v] [-> Hin]]%list_elem_of_fmap.
  pose proof (proj1 (Forall_forall _ _) (carried_range _ Hm) (k, v) Hin) as Hkv.
  apply (binding_line k v Hkv).
Qed.

(** ** Scenario C *)

Lemma emptyTreeStore_eq `{MapRange} :
  emptyTreeStore
  = {| File := (InitialContent +:+ NL) +:+ PageContent (rootPage []) +:+ "";
       PageSize := DefaultPageSize; PageCount := 1; DeallocatedPages := [] |}.
Proof. unfold emptyTreeStore. rewrite NewBPlusTree_new. reflexivity. Qed.

Lemma rootPage_free_of_page2 es :
  map_Forall (fun k v => Contains (lineOf (k, v)) (PageIDMarker 2) = false)
    (Data (rootPage es)) ->
  linesFree (PageIDMarker 2) (rootPage es).
Proof. intros Hd. repeat split; try reflexivity. exact Hd. Qed.

Lemma rootData_Forall (P : string -> string -> Prop) ks ps :
  P "Pointers" (Join ps ",") -> P "Keys" (Join ks ",") -> P "IsLeaf" "true" ->
  map_Forall P (rootData ks ps).
Proof.
  intros HP HK HL. unfold rootData.
  apply map_Forall_insert_2; [exact HP|].
  apply map_Forall_insert_2; [exact HK|].
  apply map_Forall_insert_2; [exact HL | apply map_Forall_empty].
Qed.

Lemma emptyTree_free_of_page2 `{MapRange} :
  Contains ((InitialContent +:+ NL) +:+ PageContent (rootPage []) +:+ "")
    (PageIDMarker 2) = false.
Proof.
  rewrite app_nil_r. change (PageIDMarker 2) with (String "P" "ageID: 2").
  apply Contains_app_lines; try reflexivity; [right; eexists; reflexivity|].
  apply PageContent_free_of; try reflexivity.
  apply (rootPage_free_of_page2 []).
  apply rootData_Forall; reflexivity.
Qed.

Lemma userPage_shape `{MapRange} :
  exists rest, PageContent userPage = PageSection +:+ NL +:+ rest.
Proof. eexists. apply PageContent_shape. Qed.

Lemma scenarioC_insert `{MapRange} :
  Database.Insert newDatabase "user:1" "X" emptyTreeStore = (Ok tt, userStore).
Proof.
  destruct emptyTree_holdsLeaf as [_ H0].
  unfold Database.Insert, bind, Database.findIgnoringError.
  cbn [Index newDatabase]. rewrite (Find_leaf emptyTreeStore [] "user:1" H0).
  change (default (0, 0) ((list_to_map [] : gmap string (Z * Z)) !! "user:1"))
    with (0, 0).
  cbv beta iota. change (negb (0 =? 0)) with false. cbv iota.
  rewrite emptyTreeStore_eq.
  set (f0 := (InitialContent +:+ NL) +:+ PageContent (rootPage []) +:+ "").
  change (AllocatePage {| File := f0; PageSize := DefaultPageSize; PageCount := 1;
                          DeallocatedPages := [] |})
    with (Ok (newPage 2),
          {| File := f0; PageSize := DefaultPageSize; PageCount := 2;
             DeallocatedPages := [] |}).
  cbv beta iota.
  change (lift (Page.AddRecord (setType (newPage 2) "Data")
                  {| EntryIndex := 0; Fields := ["user:1"; "X"] |}))
    with (lift (Ok (1, userPage, {| EntryIndex := 1; Fields := ["user:1"; "X"] |}))).
  unfold lift. cbv beta iota.
  (* the data page is appended *)
  assert (Hw : WritePage userPage
                 {| File := f0; PageSize := DefaultPageSize; PageCount := 2;
                    DeallocatedPages := [] |}
               = (Ok tt,
                  {| File := f0 +:+ NL +:+ PageContent userPage;
                     PageSize := DefaultPageSize; PageCount := 2;
                     DeallocatedPages := [] |})).
  { unfold WritePage. cbn [File PageCount Header PageID userPage].
    rewrite (replacePage_absent f0 _ _ emptyTree_free_of_page2). reflexivity. }
  rewrite Hw. cbv beta iota.
  (* the key goes into the root leaf *)
  set (h1 := {| File := f0 +:+ NL +:+ PageContent userPage;
                PageSize := DefaultPageSize; PageCount := 2;
                DeallocatedPages := [] |}).
  assert (Hfile : File h1 = (InitialContent +:+ NL) +:+ PageContent (rootPage [])
                            +:+ (NL +:+ PageContent userPage)).
  { unfold h1, f0. cbn [File]. rewrite app_nil_r, !app_assoc. reflexivity. }
  assert (Hend : sectionEnd (NL +:+ PageContent userPage)).
  { right. right. destruct userPage_shape as [rest ->]. eexists. reflexivity. }
  assert (Hh1 : holdsLeaf h1 []).
  { split.
    - exists (InitialContent +:+ NL), (NL +:+ PageContent userPage).
      split; [exact Hfile|]. split; [right; eexists; reflexivity|].
      split; [unfold scannable; vm_compute; repeat constructor|].
      split; [reflexivity | exact Hend].
    - split; [simpl; lia|]. split; [constructor|]. split; [exact I|].
      split; [constructor|]. split; [constructor | simpl; lia]. }
  change (PageID (Header userPage)) with 2.
  rewrite (Insert_as_WritePage h1 [] "user:1" 2 1 Hh1);
    [|apply not_elem_of_nil | simpl; lia].
  change (insertEntry "user:1" (2, 1) []) with userEntries.
  rewrite (WritePage_leaf h1 [] userEntries _ _ Hfile eq_refl Hend);
    [reflexivity | constructor | simpl; lia].
Qed.

Lemma userStore_leaf `{MapRange} : holdsLeaf userStore userEntries.
Proof.
  split.
  - exists (InitialContent +:+ NL), (PageContent userPage).
    split; [reflexivity|]. split; [right; eexists; reflexivity|].
    split; [unfold scannable; vm_compute; repeat constructor|].
    split; [reflexivity|].
    right. left. destruct userPage_shape as [rest ->]. eexists. reflexivity.
  - split; [simpl; lia|].
    split; [apply NoDup_singleton|]. split; [exact I|].
    split.
    { constructor; [|constructor].
      split; [discriminate|]. split; [reflexivity | vm_compute; discriminate]. }
    split; [|simpl; lia].
    constructor; [|constructor]. split; simpl; lia.
Qed.

Lemma userPage_carried : carriedPage userPage.
Proof.
  split; [vm_compute; split; reflexivity|].
  split; [vm_compute; split; [discriminate | reflexivity]|].
  split; [split; reflexivity|].
  split; [reflexivity|].
  unfold userPage. cbn [Data].
  apply map_Forall_insert_2; [|apply map_Forall_insert_2; [|apply map_Forall_empty]];
    repeat split; try reflexivity; discriminate.
Qed.

Lemma userStore_page `{MapRange} : ReadPage 2 userStore = (Ok userPage, userStore).
Proof.
  apply (ReadPage_written userStore userPage
           ((InitialContent +:+ NL) +:+ PageContent (rootPage userEntries)) "").
  - unfold userStore. cbn [File]. rewrite app_nil_r, !app_assoc. reflexivity.
  - apply endsLines_PageContent.
  - apply scannable_PageContent.
    + right. eexists. reflexivity.
    + unfold scannable. vm_compute. repeat constructor.
    + apply carried_rootPage; [|simpl; lia].
      constructor; [|constructor].
      split; [discriminate|]. split; [reflexivity | vm_compute; discriminate].
  - change (PageIDMarker (PageID (Header userPage))) with (String "P" "ageID: 2").
    apply Contains_app_lines; try reflexivity; [right; eexists; reflexivity|].
    apply PageContent_free_of; try reflexivity.
    apply (rootPage_free_of_page2 userEntries).
    apply rootData_Forall; reflexivity.
  - left. reflexivity.
  - exact userPage_carried.
  - simpl. lia.
Qed.

Lemma scenarioC_find `{MapRange} :
  BPlusTree.Find rootTree "user:1" userStore = (Ok (2, 1), userStore).
Proof. rewrite (Find_leaf userStore userEntries "user:1" userStore_leaf). reflexivity. Qed.

Lemma scenarioC_get `{MapRange} :
  Database.Get newDatabase "user:1" userStore
  = (Ok (Some {| EntryIndex := 1; Fields := ["user:1"; "X"] |}), userStore).
Proof.
  unfold Database.Get, bind. cbn [Index newDatabase].
  rewrite scenarioC_find. cbv beta iota. change (2 =? 0) with false. cbv beta iota.
  rewrite userStore_page. reflexivity.
Qed.

Lemma OpenDatabase_new `{MapRange} :
  Database.OpenDatabase None = (Ok newDatabase, Some emptyTreeStore).
Proof.
  unfold Database.OpenDatabase.
  change (NewTextFileHandler None) with (Ok newStore).
  unfold emptyTreeStore. rewrite NewBPlusTree_new. reflexivity.
Qed.
(* ===================================================================== *)
(** * Further properties: helper lemmas                                   *)
(* ===================================================================== *)

(** ** Records of a data page *)

Lemma EntryKey_inj i j :
  0 <= i < uintMax -> 0 <= j < uintMax -> Page.EntryKey i = Page.EntryKey j -> i = j.
Proof.
  intros Hi Hj E. unfold Page.EntryKey in E. cbn in E.
  injection E as E. apply FormatUint_inj; assumption.
Qed.

Lemma EntryKey_not_counter i : Page.EntryKey i <> "EntryIndex".
Proof. unfold Page.EntryKey. cbn. discriminate. Qed.

Lemma wrap64_small n : 0 <= n < uintMax -> wrap64 n = n.
Proof. intros Hn. unfold wrap64. apply Z.mod_small. exact Hn. Qed.

Lemma Split_Join_fields fs :
  cleanFields fs -> Split (Join fs "|") "|" = fs.
Proof. intros [Hne Hfs]. apply (Split_Join fs "|" Hne Hfs). Qed.

(** One [AddRecord] on a data page whose counter is [n]: the record gets
    the index [n + 1], the counter is stored as that number, and every
    other entry is as before. *)
Lemma AddRecord_step (p : Page) (r : Record_) (n : Z) :
  PageType (Header p) = "Data" -> entryCounter p = n -> 0 <= n -> n + 1 < uintMax ->
  exists p',
    Page.AddRecord p r = Ok (n + 1, p', {| EntryIndex := n + 1; Fields := Fields r |})
    /\ PageType (Header p') = "Data"
    /\ entryCounter p' = n + 1
    /\ Data p' !! Page.EntryKey (n + 1) = Some (Join (Fields r) "|")
    /\ (forall j, 0 <= j < uintMax -> j <> n + 1 ->
          Data p' !! Page.EntryKey j = Data p !! Page.EntryKey j).
Proof.
  intros Ht Hc Hn0 Hn. unfold Page.AddRecord.
  destruct (decide (PageType (Header p) = "Data")) as [_|Hno]; [|contradiction].
  fold (entryCounter p). rewrite Hc. rewrite (wrap64_small (n + 1)) by lia.
  eexists. split; [reflexivity|]. cbn [setData Header Data].
  split; [exact Ht|]. split.
  - unfold entryCounter. cbn [setData Data].
    rewrite lookup_insert_ne by apply EntryKey_not_counter.
    rewrite lookup_insert_eq. rewrite SscanUint_FormatUint by lia. reflexivity.
  - split; [apply lookup_insert_eq|].
    intros j Hj Hne.
    rewrite lookup_insert_ne.
    + rewrite lookup_insert_ne; [reflexivity|].
      intros E. symmetry in E. exact (EntryKey_not_counter _ E).
    + intros E. apply Hne. symmetry. apply EntryKey_inj; [lia|exact Hj|exact E].
Qed.

Lemma addRecords_get (rs : list Record_) :
  forall (p : Page) (n : Z),
    PageType (Header p) = "Data" -> entryCounter p = n -> 0 <= n ->
    n + Z.of_nat (length rs) < uintMax ->
    Forall (fun r => cleanFields (Fields r)) rs ->
    exists p',
      addRecords p rs = Ok p'
      /\ PageType (Header p') = "Data"
      /\ entryCounter p' = n + Z.of_nat (length rs)
      /\ (forall (i : nat) r, rs !! i = Some r ->
            Page.GetRecord p' (n + 1 + Z.of_nat i)
            = Ok {| EntryIndex := n + 1 + Z.of_nat i; Fields := Fields r |})
      /\ (forall j, 0 <= j <= n -> Page.GetRecord p' j = Page.GetRecord p j).
Proof.
  induction rs as [|r rs IH]; intros p n Ht Hc Hn0 Hn Hclean.
  - exists p. cbn [addRecords length]. split; [reflexivity|]. split; [exact Ht|].
    split; [cbn; lia|]. split; [intros i r Hi; inversion Hi | reflexivity].
  - apply Forall_cons in Hclean as [Hr Hclean].
    cbn [length] in Hn.
    destruct (AddRecord_step p r n Ht Hc Hn0 ltac:(lia)) as (p1 & Hadd & Ht1 & Hc1 & Hnew & Hold).
    destruct (IH p1 (n + 1) Ht1 Hc1 ltac:(lia) ltac:(lia) Hclean)
      as (p' & Hrun & Ht' & Hc' & Hget & Hkeep).
    exists p'. cbn [addRecords]. rewrite Hadd.
    split; [exact Hrun|]. split; [exact Ht'|].
    split; [cbn [length]; lia|]. split.
    + intros [|i] r0 Hi.
      * cbn in Hi. injection Hi as <-.
        rewrite Z.add_0_r. rewrite (Hkeep (n + 1)) by lia.
        unfold Page.GetRecord.
        destruct (decide (PageType (Header p1) = "Data")) as [_|Hno]; [|contradiction].
        rewrite Hnew. rewrite (Split_Join_fields _ Hr). reflexivity.
      * cbn in Hi. specialize (Hget i r0 Hi).
        replace (n + 1 + Z.of_nat (S i)) with (n + 1 + 1 + Z.of_nat i) by lia.
        exact Hget.
    + intros j Hj. rewrite (Hkeep j) by lia.
      unfold Page.GetRecord. rewrite Ht, Ht1.
      rewrite (Hold j) by lia. reflexivity.
Qed.

(** ** Allocation *)

Lemma allocateIDs_fresh (k : nat) :
  forall h, DeallocatedPages h = [] -> 0 <= PageCount h ->
    PageCount h + Z.of_nat k < uintMax ->
    allocateIDs k h
    = ((fun i => PageCount h + 1 + Z.of_nat i) <$> seq 0 k,
       setPageCount h (PageCount h + Z.of_nat k)).
Proof.
  induction k as [|k IH]; intros h Hfree H0 Hk.
  - cbn. rewrite Z.add_0_r. destruct h; cbn in *. reflexivity.
  - cbn [allocateIDs]. unfold AllocatePage. rewrite Hfree.
    rewrite (wrap64_small (PageCount h + 1)) by lia.
    rewrite IH by (cbn; try assumption; lia).
    cbn [setPageCount PageCount newPage Header PageID File PageSize DeallocatedPages].
    f_equal.
    + cbn [seq fmap list_fmap]. rewrite Z.add_0_r. f_equal.
      rewrite <- seq_shift. rewrite <- list_fmap_compose.
      apply list_fmap_ext. intros i x _. cbn. lia.
    + unfold setPageCount. cbn. f_equal. lia.
Qed.

Lemma allocateIDs_queue (free : list Z) :
  forall k h, DeallocatedPages h = free ->
    allocateIDs (length free + k) h
    = (free ++ fst (allocateIDs k (setDeallocatedPages h [])),
       snd (allocateIDs k (setDeallocatedPages h []))).
Proof.
  induction free as [|id free IH]; intros k h Hfree.
  - cbn [length Nat.add app].
    assert (setDeallocatedPages h [] = h) as ->
      by (destruct h; cbn in *; subst; reflexivity).
    destruct (allocateIDs k h); reflexivity.
  - cbn [length Nat.add allocateIDs]. unfold AllocatePage. rewrite Hfree.
    rewrite (IH k (setDeallocatedPages h free)) by reflexivity.
    cbn [newPage Header PageID]. reflexivity.
Qed.

(** ** Reading a page that is not in the file *)

Lemma readLoop_no_hit marker ls p :
  Forall (fun l => Contains (dropCR l) marker = false) ls ->
  fst (fst (readLoop marker ls false false p)) = false.
Proof.
  induction 1 as [|l ls Hl _ IH]; [reflexivity|].
  rewrite readLoop_cons. destruct (tooLong l); [reflexivity|].
  cbv zeta. rewrite Hl, andb_false_r. cbn [andb].
  destruct (HasPrefix (dropCR l) PageSection); cbn [andb]; exact IH.
Qed.

(** ** The header of the file *)

Lemma loadLoop_cons raw rest ih h :
  loadLoop (raw :: rest) ih h
  = if tooLong raw then (h, true)
    else
      let CurrentLine := dropCR raw in
      if decide (CurrentLine = HeaderSection) then loadLoop rest true h
      else if HasPrefix CurrentLine PageSection then (h, false)
      else if ih && negb (bool_decide (CurrentLine = "")) then
        match SplitN2 CurrentLine "=" with
        | [k; v] => loadLoop rest ih (loadKey (TrimSpace k) (TrimSpace v) h)
        | _ => loadLoop rest ih h
        end
      else loadLoop rest ih h.
Proof. reflexivity. Qed.

Lemma hasByte_drop c j s : hasByte c s = false -> hasByte c (drop j s) = false.
Proof.
  revert s. induction j as [|j IH]; intros [|a s] Hs; try exact Hs.
  cbn in Hs. apply orb_false_iff in Hs as [_ Hs]. cbn. apply IH. exact Hs.
Qed.

Lemma SplitN2_assign k v :
  hasByte "=" k = false -> SplitN2 (assign k v) "=" = [k; v].
Proof.
  intros Hno. unfold SplitN2, assign. rewrite cut_at; [reflexivity|].
  intros j Hj. destruct (drop_nonempty j k Hj) as (a & x & Hd).
  pose proof (hasByte_drop "=" j k Hno) as Ha. rewrite Hd in Ha |- *.
  cbn in Ha. apply orb_false_iff in Ha as [Ha _].
  cbn. rewrite Ha. reflexivity.
Qed.

Lemma hasByte_true_app c a b : hasByte c (a +:+ String c b) = true.
Proof. rewrite hasByte_app. cbn. rewrite Ascii.eqb_refl. apply orb_true_r. Qed.

(** A line "key=value" of the header, with a key of printable bytes. *)
Lemma loadLoop_assign k v rest h :
  k <> "" -> allBytes plainByte k = true -> hasByte "=" k = false ->
  TrimSpace v = v -> len k + 1 + len v < MaxScanTokenSize ->
  loadLoop (assign k v :: rest) true h = loadLoop rest true (loadKey k v h).
Proof.
  intros Hne Hk Heq Hv Hlen. rewrite loadLoop_cons.
  rewrite tooLong_false
    by (unfold assign; rewrite !len_app; change (len "=") with 1; lia).
  cbv zeta.
  assert (dropCR (assign k v) = assign k v) as ->.
  { unfold assign. apply (dropCR_trimmed k "=" v); [reflexivity | exact Hv]. }
  rewrite decide_False.
  2: { intros E. apply (f_equal (hasByte "=")) in E. unfold assign in E.
       change ("=" +:+ v) with (String "=" v) in E.
       rewrite hasByte_true_app in E. discriminate. }
  assert (HasPrefix (assign k v) PageSection = false) as ->.
  { destruct (HasPrefix _ _) eqn:E; [|reflexivity].
    unfold assign in E. apply HasPrefix_straddle in E; [|reflexivity].
    apply HasPrefix_inv in E as [b ->].
    apply plain_no_blank in Hk. rewrite hasByte_app in Hk. discriminate. }
  rewrite bool_decide_eq_false_2.
  2: { unfold assign. destruct k; [congruence | discriminate]. }
  cbn [andb negb]. rewrite (SplitN2_assign k v Heq).
  rewrite (TrimSpace_plain k Hk), Hv. reflexivity.
Qed.

Lemma SscanInt_FormatUint n :
  0 <= n < 2 ^ 63 -> SscanInt (FormatUint n) = Some n.
Proof.
  intros Hn. unfold SscanInt.
  pose proof (FormatUint_digits n) as Hd.
  pose proof (FormatUint_nonempty n) as Hne.
  assert (Hn' : 0 <= n < uintMax) by (unfold uintMax; lia).
  pose proof (FormatUint_value n Hn') as Hv.
  destruct (FormatUint n) as [|c s] eqn:E; [congruence|].
  pose proof Hd as Hc. cbn in Hc. apply andb_true_iff in Hc as [Hc _].
  rewrite skipSpace_plain by (apply isDigit_plain; exact Hc).
  unfold isDigit in Hc. apply andb_true_iff in Hc as [Hc1 Hc2].
  apply N.leb_le in Hc1.
  assert ((byte_of c =? 45)%N = false) as -> by (apply N.eqb_neq; lia).
  assert ((byte_of c =? 43)%N = false) as -> by (apply N.eqb_neq; lia).
  rewrite (leadingDigits_all _ Hd), Hv.
  destruct (n <? 2 ^ 63) eqn:El; [reflexivity|].
  apply Z.ltb_ge in El. lia.
Qed.

Lemma loadKey_free (ids : list Z) h :
  Forall (fun id => 0 <= id < uintMax) ids ->
  loadKey "DEALLOCATED_PAGES" (Join (FormatUint <$> ids) ",") h
  = setDeallocatedPages h (DeallocatedPages h ++ loadedFree (Some ids)).
Proof.
  intros Hids. unfold loadKey.
  rewrite decide_False by discriminate. rewrite decide_False by discriminate.
  rewrite decide_True by reflexivity. f_equal. f_equal.
  destruct ids as [|id ids]; [reflexivity|].
  rewrite (Split_Join (FormatUint <$> id :: ids) ",").
  - unfold loadedFree. rewrite <- list_fmap_compose.
    etrans; [|apply list_fmap_id].
    apply Forall_fmap_ext_1. eapply Forall_impl; [exact Hids|].
    intros x Hx. unfold compose. rewrite SscanUint_FormatUint by exact Hx.
    reflexivity.
  - discriminate.
  - apply Forall_fmap, Forall_forall. intros x _. cbn.
    apply (allBytes_hasByte isDigit); [apply FormatUint_digits | reflexivity].
Qed.

Lemma free_line_fits (ids : list Z) :
  (length ids <= 3000)%nat -> len (Join (FormatUint <$> ids) ",") <= 63000.
Proof.
  intros Hlen.
  pose proof (len_Join (FormatUint <$> ids) "," 20) as Hj.
  rewrite length_fmap in Hj. change (len ",") with 1 in Hj.
  assert (Forall (fun k => len k <= 20) (FormatUint <$> ids)) as Hall.
  { apply Forall_fmap, Forall_forall. intros x _. cbn. apply FormatUint_len. }
  specialize (Hj Hall). lia.
Qed.

Lemma free_line_trimmed (ids : list Z) :
  TrimSpace (Join (FormatUint <$> ids) ",") = Join (FormatUint <$> ids) ","
  /\ hasByte NLc (Join (FormatUint <$> ids) ",") = false.
Proof.
  assert (allBytes plainByte (Join (FormatUint <$> ids) ",") = true) as Hp.
  { apply allBytes_Join; [|reflexivity].
    apply Forall_fmap, Forall_forall. intros x _. cbn. apply digits_plain. }
  split; [apply TrimSpace_plain; exact Hp|].
  apply (allBytes_hasByte plainByte); [exact Hp | reflexivity].
Qed.

(** The lines of a header, and the loop of [LoadMetadata] on them. *)
Lemma rawLines_headerText size count free rest :
  rawLines (headerText size count free +:+ rest)
  = HeaderSection :: assign "PAGESIZE" (FormatUint size)
    :: assign "ENCODING" "UTF-8" :: assign "VERSION" "1.0"
    :: assign "PAGES" (FormatUint count)
    :: match free with
       | Some ids => [assign "DEALLOCATED_PAGES" (Join (FormatUint <$> ids) ",")]
       | None => []
       end
    ++ "" :: rawLines rest.
Proof.
  assert (forall n, hasByte NLc (FormatUint n) = false) as Hdig.
  { intros n. apply digits_no_NL, FormatUint_digits. }
  unfold headerText. rewrite !app_assoc.
  rewrite rawLines_line by reflexivity. f_equal.
  rewrite rawLines_line
    by (unfold assign; rewrite !hasByte_app, Hdig; reflexivity). f_equal.
  rewrite rawLines_line by reflexivity. f_equal.
  rewrite rawLines_line by reflexivity. f_equal.
  rewrite rawLines_line
    by (unfold assign; rewrite !hasByte_app, Hdig; reflexivity). f_equal.
  destruct free as [ids|].
  - rewrite !app_assoc. rewrite rawLines_line.
    + reflexivity.
    + unfold assign. rewrite !hasByte_app.
      rewrite (proj2 (free_line_trimmed ids)). reflexivity.
  - cbn [app]. apply (rawLines_line "" rest). reflexivity.
Qed.

Lemma loadLoop_header size count free tail h :
  0 <= size < 2 ^ 63 -> 0 <= count < uintMax ->
  match free with
  | Some ids => Forall (fun id => 0 <= id < uintMax) ids /\ (length ids <= 3000)%nat
  | None => True
  end ->
  loadLoop (HeaderSection :: assign "PAGESIZE" (FormatUint size)
            :: assign "ENCODING" "UTF-8" :: assign "VERSION" "1.0"
            :: assign "PAGES" (FormatUint count)
            :: match free with
               | Some ids => [assign "DEALLOCATED_PAGES" (Join (FormatUint <$> ids) ",")]
               | None => []
               end
            ++ "" :: tail) false h
  = loadLoop tail true
      {| File := File h; PageSize := size; PageCount := count;
         DeallocatedPages := DeallocatedPages h ++ loadedFree free |}.
Proof.
  intros Hsize Hcount Hfree.
  pose proof (FormatUint_len size) as Hl1. pose proof (FormatUint_len count) as Hl2.
  rewrite loadLoop_cons. change (tooLong HeaderSection) with false. cbv zeta.
  change (dropCR HeaderSection) with HeaderSection.
  rewrite decide_True by reflexivity.
  rewrite loadLoop_assign;
    [|discriminate|reflexivity|reflexivity|apply TrimSpace_FormatUint
     |change (len "PAGESIZE") with 8; unfold MaxScanTokenSize; lia].
  rewrite (loadLoop_assign "ENCODING" "UTF-8");
    [|discriminate|reflexivity|reflexivity|reflexivity|reflexivity].
  rewrite (loadLoop_assign "VERSION" "1.0");
    [|discriminate|reflexivity|reflexivity|reflexivity|reflexivity].
  rewrite loadLoop_assign;
    [|discriminate|reflexivity|reflexivity|apply TrimSpace_FormatUint
     |change (len "PAGES") with 5; unfold MaxScanTokenSize; lia].
  assert (forall h0,
            loadKey "PAGES" (FormatUint count)
              (loadKey "VERSION" "1.0"
                 (loadKey "ENCODING" "UTF-8"
                    (loadKey "PAGESIZE" (FormatUint size) h0)))
            = {| File := File h0; PageSize := size; PageCount := count;
                 DeallocatedPages := DeallocatedPages h0 |}) as Hkeys.
  { intros h0. unfold loadKey at 4. rewrite decide_True by reflexivity.
    rewrite SscanInt_FormatUint by exact Hsize.
    unfold loadKey at 3. rewrite !decide_False by discriminate.
    unfold loadKey at 2. rewrite !decide_False by discriminate.
    unfold loadKey. rewrite decide_False by discriminate.
    rewrite decide_True by reflexivity.
    rewrite SscanUint_FormatUint by exact Hcount. reflexivity. }
  rewrite Hkeys.
  destruct free as [ids|].
  - destruct Hfree as [Hids Hlen]. cbn [app].
    pose proof (free_line_fits ids Hlen) as Hfit.
    rewrite loadLoop_assign;
      [|discriminate|reflexivity|reflexivity|apply free_line_trimmed
       |change (len "DEALLOCATED_PAGES") with 17; unfold MaxScanTokenSize; lia].
    rewrite (loadKey_free ids _ Hids). rewrite loadLoop_cons. reflexivity.
  - cbn [app]. rewrite loadLoop_cons. cbn [loadedFree].
    rewrite List.app_nil_r. reflexivity.
Qed.

(** ** Records of a data page, in database/storage/Page.go *)

Lemma StorageEntryKey_inj i j :
  0 <= i < uintMax -> 0 <= j < uintMax ->
  StoragePage.EntryKey i = StoragePage.EntryKey j -> i = j.
Proof.
  intros Hi Hj E. unfold StoragePage.EntryKey in E. cbn in E.
  injection E as E. apply FormatUint_inj; assumption.
Qed.

Lemma StorageEntryKey_not_counter i : StoragePage.EntryKey i <> "EntryIndex".
Proof.
  unfold StoragePage.EntryKey. intros E. cbn in E. injection E as E.
  exact (FormatUint_nonempty i E).
Qed.

Lemma addAll_entries (rs : list Record_) :
  forall (p : Page) (n : Z),
    PageType (Header p) = "Data" -> StoragePage.scanCounter p = n -> 0 <= n ->
    n + Z.of_nat (length rs) < uintMax ->
    exists p',
      addAll p rs = inr p'
      /\ PageType (Header p') = "Data"
      /\ StoragePage.scanCounter p' = n + Z.of_nat (length rs)
      /\ (forall (i : nat) r, rs !! i = Some r ->
            Data p' !! StoragePage.EntryKey (n + 1 + Z.of_nat i)
            = Some (Join (Fields r) "|"))
      /\ (forall j, 0 <= j <= n ->
            Data p' !! StoragePage.EntryKey j = Data p !! StoragePage.EntryKey j).
Proof.
  induction rs as [|r rs IH]; intros p n Ht Hc Hn0 Hn.
  - exists p. cbn [addAll length]. split; [reflexivity|]. split; [exact Ht|].
    split; [cbn; lia|]. split; [intros i r Hi; inversion Hi | reflexivity].
  - cbn [length] in Hn. cbn [addAll]. unfold StoragePage.AddRecord.
    destruct (decide (PageType (Header p) = "Data")) as [_|Hno]; [|contradiction].
    rewrite Hc. rewrite (wrap64_small (n + 1)) by lia.
    set (p1 := setData p _).
    destruct (IH p1 (n + 1)) as (p' & Hrun & Ht' & Hc' & Hget & Hkeep);
      [exact Ht| |lia|lia|].
    { unfold StoragePage.scanCounter, p1. cbn [setData Data].
      rewrite lookup_insert_ne by apply StorageEntryKey_not_counter.
      rewrite lookup_insert_eq. rewrite SscanUint_FormatUint by lia. reflexivity. }
    exists p'. split; [exact Hrun|]. split; [exact Ht'|].
    split; [cbn [length]; lia|]. split.
    + intros [|i] r0 Hi.
      * cbn in Hi. injection Hi as <-.
        rewrite Z.add_0_r. rewrite (Hkeep (n + 1)) by lia.
        unfold p1. cbn [setData Data]. apply lookup_insert_eq.
      * cbn in Hi. specialize (Hget i r0 Hi).
        replace (n + 1 + Z.of_nat (S i)) with (n + 1 + 1 + Z.of_nat i) by lia.
        exact Hget.
    + intros j Hj. rewrite (Hkeep j) by lia.
      unfold p1. cbn [setData Data].
      rewrite lookup_insert_ne.
      * rewrite lookup_insert_ne; [reflexivity|].
        intros E. symmetry in E. exact (StorageEntryKey_not_counter _ E).
      * intros E. apply StorageEntryKey_inj in E; lia.
Qed.

(** The loop of [GetAllRecords] over the first [n] indices. *)
Lemma collect_numbered (d : gmap string string) (rs : list Record_) (n : nat) :
  Forall (fun r => cleanFields (Fields r)) rs ->
  (forall (i : nat) r, rs !! i = Some r ->
     d !! StoragePage.EntryKey (Z.of_nat i + 1) = Some (Join (Fields r) "|")) ->
  (n <= length rs)%nat ->
  omap (fun i : nat =>
          match d !! StoragePage.EntryKey (Z.of_nat i) with
          | Some RecordString =>
              Some {| EntryIndex := Z.of_nat i; Fields := Split RecordString "|" |}
          | None => None
          end) (seq 1 n)
  = imap numbered (firstn n rs).
Proof.
  intros Hclean Hd. induction n as [|n IH]; intros Hn; [reflexivity|].
  rewrite seq_S, omap_app, IH by lia.
  destruct (lookup_lt_is_Some_2 rs n ltac:(lia)) as [r Hr].
  rewrite (take_S_r rs n r Hr), imap_app. f_equal.
  cbn [omap list_omap imap]. 
  replace (Z.of_nat (1 + n)) with (Z.of_nat n + 1) by lia.
  rewrite (Hd n r Hr).
  rewrite length_take, Nat.min_l by lia. unfold numbered.
  rewrite Nat.add_0_r.
  rewrite Split_Join_fields; [reflexivity|].
  exact (proj1 (Forall_lookup _ _) Hclean n r Hr).
Qed.

(** ** Texts of records *)

Lemma textByte_bounds c :
  textByte c = true ->
  (32 <= byte_of c <= 126)%N /\ Ascii.eqb c "|" = false.
Proof.
  unfold textByte. intros [[H1 H2]%andb_true_iff H3]%andb_true_iff.
  apply N.leb_le in H1, H2. apply negb_true_iff in H3. auto.
Qed.

Lemma plainByte_text c :
  plainByte c = true -> Ascii.eqb c "|" = false -> textByte c = true.
Proof.
  unfold plainByte, textByte. intros [H1 H2]%andb_true_iff H3.
  apply N.leb_le in H1, H2. rewrite H3.
  rewrite !andb_true_iff. repeat split; try reflexivity; apply N.leb_le; lia.
Qed.

Lemma text_no_bar d : allBytes textByte d = true -> hasByte "|" d = false.
Proof. intros Hd. apply (allBytes_hasByte textByte); [exact Hd | reflexivity]. Qed.

Lemma text_no_NL d : allBytes textByte d = true -> hasByte NLc d = false.
Proof. intros Hd. apply (allBytes_hasByte textByte); [exact Hd | reflexivity]. Qed.

(** A byte of ASCII that is no white space stops the trimming from the
    right, whatever comes before it. *)
Lemma trimLeftSpaceRev_ascii c s :
  (byte_of c < 128)%N -> asciiSpace (byte_of c) = false ->
  trimLeftSpaceRev (String c s) = String c s.
Proof.
  intros Hc Hsp. rewrite trimLeftSpaceRev_cons, Hsp.
  destruct s as [|c2 [|c3 s3]]; [reflexivity| |].
  - assert (space2 (byte_of c2) (byte_of c) = false) as ->; [|reflexivity].
    unfold space2. apply andb_false_iff. right. apply orb_false_iff.
    split; apply N.eqb_neq; lia.
  - assert (space2 (byte_of c2) (byte_of c) = false) as ->.
    { unfold space2. apply andb_false_iff. right. apply orb_false_iff.
      split; apply N.eqb_neq; lia. }
    assert (space3 (byte_of c3) (byte_of c2) (byte_of c) = false) as ->;
      [|reflexivity].
    unfold space3.
    assert ((byte_of c =? 128)%N = false) as -> by (apply N.eqb_neq; lia).
    assert ((128 <=? byte_of c)%N = false) as -> by (apply N.leb_gt; lia).
    assert ((byte_of c =? 168)%N = false) as -> by (apply N.eqb_neq; lia).
    assert ((byte_of c =? 169)%N = false) as -> by (apply N.eqb_neq; lia).
    assert ((byte_of c =? 175)%N = false) as -> by (apply N.eqb_neq; lia).
    assert ((byte_of c =? 159)%N = false) as -> by (apply N.eqb_neq; lia).
    rewrite !andb_false_r. reflexivity.
Qed.

(** A trimmed text of ASCII behind a text of printable bytes is trimmed. *)
Lemma TrimSpace_behind_plain a d :
  a <> "" -> allBytes plainByte a = true ->
  allBytes textByte d = true -> TrimSpace d = d ->
  TrimSpace (a +:+ d) = a +:+ d.
Proof.
  intros Hne Ha Hd Htrim. unfold TrimSpace, TrimRightSpace.
  destruct a as [|c a']; [congruence|].
  pose proof Ha as Hc. cbn in Hc. apply andb_true_iff in Hc as [Hc Ha'].
  change (String c a' +:+ d) with (String c (a' +:+ d)).
  rewrite (TrimLeftSpace_plain c _ Hc).
  assert (trimLeftSpaceRev (rev (String c (a' +:+ d))) = rev (String c (a' +:+ d)))
    as ->; [|apply rev_involutive].
  change (String c (a' +:+ d)) with (String c a' +:+ d). rewrite rev_app.
  destruct (rev d) as [|c1 r1] eqn:Er.
  - cbn [String.append].
    destruct (rev (String c a')) as [|c0 r0] eqn:Ea.
    + reflexivity.
    + apply trimLeftSpaceRev_plain.
      assert (allBytes plainByte (String c0 r0) = true) as H0
        by (rewrite <- Ea, allBytes_rev; exact Ha).
      cbn in H0. apply andb_true_iff in H0 as [H0 _]. exact H0.
  - change (String c1 r1 +:+ rev (String c a')) with (String c1 (r1 +:+ rev (String c a'))).
    assert (allBytes textByte (String c1 r1) = true) as H1
      by (rewrite <- Er, allBytes_rev; exact Hd).
    cbn in H1. apply andb_true_iff in H1 as [H1 _].
    apply textByte_bounds in H1 as [[Hlo Hhi] _].
    apply trimLeftSpaceRev_ascii; [lia|].
    destruct (asciiSpace (byte_of c1)) eqn:Esp; [|reflexivity]. exfalso.
    apply TrimSpace_fixed in Htrim as [_ Hfix]. rewrite Er in Hfix.
    rewrite trimLeftSpaceRev_cons, Esp in Hfix.
    destruct (trimLeftSpaceRev_shorter r1) as [E|Hlt].
    * rewrite E in Hfix. apply (f_equal String.length) in Hfix. cbn in Hfix. lia.
    * rewrite Hfix in Hlt. cbn in Hlt. lia.
Qed.

(** ** Occurrences of an id line *)

Lemma Contains_false_prefix s x y :
  Contains s x = false -> Contains s (x +:+ y) = false.
Proof.
  intros Hx. destruct (Contains s (x +:+ y)) eqn:E; [|reflexivity].
  apply Contains_true_iff in E as (a & b & ->).
  assert (Contains (a +:+ (x +:+ y) +:+ b) x = true) as Hc.
  { apply Contains_true_iff. exists a, (y +:+ b). rewrite !app_assoc. reflexivity. }
  congruence.
Qed.

Lemma digitsValue_app a b acc :
  digitsValue acc (a +:+ b) = digitsValue (digitsValue acc a) b.
Proof. revert acc. induction a as [|c a IH]; intros acc; [reflexivity|]. cbn. apply IH. Qed.

Lemma digits_no_P n : hasByte "P" (FormatUint n) = false.
Proof. apply (allBytes_hasByte isDigit); [apply FormatUint_digits | reflexivity]. Qed.

(** The id line of a page does not hold the id line of a later page. *)
Lemma marker_before j k :
  0 <= j < k -> k < uintMax ->
  Contains (PageIDMarker j) (PageIDMarker k) = false.
Proof.
  intros Hj Hk. destruct (Contains _ _) eqn:E; [|reflexivity]. exfalso.
  apply Contains_true_iff in E as (a & b & E). unfold PageIDMarker in E.
  assert (Hvj : digitsValue 0 (FormatUint j) = j) by (apply FormatUint_value; lia).
  assert (Hvk : digitsValue 0 (FormatUint k) = k) by (apply FormatUint_value; lia).
  pose proof (FormatUint_digits j) as Hdj.
  pose proof (digits_no_P j) as HPj.
  remember (FormatUint j) as dj. remember (FormatUint k) as dk.
  destruct a as [|c a'].
  - cbn in E. injection E as E.
    rewrite E, digitsValue_app, Hvk in Hvj.
    rewrite E, allBytes_app in Hdj. apply andb_true_iff in Hdj as [_ Hdb].
    pose proof (digitsValue_ge b k Hdb ltac:(lia)). lia.
  - cbn in E. injection E as _ E.
    apply (f_equal (hasByte "P")) in E.
    rewrite !hasByte_app in E. cbn in E. rewrite HPj in E.
    rewrite orb_true_r in E. discriminate.
Qed.

(** A fixed start of a line no position of which begins the text. *)
Lemma Contains_behind K v m :
  (forall j, (j < String.length K)%nat -> HasPrefix (drop j K +:+ v) m = false) ->
  Contains (K +:+ v) m = Contains v m.
Proof.
  intros HK. unfold Contains. rewrite (indexFrom_skip 0 K v m HK).
  rewrite (indexFrom_shift _ v m). destruct (indexFrom 0 v m); reflexivity.
Qed.

Lemma Contains_Pointers v m :
  Contains ("Pointers: " +:+ v) ("PageID: " +:+ m) = Contains v ("PageID: " +:+ m).
Proof.
  apply Contains_behind. intros j Hj.
  do 10 (destruct j as [|j]; [reflexivity|]). cbn in Hj. lia.
Qed.

Lemma plain_free_of_marker v k :
  allBytes plainByte v = true -> Contains v (PageIDMarker k) = false.
Proof.
  intros Hv. apply (Contains_no_byte " "); [apply plain_no_blank; exact Hv|].
  unfold PageIDMarker. rewrite hasByte_app. reflexivity.
Qed.

(** The text of a record holds no id line. *)
Lemma record_free_of_marker ID d k :
  recordKey ID -> recordData d ->
  Contains (ID +:+ "|" +:+ d) (PageIDMarker k) = false.
Proof.
  intros [Hkey Hbar] (Htext & _ & _ & Hno & _).
  assert (Hd : Contains d (PageIDMarker k) = false)
    by (apply Contains_false_prefix; exact Hno).
  unfold Contains.
  change (ID +:+ "|" +:+ d) with (ID +:+ String "|" d).
  change (PageIDMarker k) with (String "P" ("ageID: " +:+ FormatUint k)).
  rewrite indexFrom_app_clean_tail.
  - rewrite indexFrom_cons.
    change (HasPrefix (String "|" d) (String "P" ("ageID: " +:+ FormatUint k)))
      with false.
    rewrite indexFrom_shift. unfold Contains in Hd.
    change (PageIDMarker k) with (String "P" ("ageID: " +:+ FormatUint k)) in Hd.
    destruct (indexFrom 0 d _); [discriminate | reflexivity].
  - apply (plain_free_of_marker ID k), plainKey_plain, Hkey.
  - rewrite hasByte_app. cbn.
    apply (allBytes_hasByte isDigit); [apply FormatUint_digits | reflexivity].
Qed.

Lemma record_free_of_section ID d :
  recordKey ID -> recordData d ->
  Contains (ID +:+ "|" +:+ d) PageSection = false.
Proof.
  intros [Hkey Hbar] (Htext & _ & Hno & _).
  unfold Contains. change (ID +:+ "|" +:+ d) with (ID +:+ String "|" d).
  change PageSection with (String "#" " PAGE").
  rewrite indexFrom_app_clean_tail.
  - rewrite indexFrom_cons.
    change (HasPrefix (String "|" d) (String "#" " PAGE")) with false.
    rewrite indexFrom_shift. unfold Contains in Hno.
    destruct (indexFrom 0 d _); [discriminate | reflexivity].
  - apply (Contains_no_byte " "); [|reflexivity].
    apply plain_no_blank, plainKey_plain, Hkey.
  - reflexivity.
Qed.

(** ** The pages of records *)

Lemma record_carried ID d :
  recordKey ID -> recordData d -> carriedBinding "Entry-1" (ID +:+ "|" +:+ d).
Proof.
  intros [Hkey Hbar] (Htext & Htrim & _ & _ & Hlen).
  pose proof Hkey as (Hne & Hbytes & Hklen).
  split; [repeat split; try reflexivity; discriminate|].
  split.
  - split.
    + rewrite <- app_assoc. apply TrimSpace_behind_plain; try assumption.
      * destruct ID; [congruence | discriminate].
      * rewrite allBytes_app, (plainKey_plain _ Hkey). reflexivity.
    + rewrite !hasByte_app, (text_no_NL d Htext), orb_false_r.
      rewrite (allBytes_hasByte plainByte NLc ID (plainKey_plain _ Hkey) eq_refl).
      reflexivity.
  - rewrite !len_app. change (len "Entry-1") with 7. change (len "|") with 1.
    unfold MaxScanTokenSize. lia.
Qed.

Lemma recordOf_Forall (P : string -> string -> Prop) id rec :
  P "EntryIndex" "1" ->
  match rec with Some (ID, d) => P "Entry-1" (ID +:+ "|" +:+ d) | None => True end ->
  map_Forall P (Data (recordOf id rec)).
Proof.
  intros Hc Hr. unfold recordOf. cbn [Data]. destruct rec as [[ID d]|].
  - apply map_Forall_insert_2; [exact Hr|].
    apply map_Forall_insert_2; [exact Hc | apply map_Forall_empty].
  - apply map_Forall_insert_2; [exact Hc | apply map_Forall_empty].
Qed.

Lemma carried_recordOf id rec :
  0 < id < uintMax -> wellFormedRecord rec -> carriedPage (recordOf id rec).
Proof.
  intros Hid Hrec. split; [exact Hid|].
  split; [split; [discriminate | reflexivity]|].
  split; [split; reflexivity|].
  split; [reflexivity|].
  apply recordOf_Forall.
  - repeat split; try reflexivity; discriminate.
  - destruct rec as [[ID d]|]; [|exact I].
    destruct Hrec as [Hk Hd]. apply record_carried; assumption.
Qed.

Lemma markFree_recordOf id rec :
  wellFormedRecord rec -> markFree (recordOf id rec).
Proof.
  intros Hrec. split; [reflexivity|].
  apply recordOf_Forall; [reflexivity|].
  destruct rec as [[ID d]|]; [|exact I]. destruct Hrec as [Hk Hd].
  unfold lineOf. cbn [fst snd].
  apply (Contains_app_no_first "Entry-1: " _ "#" " PAGE"); [reflexivity|].
  apply record_free_of_section; assumption.
Qed.

Lemma linesFree_recordOf id rec k :
  0 <= id < k -> k < uintMax -> wellFormedRecord rec ->
  linesFree (PageIDMarker k) (recordOf id rec).
Proof.
  intros Hid Hk Hrec.
  split; [apply marker_before; assumption|].
  split; [apply Contains_no_first_byte; reflexivity|].
  split; [apply Contains_no_first_byte; reflexivity|].
  apply recordOf_Forall.
  - apply Contains_no_first_byte. reflexivity.
  - destruct rec as [[ID d]|]; [|exact I]. destruct Hrec as [Hkey Hd].
    unfold lineOf. cbn [fst snd].
    apply (Contains_app_no_first "Entry-1: " _ "P" ("ageID: " +:+ FormatUint k));
      [reflexivity|].
    apply record_free_of_marker; assumption.
Qed.

Lemma linesFree_rootPage (es : list (string * (Z * Z))) k :
  1 < k < uintMax -> Forall plainKey (es.*1) ->
  linesFree (PageIDMarker k) (rootPage es).
Proof.
  intros Hk Hks.
  split; [apply (marker_before 1 k); lia|].
  split; [apply Contains_no_first_byte; reflexivity|].
  split; [apply Contains_no_first_byte; reflexivity|].
  unfold rootPage. cbn [Data]. apply rootData_Forall.
  - unfold lineOf. cbn [fst snd].
    etrans; [exact (Contains_Pointers (Join (map pointerOf es) ",") (FormatUint k))|].
    apply (plain_free_of_marker _ k), plain_Join_pointers.
  - unfold lineOf. cbn [fst snd].
    apply (Contains_app_no_first "Keys: " _ "P" ("ageID: " +:+ FormatUint k));
      [reflexivity|].
    apply (plain_free_of_marker _ k), plain_Join_keys. exact Hks.
  - apply Contains_no_first_byte. reflexivity.
Qed.

Lemma PageContent_free_of_marker `{MapRange} p k :
  linesFree (PageIDMarker k) p -> Contains (PageContent p) (PageIDMarker k) = false.
Proof.
  intros Hp. change (PageIDMarker k) with (String "P" ("ageID: " +:+ FormatUint k)).
  apply PageContent_free_of; [reflexivity | | reflexivity | exact Hp].
  rewrite hasByte_app. apply digits_no_NL, FormatUint_digits.
Qed.

(** ** The sections of the data pages *)

Lemma dataArea_app `{MapRange} s1 : forall id s2,
  dataArea id (s1 ++ s2)
  = dataArea id s1 +:+ dataArea (id + Z.of_nat (length s1)) s2.
Proof.
  induction s1 as [|[b rec] s1 IH]; intros id s2.
  - cbn [app dataArea length]. rewrite Z.add_0_r. reflexivity.
  - cbn [app dataArea length]. rewrite IH, !app_assoc.
    replace (id + 1 + Z.of_nat (length s1)) with (id + Z.of_nat (S (length s1))) by lia.
    reflexivity.
Qed.

Lemma sectionEnd_dataArea `{MapRange} id secs : sectionEnd (dataArea id secs).
Proof.
  destruct secs as [|[b rec] secs]; [left; reflexivity|]. right.
  cbn [dataArea]. rewrite PageContent_shape.
  destruct b; [right | left]; eexists; rewrite !app_assoc; reflexivity.
Qed.

Lemma nextSection_dataArea `{MapRange} id secs :
  nextSection (dataArea id secs) = dataArea id (unblank secs).
Proof.
  destruct secs as [|[b rec] secs]; [reflexivity|].
  cbn [dataArea unblank]. destruct b; [reflexivity|].
  rewrite PageContent_shape. reflexivity.
Qed.

Lemma unblank_records secs : (unblank secs).*2 = secs.*2.
Proof. destruct secs as [|[b rec] secs]; reflexivity. Qed.

Lemma unblank_length secs : length (unblank secs) = length secs.
Proof. destruct secs as [|[b rec] secs]; reflexivity. Qed.

Lemma putRecord_records i rec secs :
  (i <= length secs)%nat ->
  (putRecord i rec secs).*2
  = if decide (i = length secs) then secs.*2 ++ [rec] else <[i := rec]> (secs.*2).
Proof.
  intros Hi. unfold putRecord. destruct (secs !! i) as [[b old]|] eqn:E.
  - apply lookup_lt_Some in E as Hlt.
    rewrite decide_False by lia.
    rewrite fmap_app, fmap_cons, unblank_records. cbn [snd].
    rewrite <- (take_drop_middle secs i _ E) at 3.
    rewrite fmap_app, fmap_cons. cbn [snd].
    rewrite insert_app_r_alt by (rewrite length_fmap, length_take; lia).
    rewrite length_fmap, length_take, Nat.min_l by lia.
    rewrite Nat.sub_diag. reflexivity.
  - apply lookup_ge_None in E. rewrite decide_True by lia.
    rewrite fmap_app. reflexivity.
Qed.

Lemma putRecord_length i rec secs :
  (i <= length secs)%nat ->
  length (putRecord i rec secs)
  = if decide (i = length secs) then S (length secs) else length secs.
Proof.
  intros Hi. pose proof (putRecord_records i rec secs Hi) as E.
  apply (f_equal length) in E. rewrite length_fmap in E. rewrite E.
  destruct (decide _).
  - rewrite List.length_app, length_fmap. cbn. lia.
  - rewrite length_insert, length_fmap. reflexivity.
Qed.

(** The text before a data page: whole lines the scanner delivers, without
    the id line of that page or of a later one. *)
Lemma area_prefix `{MapRange} s1 : forall id pre k,
  endsLines pre -> scannable pre -> Contains pre (PageIDMarker k) = false ->
  0 < id -> id + Z.of_nat (length s1) <= k -> k < uintMax ->
  Forall wellFormedRecord (s1.*2) ->
  endsLines (pre +:+ dataArea id s1)
  /\ scannable (pre +:+ dataArea id s1)
  /\ Contains (pre +:+ dataArea id s1) (PageIDMarker k) = false.
Proof.
  induction s1 as [|[b rec] s1 IH]; intros id pre k He Hs Hno Hid Hk Hmax Hwf.
  - cbn [dataArea]. rewrite app_nil_r. auto.
  - cbn [length] in Hk. cbn [fmap list_fmap snd] in Hwf.
    apply Forall_cons in Hwf as [Hrec Hwf].
    cbn [dataArea].
    assert (Hsep : endsLines (pre +:+ (if b then NL else ""))
                   /\ scannable (pre +:+ (if b then NL else ""))
                   /\ Contains (pre +:+ (if b then NL else "")) (PageIDMarker k) = false).
    { destruct b.
      - split; [right; eexists; reflexivity|].
        split; [apply scannable_snoc_NL; exact Hs | apply Contains_snoc_NL; exact Hno].
      - rewrite app_nil_r. auto. }
    destruct Hsep as (He1 & Hs1 & Hno1).
    assert (Hpage : carriedPage (recordOf id rec))
      by (apply carried_recordOf; [lia | exact Hrec]).
    replace (pre +:+ (if b then NL else "") +:+ PageContent (recordOf id rec)
             +:+ dataArea (id + 1) s1)
      with (((pre +:+ (if b then NL else "")) +:+ PageContent (recordOf id rec))
            +:+ dataArea (id + 1) s1)
      by (rewrite !app_assoc; reflexivity).
    apply IH; try lia; try assumption.
    + apply endsLines_PageContent.
    + apply scannable_PageContent; assumption.
    + change (PageIDMarker k) with (String "P" ("ageID: " +:+ FormatUint k)).
      apply Contains_app_lines; try assumption; try reflexivity.
      * rewrite hasByte_app. apply digits_no_NL, FormatUint_digits.
      * apply (PageContent_free_of_marker _ k).
        apply linesFree_recordOf; [lia | exact Hmax | exact Hrec].
Qed.

Lemma header_prefix k :
  endsLines (InitialContent +:+ NL) /\ scannable (InitialContent +:+ NL)
  /\ Contains (InitialContent +:+ NL) (PageIDMarker k) = false.
Proof.
  split; [right; eexists; reflexivity|].
  split; [unfold scannable; vm_compute; repeat constructor|].
  reflexivity.
Qed.

(** The same for the header with the root leaf. *)
Lemma root_prefix `{MapRange} (es : list (string * (Z * Z))) k :
  Forall plainKey (es.*1) -> (length es <= 3)%nat -> 1 < k < uintMax ->
  endsLines ((InitialContent +:+ NL) +:+ PageContent (rootPage es))
  /\ scannable ((InitialContent +:+ NL) +:+ PageContent (rootPage es))
  /\ Contains ((InitialContent +:+ NL) +:+ PageContent (rootPage es))
       (PageIDMarker k) = false.
Proof.
  intros Hks Hlen Hk. destruct (header_prefix k) as (He & Hs & Hno).
  split; [apply endsLines_PageContent|].
  split; [apply scannable_PageContent; try assumption; apply carried_rootPage; assumption|].
  change (PageIDMarker k) with (String "P" ("ageID: " +:+ FormatUint k)).
  apply Contains_app_lines; try assumption; try reflexivity.
  - rewrite hasByte_app. apply digits_no_NL, FormatUint_digits.
  - apply (PageContent_free_of_marker _ k). apply linesFree_rootPage; assumption.
Qed.

(** The file around its [i]-th data page. *)
Lemma dbFile_split `{MapRange} es secs (i : nat) (b : bool) rec :
  secs !! i = Some (b, rec) ->
  dbFile es secs
  = ((((InitialContent +:+ NL) +:+ PageContent (rootPage es))
      +:+ dataArea 2 (firstn i secs)) +:+ (if b then NL else ""))
    +:+ PageContent (recordOf (2 + Z.of_nat i) rec)
    +:+ dataArea (2 + Z.of_nat i + 1) (skipn (S i) secs).
Proof.
  intros E. unfold dbFile.
  rewrite <- (take_drop_middle secs i _ E) at 1.
  rewrite dataArea_app. cbn [dataArea].
  apply lookup_lt_Some in E. rewrite length_take, Nat.min_l by lia.
  rewrite !app_assoc. reflexivity.
Qed.

Lemma dbFile_prefix `{MapRange} es secs (i : nat) (b : bool) k :
  Forall plainKey (es.*1) -> (length es <= 3)%nat ->
  Forall wellFormedRecord (secs.*2) ->
  2 + Z.of_nat i <= k -> k < uintMax ->
  let pre := (((InitialContent +:+ NL) +:+ PageContent (rootPage es))
              +:+ dataArea 2 (firstn i secs)) +:+ (if b then NL else "") in
  endsLines pre /\ scannable pre /\ Contains pre (PageIDMarker k) = false.
Proof.
  intros Hks Hlen Hwf Hk Hmax pre.
  destruct (root_prefix es k Hks Hlen ltac:(lia)) as (He & Hs & Hno).
  destruct (area_prefix (firstn i secs) 2 _ k He Hs Hno ltac:(lia)) as (He1 & Hs1 & Hno1).
  - rewrite length_take. lia.
  - exact Hmax.
  - rewrite fmap_take. apply Forall_take. exact Hwf.
  - unfold pre. destruct b.
    + split; [right; eexists; reflexivity|].
      split; [apply scannable_snoc_NL; exact Hs1 | apply Contains_snoc_NL; exact Hno1].
    + rewrite app_nil_r. auto.
Qed.

(** Reading, replacing and appending a data page. *)
Lemma ReadPage_record `{MapRange} h es secs (i : nat) b rec :
  File h = dbFile es secs ->
  Forall plainKey (es.*1) -> (length es <= 3)%nat ->
  Forall wellFormedRecord (secs.*2) ->
  secs !! i = Some (b, rec) ->
  2 + Z.of_nat i <= PageCount h -> PageCount h < uintMax ->
  ReadPage (2 + Z.of_nat i) h = (Ok (recordOf (2 + Z.of_nat i) rec), h).
Proof.
  intros Hfile Hks Hlen Hwf E Hcount Hmax.
  rewrite (dbFile_split es secs i b rec E) in Hfile.
  destruct (dbFile_prefix es secs i b (2 + Z.of_nat i) Hks Hlen Hwf ltac:(lia) ltac:(lia))
    as (He & Hs & Hno).
  assert (Hrec : wellFormedRecord rec).
  { apply (proj1 (Forall_lookup _ _) Hwf i). rewrite list_lookup_fmap, E. reflexivity. }
  apply (ReadPage_written h (recordOf (2 + Z.of_nat i) rec) _ _ Hfile He Hs Hno).
  - apply sectionEnd_dataArea.
  - apply carried_recordOf; [lia | exact Hrec].
  - exact Hcount.
Qed.

Lemma putRecord_file `{MapRange} es secs (i : nat) (b : bool) old rec :
  secs !! i = Some (b, old) ->
  dbFile es (putRecord i rec secs)
  = ((((InitialContent +:+ NL) +:+ PageContent (rootPage es))
      +:+ dataArea 2 (firstn i secs)) +:+ (if b then NL else ""))
    +:+ PageContent (recordOf (2 + Z.of_nat i) rec)
    +:+ nextSection (dataArea (2 + Z.of_nat i + 1) (skipn (S i) secs)).
Proof.
  intros E. unfold putRecord. rewrite E. unfold dbFile.
  rewrite dataArea_app. cbn [dataArea].
  apply lookup_lt_Some in E. rewrite length_take, Nat.min_l by lia.
  rewrite nextSection_dataArea, !app_assoc. reflexivity.
Qed.

Lemma WritePage_record `{MapRange} h es secs (i : nat) b old rec :
  File h = dbFile es secs ->
  Forall plainKey (es.*1) -> (length es <= 3)%nat ->
  Forall wellFormedRecord (secs.*2) ->
  secs !! i = Some (b, old) ->
  2 + Z.of_nat i <= PageCount h -> PageCount h < uintMax ->
  WritePage (recordOf (2 + Z.of_nat i) rec) h
  = (Ok tt, setFile h (dbFile es (putRecord i rec secs))).
Proof.
  intros Hfile Hks Hlen Hwf E Hcount Hmax.
  rewrite (putRecord_file es secs i b old rec E).
  rewrite (dbFile_split es secs i b old E) in Hfile.
  destruct (dbFile_prefix es secs i b (2 + Z.of_nat i) Hks Hlen Hwf ltac:(lia) ltac:(lia))
    as (He & Hs & Hno).
  assert (Hold : wellFormedRecord old).
  { apply (proj1 (Forall_lookup _ _) Hwf i). rewrite list_lookup_fmap, E. reflexivity. }
  apply (WritePage_over h (recordOf (2 + Z.of_nat i) old) (recordOf (2 + Z.of_nat i) rec)
           _ _ Hfile eq_refl Hno).
  - apply sectionEnd_dataArea.
  - apply markFree_recordOf. exact Hold.
  - exact Hcount.
Qed.

Lemma WritePage_new_record `{MapRange} h es secs rec :
  File h = dbFile es secs ->
  Forall plainKey (es.*1) -> (length es <= 3)%nat ->
  Forall wellFormedRecord (secs.*2) ->
  2 + Z.of_nat (length secs) <= PageCount h -> PageCount h < uintMax ->
  WritePage (recordOf (2 + Z.of_nat (length secs)) rec) h
  = (Ok tt, setFile h (dbFile es (putRecord (length secs) rec secs))).
Proof.
  intros Hfile Hks Hlen Hwf Hcount Hmax.
  set (k := 2 + Z.of_nat (length secs)).
  destruct (root_prefix es k Hks Hlen ltac:(lia)) as (He & Hs & Hno).
  destruct (area_prefix secs 2 _ k He Hs Hno ltac:(lia) ltac:(lia) ltac:(lia) Hwf)
    as (_ & _ & Hfree).
  unfold WritePage. cbn [recordOf Header PageID]. fold (recordOf k rec).
  rewrite Hfile. unfold dbFile at 1. rewrite <- app_assoc.
  rewrite (replacePage_absent _ _ _ Hfree).
  assert ((PageCount h <? k) = false) as -> by (apply Z.ltb_ge; lia).
  f_equal. f_equal. unfold putRecord.
  rewrite (proj2 (lookup_ge_None secs (length secs)) (Nat.le_refl _)).
  unfold dbFile. rewrite dataArea_app. cbn [dataArea].
  rewrite !app_assoc, app_nil_r. reflexivity.
Qed.

(** Writing the root leaf again. *)
Lemma WritePage_root `{MapRange} h es es' secs :
  File h = dbFile es secs -> Forall plainKey (es.*1) -> 1 <= PageCount h ->
  WritePage (rootPage es') h = (Ok tt, setFile h (dbFile es' (unblank secs))).
Proof.
  intros Hfile Hks Hcount. unfold dbFile. rewrite <- nextSection_dataArea.
  apply (WritePage_leaf h es es' _ _ Hfile); try assumption.
  - reflexivity.
  - apply sectionEnd_dataArea.
Qed.

(** ** The database as a finite map *)

Lemma holdsLeaf_dbFile `{MapRange} h es secs :
  File h = dbFile es secs -> 1 <= PageCount h ->
  NoDup (es.*1) -> ascending (es.*1) -> Forall plainKey (es.*1) ->
  Forall pointerInRange (es.*2) -> (length es <= 3)%nat ->
  holdsLeaf h es.
Proof.
  intros Hfile Hcount Hnd Hasc Hks Hrange Hlen.
  destruct (header_prefix 1) as (He & Hs & Hno).
  split; [|repeat split; assumption].
  exists (InitialContent +:+ NL), (dataArea 2 secs).
  repeat split; try assumption. apply sectionEnd_dataArea.
Qed.

Lemma holdsLeaf_moved `{MapRange} h h' es secs :
  holdsLeaf h es -> File h' = dbFile es secs -> 1 <= PageCount h' ->
  holdsLeaf h' es.
Proof.
  intros (_ & _ & Hnd & Hasc & Hks & Hrange & Hlen) Hfile Hcount.
  apply (holdsLeaf_dbFile h' es secs); assumption.
Qed.

Lemma holdsDB_new `{MapRange} : holdsDB emptyTreeStore ∅.
Proof.
  exists [], []. destruct emptyTree_holdsLeaf as [_ Hleaf].
  split; [exact Hleaf|]. rewrite emptyTreeStore_eq. cbn [File DeallocatedPages PageCount].
  split; [reflexivity|]. split; [reflexivity|].
  split; [cbn; lia|]. split; [cbn; lia|]. split; [constructor|].
  split; [intros k pid idx Hk; apply elem_of_list_to_map_2 in Hk; inversion Hk|].
  intros k _. apply lookup_empty.
Qed.

(** The keys of the index are the keys of the map. *)
Lemma holdsDB_size `{MapRange} (es : list (string * (Z * Z)))
    (m : gmap string string) (P : string -> Z * Z -> string -> Prop) :
  NoDup (es.*1) ->
  (forall k pe, (list_to_map es : gmap string (Z * Z)) !! k = Some pe ->
                exists d, P k pe d /\ m !! k = Some d) ->
  (forall k, (list_to_map es : gmap string (Z * Z)) !! k = None -> m !! k = None) ->
  size m = length es.
Proof.
  intros Hnd Hsome Hnone.
  rewrite <- (map_size_list_to_map (M := gmap string) es Hnd).
  rewrite <- !(size_dom (D := gset string)).
  f_equal. apply set_eq. intros k. rewrite !elem_of_dom.
  destruct ((list_to_map es : gmap string (Z * Z)) !! k) as [pe|] eqn:E.
  - destruct (Hsome k pe E) as (d & _ & ->). split; eauto.
  - rewrite (Hnone k E). split; intros [? ?]; discriminate.
Qed.

Lemma Split_record ID d :
  hasByte "|" ID = false -> hasByte "|" d = false ->
  Split (ID +:+ "|" +:+ d) "|" = [ID; d].
Proof.
  intros HID Hd. change (ID +:+ "|" +:+ d) with (ID +:+ String "|" d).
  rewrite (Split_app ID "|" d HID), (Split_no_sep d "|" Hd). reflexivity.
Qed.

Lemma records_lookup (secs : list (bool * option (string * string))) i rec :
  secs.*2 !! i = Some rec -> exists b, secs !! i = Some (b, rec).
Proof.
  rewrite list_lookup_fmap. destruct (secs !! i) as [[b r]|]; [|discriminate].
  cbn. intros [= ->]. eauto.
Qed.

(** Reading the record of a key of the index. *)
Lemma ReadPage_indexed `{MapRange} h es secs pid ID d :
  holdsLeaf h es -> File h = dbFile es secs ->
  Forall wellFormedRecord (secs.*2) ->
  2 <= pid <= PageCount h -> PageCount h < uintMax ->
  secs.*2 !! Z.to_nat (pid - 2) = Some (Some (ID, d)) ->
  ReadPage pid h = (Ok (recordOf pid (Some (ID, d))), h)
  /\ Page.GetRecord (recordOf pid (Some (ID, d))) 1 = Ok (recordFor ID d)
  /\ recordKey ID /\ recordData d.
Proof.
  intros Hleaf Hfile Hwf Hpid Hmax Hrec.
  pose proof Hleaf as (_ & _ & _ & _ & Hks & _ & Hlen).
  pose proof (proj1 (Forall_lookup _ _) Hwf _ _ Hrec) as [Hkey Hdata].
  destruct (records_lookup _ _ _ Hrec) as [b Hsec].
  replace pid with (2 + Z.of_nat (Z.to_nat (pid - 2))) at 1 2 3 by lia.
  split; [|split; [|split; assumption]].
  - apply (ReadPage_record h es secs _ b); try assumption. lia.
  - unfold Page.GetRecord. cbn [recordOf Header PageType Data].
    rewrite decide_True by reflexivity.
    change (Page.EntryKey 1) with "Entry-1". rewrite lookup_insert_eq.
    rewrite Split_record; [reflexivity | apply Hkey |].
    apply text_no_bar, Hdata.
Qed.

Lemma Get_spec `{MapRange} h m ID :
  holdsDB h m ->
  Database.Get newDatabase ID h = (Ok (recordFor ID <$> m !! ID), h).
Proof.
  intros (es & secs & Hleaf & Hfile & Hfree & Hcount & Hmax & Hwf & Hsome & Hnone).
  unfold Database.Get, bind. cbn [Index newDatabase].
  rewrite (Find_leaf h es ID Hleaf).
  destruct ((list_to_map es : gmap string (Z * Z)) !! ID) as [[pid idx]|] eqn:E.
  - destruct (Hsome ID pid idx E) as (-> & Hpid & d & Hrec & ->).
    cbn [from_option id]. cbv beta iota.
    assert ((pid =? 0) = false) as -> by (apply Z.eqb_neq; lia).
    destruct (ReadPage_indexed h es secs pid ID d Hleaf Hfile Hwf Hpid) as (Hread & Hget & _);
      [unfold uintMax; lia | exact Hrec |].
    rewrite Hread. cbv beta iota. unfold lift. rewrite Hget. reflexivity.
  - rewrite (Hnone ID E). reflexivity.
Qed.

(** ** [Database.Insert] *)

Lemma putRecord_lookup_eq i rec (secs : list (bool * option (string * string))) :
  (i <= length secs)%nat -> (putRecord i rec secs).*2 !! i = Some rec.
Proof.
  intros Hi. rewrite putRecord_records by exact Hi. destruct (decide _) as [->|Hne].
  - rewrite lookup_app_r by (rewrite length_fmap; lia).
    rewrite length_fmap, Nat.sub_diag. reflexivity.
  - apply list_lookup_insert_eq. rewrite length_fmap. lia.
Qed.

Lemma putRecord_lookup_ne i j rec (secs : list (bool * option (string * string))) :
  (i <= length secs)%nat -> j <> i ->
  (putRecord i rec secs).*2 !! j = secs.*2 !! j.
Proof.
  intros Hi Hne. rewrite putRecord_records by exact Hi. destruct (decide _) as [->|Hn].
  - destruct (decide (j < length secs)%nat) as [Hlt|Hge].
    + apply lookup_app_l. rewrite length_fmap. exact Hlt.
    + rewrite lookup_ge_None_2 by (rewrite List.length_app, length_fmap; cbn; lia).
      symmetry. apply lookup_ge_None_2. rewrite length_fmap. lia.
  - apply list_lookup_insert_ne. congruence.
Qed.

Lemma putRecord_wellFormed i rec (secs : list (bool * option (string * string))) :
  (i <= length secs)%nat -> wellFormedRecord rec ->
  Forall wellFormedRecord (secs.*2) ->
  Forall wellFormedRecord ((putRecord i rec secs).*2).
Proof.
  intros Hi Hrec Hwf. rewrite putRecord_records by exact Hi. destruct (decide _).
  - apply Forall_app. split; [exact Hwf | constructor; [exact Hrec | constructor]].
  - apply Forall_insert; assumption.
Qed.

(** Writing the data page of id [2 + i], in place or at the end. *)
Lemma WritePage_put `{MapRange} h es secs (i : nat) rec :
  File h = dbFile es secs ->
  Forall plainKey (es.*1) -> (length es <= 3)%nat ->
  Forall wellFormedRecord (secs.*2) ->
  (i <= length secs)%nat ->
  2 + Z.of_nat i <= PageCount h -> PageCount h < uintMax ->
  WritePage (recordOf (2 + Z.of_nat i) rec) h
  = (Ok tt, setFile h (dbFile es (putRecord i rec secs))).
Proof.
  intros Hfile Hks Hlen Hwf Hi Hcount Hmax.
  destruct (secs !! i) as [[b old]|] eqn:E.
  - apply (WritePage_record h es secs i b old); assumption.
  - apply lookup_ge_None in E. assert (i = length secs) as -> by lia.
    apply WritePage_new_record; assumption.
Qed.

(** The first steps of [Insert] for a key the index does not hold: a page
    is allocated and written with the record; what is left is the insert
    into the index. *)
Lemma Insert_data_page `{MapRange} h es secs ID Data :
  holdsLeaf h es -> File h = dbFile es secs -> DeallocatedPages h = [] ->
  PageCount h <= 1 + Z.of_nat (length secs) -> PageCount h + 2 < 2 ^ 32 ->
  Forall wellFormedRecord (secs.*2) ->
  (list_to_map es : gmap string (Z * Z)) !! ID = None ->
  Database.Insert newDatabase ID Data h
  = BPlusTree.Insert rootTree ID (PageCount h + 1) 1
      {| File := dbFile es (putRecord (Z.to_nat (PageCount h - 1)) (Some (ID, Data)) secs);
         PageSize := PageSize h; PageCount := PageCount h + 1;
         DeallocatedPages := [] |}.
Proof.
  intros Hleaf Hfile Hfree Hcount Hmax Hwf Hnone.
  pose proof Hleaf as (_ & H1 & _ & _ & Hks & _ & Hlen).
  unfold Database.Insert, bind, Database.findIgnoringError.
  cbn [Index newDatabase]. rewrite (Find_leaf h es ID Hleaf), Hnone.
  cbn [from_option id]. cbv beta iota. change (negb (0 =? 0)) with false. cbv iota.
  unfold AllocatePage. rewrite Hfree.
  rewrite (wrap64_small (PageCount h + 1)) by (unfold uintMax; lia).
  cbv beta iota.
  set (n := PageCount h + 1).
  change (Page.AddRecord (setType (newPage n) "Data")
            {| EntryIndex := 0; Fields := [ID; Data] |})
    with (Ok (1, recordOf n (Some (ID, Data)),
              {| EntryIndex := 1; Fields := [ID; Data] |})).
  unfold lift. cbv beta iota.
  set (i := Z.to_nat (PageCount h - 1)).
  assert (Hn : n = 2 + Z.of_nat i) by (unfold n, i; lia).
  rewrite Hn at 1.
  rewrite (WritePage_put (setPageCount h n) es secs i (Some (ID, Data)));
    try assumption.
  - cbv beta iota. cbn [PageID Header recordOf]. unfold setFile, setPageCount.
    cbn [File PageSize PageCount DeallocatedPages]. rewrite Hfree. reflexivity.
  - unfold i. lia.
  - cbn [setPageCount PageCount]. lia.
  - cbn [setPageCount PageCount]. unfold n, uintMax. lia.
Qed.

Lemma index_absent (es : list (string * (Z * Z))) ID :
  (list_to_map es : gmap string (Z * Z)) !! ID = None -> ID ∉ es.*1.
Proof. apply not_elem_of_list_to_map. Qed.

(** [Insert] of a new key while the leaf has room. *)
Lemma Insert_spec_new `{MapRange} h m ID Data :
  holdsDB h m -> recordKey ID -> recordData Data ->
  m !! ID = None -> (size m < 3)%nat -> PageCount h + 2 < 2 ^ 32 ->
  exists h',
    Database.Insert newDatabase ID Data h = (Ok tt, h')
    /\ holdsDB h' (<[ID := Data]> m)
    /\ PageCount h' = PageCount h + 1.
Proof.
  intros (es & secs & Hleaf & Hfile & Hfree & Hcount & Hmax & Hwf & Hsome & Hnone)
         Hkey Hdata Habs Hsize Hbound.
  pose proof Hleaf as (_ & H1 & Hnd & Hasc & Hks & Hrange & Hlen).
  assert (Hidx : (list_to_map es : gmap string (Z * Z)) !! ID = None).
  { destruct ((list_to_map es : gmap string (Z * Z)) !! ID) as [[pid idx]|] eqn:E;
      [|reflexivity].
    destruct (Hsome ID pid idx E) as (_ & _ & d & _ & Hd). congruence. }
  assert (Hes : (length es < 3)%nat).
  { rewrite <- (holdsDB_size es m
                  (fun k pe d => secs.*2 !! Z.to_nat (pe.1 - 2) = Some (Some (k, d))) Hnd);
      [lia | | exact Hnone].
    intros k [pid idx] E. destruct (Hsome k pid idx E) as (_ & _ & d & Hd & Hm). eauto. }
  rewrite (Insert_data_page h es secs ID Data Hleaf Hfile Hfree Hcount Hbound Hwf Hidx).
  set (i := Z.to_nat (PageCount h - 1)).
  assert (Hi : (i <= length secs)%nat) by (unfold i; lia).
  set (secs' := putRecord i (Some (ID, Data)) secs).
  set (h2 := {| File := dbFile es secs'; PageSize := PageSize h;
                PageCount := PageCount h + 1; DeallocatedPages := [] |}).
  assert (Hleaf2 : holdsLeaf h2 es)
    by (apply (holdsLeaf_moved h h2 es secs' Hleaf); [reflexivity | cbn; lia]).
  pose proof (index_absent es ID Hidx) as Hnot.
  destruct (Insert_leaf h2 es ID (PageCount h + 1) 1 Hleaf2 (proj1 Hkey) Hnot Hes)
    as (h3 & Hins & Hleaf3); [split; cbn; lia|].
  pose proof Hins as Hshape.
  rewrite (Insert_as_WritePage h2 es ID _ _ Hleaf2 Hnot Hes) in Hshape.
  rewrite (WritePage_root h2 es _ secs' eq_refl Hks) in Hshape by (cbn; lia).
  injection Hshape as Hh3.
  exists h3. split; [exact Hins|]. split; [|rewrite <- Hh3; reflexivity].
  set (es' := insertEntry ID (PageCount h + 1, 1) es) in *.
  assert (Hlen' : length (unblank secs') = if decide (i = length secs)
                                           then S (length secs) else length secs).
  { rewrite unblank_length. apply putRecord_length. exact Hi. }
  exists es', (unblank secs').
  split; [exact Hleaf3|]. rewrite <- Hh3. cbn [setFile File DeallocatedPages PageCount h2].
  split; [reflexivity|]. split; [reflexivity|].
  split; [rewrite Hlen'; destruct (decide _); unfold i in *; lia|].
  split; [rewrite Hlen'; destruct (decide _); unfold i in *; lia|].
  rewrite unblank_records.
  split; [apply putRecord_wellFormed; [exact Hi | split; assumption | exact Hwf]|].
  assert (Hmap : (list_to_map es' : gmap string (Z * Z))
                 = <[ID := (PageCount h + 1, 1)]> (list_to_map es))
    by (apply insertEntry_map; assumption).
  split.
  - intros k pid idx. rewrite Hmap. destruct (decide (k = ID)) as [->|Hne].
    + rewrite lookup_insert_eq. intros [= <- <-].
      split; [reflexivity|]. split; [lia|].
      exists Data. split; [|apply lookup_insert_eq].
      replace (Z.to_nat (PageCount h + 1 - 2)) with i by (unfold i; lia).
      apply putRecord_lookup_eq. exact Hi.
    + rewrite lookup_insert_ne by congruence. intros E.
      destruct (Hsome k pid idx E) as (-> & Hpid & d & Hd & Hm).
      split; [reflexivity|]. split; [lia|].
      exists d. split; [|rewrite lookup_insert_ne by congruence; exact Hm].
      unfold secs'. rewrite putRecord_lookup_ne; [exact Hd | exact Hi | unfold i; lia].
  - intros k. rewrite Hmap. destruct (decide (k = ID)) as [->|Hne].
    + rewrite lookup_insert_eq. discriminate.
    + rewrite !lookup_insert_ne by congruence. apply Hnone.
Qed.

(** [Insert] of a new key when the leaf is full: the page is written, the
    index drops the key. *)
Lemma Insert_spec_full `{MapRange} h m ID Data :
  holdsDB h m -> recordKey ID -> recordData Data ->
  m !! ID = None -> size m = 3%nat -> PageCount h + 2 < 2 ^ 32 ->
  exists h',
    Database.Insert newDatabase ID Data h = (Ok tt, h')
    /\ holdsDB h' m
    /\ PageCount h' = PageCount h + 1.
Proof.
  intros (es & secs & Hleaf & Hfile & Hfree & Hcount & Hmax & Hwf & Hsome & Hnone)
         Hkey Hdata Habs Hsize Hbound.
  pose proof Hleaf as (_ & H1 & Hnd & Hasc & Hks & Hrange & Hlen).
  assert (Hidx : (list_to_map es : gmap string (Z * Z)) !! ID = None).
  { destruct ((list_to_map es : gmap string (Z * Z)) !! ID) as [[pid idx]|] eqn:E;
      [|reflexivity].
    destruct (Hsome ID pid idx E) as (_ & _ & d & _ & Hd). congruence. }
  assert (Hes : length es = 3%nat).
  { rewrite <- (holdsDB_size es m
                  (fun k pe d => secs.*2 !! Z.to_nat (pe.1 - 2) = Some (Some (k, d))) Hnd);
      [exact Hsize | | exact Hnone].
    intros k [pid idx] E. destruct (Hsome k pid idx E) as (_ & _ & d & Hd & Hm). eauto. }
  rewrite (Insert_data_page h es secs ID Data Hleaf Hfile Hfree Hcount Hbound Hwf Hidx).
  set (i := Z.to_nat (PageCount h - 1)).
  assert (Hi : (i <= length secs)%nat) by (unfold i; lia).
  set (secs' := putRecord i (Some (ID, Data)) secs).
  set (h2 := {| File := dbFile es secs'; PageSize := PageSize h;
                PageCount := PageCount h + 1; DeallocatedPages := [] |}).
  assert (Hleaf2 : holdsLeaf h2 es)
    by (apply (holdsLeaf_moved h h2 es secs' Hleaf); [reflexivity | cbn; lia]).
  rewrite (Insert_leaf_full h2 es ID _ _ Hleaf2 Hes).
  exists h2. split; [reflexivity|]. split; [|reflexivity].
  assert (Hlen' : length secs' = if decide (i = length secs)
                                 then S (length secs) else length secs)
    by (apply putRecord_length; exact Hi).
  exists es, secs'.
  split; [exact Hleaf2|]. cbn [File DeallocatedPages PageCount h2].
  split; [reflexivity|]. split; [reflexivity|].
  split; [rewrite Hlen'; destruct (decide _); unfold i in *; lia|].
  split; [rewrite Hlen'; destruct (decide _); unfold i in *; lia|].
  split; [apply putRecord_wellFormed; [exact Hi | split; assumption | exact Hwf]|].
  split; [|exact Hnone].
  intros k pid idx E. destruct (Hsome k pid idx E) as (-> & Hpid & d & Hd & Hm).
  split; [reflexivity|]. split; [lia|].
  exists d. split; [|exact Hm].
  unfold secs'. rewrite putRecord_lookup_ne; [exact Hd | exact Hi | unfold i; lia].
Qed.

(** ** [Database.Update] and [Database.Delete] *)

(** What the invariant says of a key of the map. *)
Lemma holdsDB_present (h : TextFileHandler) (m : gmap string string)
    (ID d : string)
    (es : list (string * (Z * Z))) (secs : list (bool * option (string * string))) :
  (forall k pid idx,
      (list_to_map es : gmap string (Z * Z)) !! k = Some (pid, idx) ->
      idx = 1 /\ 2 <= pid <= PageCount h
      /\ exists d, secs.*2 !! Z.to_nat (pid - 2) = Some (Some (k, d))
                   /\ m !! k = Some d) ->
  (forall k, (list_to_map es : gmap string (Z * Z)) !! k = None -> m !! k = None) ->
  m !! ID = Some d ->
  exists pid,
    (list_to_map es : gmap string (Z * Z)) !! ID = Some (pid, 1)
    /\ 2 <= pid <= PageCount h
    /\ secs.*2 !! Z.to_nat (pid - 2) = Some (Some (ID, d)).
Proof.
  intros Hsome Hnone Hm.
  destruct ((list_to_map es : gmap string (Z * Z)) !! ID) as [[pid idx]|] eqn:E.
  - destruct (Hsome ID pid idx E) as (-> & Hpid & d' & Hd & Hm').
    assert (d' = d) as -> by congruence. eauto.
  - rewrite (Hnone ID E) in Hm. discriminate.
Qed.

(** Two keys of the index do not share a data page. *)
Lemma holdsDB_apart (h : TextFileHandler) (m : gmap string string)
    (ID d : string) (pid : Z) (k : string) (pid' idx' : Z)
    (es : list (string * (Z * Z))) (secs : list (bool * option (string * string))) :
  (forall k pid idx,
      (list_to_map es : gmap string (Z * Z)) !! k = Some (pid, idx) ->
      idx = 1 /\ 2 <= pid <= PageCount h
      /\ exists d, secs.*2 !! Z.to_nat (pid - 2) = Some (Some (k, d))
                   /\ m !! k = Some d) ->
  secs.*2 !! Z.to_nat (pid - 2) = Some (Some (ID, d)) ->
  (list_to_map es : gmap string (Z * Z)) !! k = Some (pid', idx') -> k <> ID ->
  Z.to_nat (pid' - 2) <> Z.to_nat (pid - 2).
Proof.
  intros Hsome Hrec E Hne Heq.
  destruct (Hsome k pid' idx' E) as (_ & _ & d' & Hd & _).
  rewrite Heq in Hd. congruence.
Qed.

Lemma Update_spec `{MapRange} h m ID d NewData :
  holdsDB h m -> m !! ID = Some d -> recordData NewData ->
  exists h',
    Database.Update newDatabase ID NewData h = (Ok tt, h')
    /\ holdsDB h' (<[ID := NewData]> m)
    /\ PageCount h' = PageCount h.
Proof.
  intros (es & secs & Hleaf & Hfile & Hfree & Hcount & Hmax & Hwf & Hsome & Hnone)
         Hm Hnew.
  pose proof Hleaf as (_ & H1 & Hnd & Hasc & Hks & Hrange & Hlen).
  destruct (holdsDB_present h m ID d es secs Hsome Hnone Hm) as (pid & E & Hpid & Hrec).
  assert (Hmax' : PageCount h < uintMax) by (unfold uintMax; lia).
  destruct (ReadPage_indexed h es secs pid ID d Hleaf Hfile Hwf Hpid Hmax' Hrec)
    as (Hread & Hget & Hkey & Hdata).
  unfold Database.Update, bind. cbn [Index newDatabase].
  rewrite (Find_leaf h es ID Hleaf), E. cbn [from_option id]. cbv beta iota.
  assert ((pid =? 0) = false) as -> by (apply Z.eqb_neq; lia).
  rewrite Hread. cbv beta iota. unfold lift. rewrite Hget. cbv beta iota.
  cbn [Fields recordFor].
  assert (Hpage : setData (recordOf pid (Some (ID, d)))
                    (<[Page.EntryKey 1 := Join [ID; NewData] "|"]>
                       (Data (recordOf pid (Some (ID, d)))))
                  = recordOf pid (Some (ID, NewData))).
  { unfold recordOf, setData. cbn [Header Data]. f_equal. }
  rewrite Hpage.
  set (i := Z.to_nat (pid - 2)) in *.
  assert (Hi : (i < length secs)%nat).
  { apply lookup_lt_Some in Hrec. rewrite length_fmap in Hrec. exact Hrec. }
  assert (Hp : pid = 2 + Z.of_nat i) by (unfold i; lia).
  replace (recordOf pid (Some (ID, NewData)))
    with (recordOf (2 + Z.of_nat i) (Some (ID, NewData)))
    by (rewrite <- Hp; reflexivity).
  rewrite (WritePage_put h es secs i (Some (ID, NewData)));
    try assumption; try lia.
  eexists. split; [reflexivity|]. split; [|reflexivity].
  exists es, (putRecord i (Some (ID, NewData)) secs).
  cbn [setFile File DeallocatedPages PageCount].
  split; [apply (holdsLeaf_moved h _ es (putRecord i (Some (ID, NewData)) secs) Hleaf);
          [reflexivity | exact H1]|].
  split; [reflexivity|]. split; [exact Hfree|].
  rewrite putRecord_length by lia. rewrite decide_False by lia.
  split; [exact Hcount|]. split; [exact Hmax|].
  split; [apply putRecord_wellFormed; [lia | split; assumption | exact Hwf]|].
  split.
  - intros k pid' idx' E'. destruct (Hsome k pid' idx' E') as (-> & Hpid' & d' & Hd' & Hm').
    split; [reflexivity|]. split; [exact Hpid'|].
    destruct (decide (k = ID)) as [->|Hne].
    + assert (pid' = pid) as -> by congruence.
      exists NewData. split; [|apply lookup_insert_eq].
      apply putRecord_lookup_eq. lia.
    + exists d'. split; [|rewrite lookup_insert_ne by congruence; exact Hm'].
      rewrite putRecord_lookup_ne; [exact Hd' | lia |].
      exact (holdsDB_apart h m ID d pid k pid' 1 es secs Hsome Hrec E' Hne).
  - intros k E'. destruct (decide (k = ID)) as [->|Hne]; [congruence|].
    rewrite lookup_insert_ne by congruence. apply Hnone. exact E'.
Qed.

Lemma Update_absent `{MapRange} h m ID NewData :
  holdsDB h m -> m !! ID = None ->
  Database.Update newDatabase ID NewData h = (Err (ErrUpdateNonExistent ID), h).
Proof.
  intros (es & secs & Hleaf & _ & _ & _ & _ & _ & Hsome & _) Hm.
  assert (Hidx : (list_to_map es : gmap string (Z * Z)) !! ID = None).
  { destruct ((list_to_map es : gmap string (Z * Z)) !! ID) as [[pid idx]|] eqn:E;
      [|reflexivity].
    destruct (Hsome ID pid idx E) as (_ & _ & d & _ & Hd). congruence. }
  unfold Database.Update, bind. cbn [Index newDatabase].
  rewrite (Find_leaf h es ID Hleaf), Hidx. reflexivity.
Qed.

Lemma Delete_as_WritePage `{MapRange} h es key :
  holdsLeaf h es -> key ∈ es.*1 ->
  BPlusTree.Delete rootTree key h = WritePage (rootPage (deleteEntry key es)) h.
Proof.
  intros Hh Hin. pose proof (readNode_leaf h es Hh) as Hread.
  unfold BPlusTree.Delete, bind, deleteEntry. cbn [RootPageID rootTree].
  rewrite Hread. cbn [IsLeaf rootNode Keys Pointers negb].
  destruct (BPlusTree.findIndex (es.*1) key 0) as [i|] eqn:Efind.
  - apply findIndex_Some in Efind as (n & -> & Hn). change (0 + n)%nat with n.
    apply lookup_lt_Some in Hn as Hlt. rewrite length_fmap in Hlt.
    unfold BPlusTree.sliceToL, BPlusTree.sliceFromL. rewrite length_map.
    replace (n <=? length es)%nat with true by (symmetry; apply Nat.leb_le; lia).
    replace (S n <=? length es)%nat with true by (symmetry; apply Nat.leb_le; lia).
    rewrite <- writeNode_as_WritePage with (es := es).
    f_equal. f_equal.
    + rewrite removeAt_fmap. reflexivity.
    + change (map pointerOf) with (fmap (M := list) pointerOf).
      rewrite removeAt_fmap. reflexivity.
  - exfalso. exact (findIndex_not_None _ _ 0 Hin Efind).
Qed.

Lemma Delete_spec `{MapRange} h m ID d :
  holdsDB h m -> m !! ID = Some d ->
  exists h',
    Database.Delete newDatabase ID h = (Ok tt, h')
    /\ holdsDB h' (delete ID m)
    /\ PageCount h' = PageCount h.
Proof.
  intros (es & secs & Hleaf & Hfile & Hfree & Hcount & Hmax & Hwf & Hsome & Hnone) Hm.
  pose proof Hleaf as (_ & H1 & Hnd & Hasc & Hks & Hrange & Hlen).
  destruct (holdsDB_present h m ID d es secs Hsome Hnone Hm) as (pid & E & Hpid & Hrec).
  assert (Hmax' : PageCount h < uintMax) by (unfold uintMax; lia).
  destruct (ReadPage_indexed h es secs pid ID d Hleaf Hfile Hwf Hpid Hmax' Hrec)
    as (Hread & _ & Hkey & Hdata).
  unfold Database.Delete, bind. cbn [Index newDatabase].
  rewrite (Find_leaf h es ID Hleaf), E. cbn [from_option id]. cbv beta iota.
  assert ((pid =? 0) = false) as -> by (apply Z.eqb_neq; lia).
  rewrite Hread. cbv beta iota. unfold lift.
  assert (Hdel : Page.DeleteRecord (recordOf pid (Some (ID, d))) 1
                 = Ok (recordOf pid None)).
  { unfold Page.DeleteRecord. cbn [recordOf Header PageType Data].
    rewrite decide_True by reflexivity.
    change (Page.EntryKey 1) with "Entry-1". rewrite lookup_insert_eq.
    reflexivity. }
  rewrite Hdel. cbv beta iota.
  set (i := Z.to_nat (pid - 2)) in *.
  assert (Hi : (i < length secs)%nat).
  { apply lookup_lt_Some in Hrec. rewrite length_fmap in Hrec. exact Hrec. }
  assert (Hp : pid = 2 + Z.of_nat i) by (unfold i; lia).
  replace (recordOf pid None) with (recordOf (2 + Z.of_nat i) None)
    by (rewrite <- Hp; reflexivity).
  rewrite (WritePage_put h es secs i None); try assumption; try lia.
  cbv beta iota.
  set (secs' := putRecord i None secs).
  set (h2 := setFile h (dbFile es secs')).
  assert (Hleaf2 : holdsLeaf h2 es)
    by (apply (holdsLeaf_moved h h2 es secs' Hleaf); [reflexivity | exact H1]).
  assert (Hin : ID ∈ es.*1).
  { apply list_elem_of_fmap. exists (ID, (pid, 1)). split; [reflexivity|].
    apply elem_of_list_to_map_2. exact E. }
  pose proof (Delete_leaf h2 es ID Hleaf2) as [Hleaf3 _].
  rewrite (Delete_as_WritePage h2 es ID Hleaf2 Hin) in Hleaf3 |- *.
  rewrite (WritePage_root h2 es _ secs' eq_refl Hks H1) in Hleaf3 |- *.
  cbn [snd] in Hleaf3.
  eexists. split; [reflexivity|]. split; [|reflexivity].
  exists (deleteEntry ID es), (unblank secs').
  split; [exact Hleaf3|]. cbn [setFile File DeallocatedPages PageCount h2].
  split; [reflexivity|]. split; [exact Hfree|].
  rewrite unblank_length, unblank_records. unfold secs'.
  rewrite putRecord_length by lia. rewrite decide_False by lia.
  split; [exact Hcount|]. split; [exact Hmax|].
  split; [apply putRecord_wellFormed; [lia | exact I | exact Hwf]|].
  rewrite (deleteEntry_map ID es Hnd).
  split.
  - intros k pid' idx' E'. apply lookup_delete_Some in E' as [Hne E'].
    destruct (Hsome k pid' idx' E') as (-> & Hpid' & d' & Hd' & Hm').
    split; [reflexivity|]. split; [exact Hpid'|].
    exists d'. split; [|rewrite lookup_delete_ne by congruence; exact Hm'].
    rewrite putRecord_lookup_ne; [exact Hd' | lia |].
    apply (holdsDB_apart h m ID d pid k pid' 1 es secs Hsome Hrec E'). congruence.
  - intros k E'. destruct (decide (k = ID)) as [->|Hne]; [apply lookup_delete_eq|].
    rewrite lookup_delete_ne by congruence. apply Hnone.
    rewrite lookup_delete_ne in E' by congruence. exact E'.
Qed.

(** ** Opening the file of a database again *)

Lemma rawLines_blank s : rawLines (NL +:+ s) = "" :: rawLines s.
Proof. reflexivity. Qed.

Lemma NewTextFileHandler_dbFile `{MapRange} es secs :
  NewTextFileHandler (Some (dbFile es secs))
  = Ok {| File := dbFile es secs; PageSize := DefaultPageSize; PageCount := 0;
          DeallocatedPages := [] |}.
Proof.
  unfold NewTextFileHandler, LoadMetadata. cbn [File].
  unfold dbFile at 1. rewrite PageContent_shape. rewrite !app_assoc.
  change InitialContent with (headerText DefaultPageSize 0 None).
  rewrite rawLines_headerText.
  rewrite (loadLoop_header DefaultPageSize 0 None);
    [|unfold DefaultPageSize; lia | unfold uintMax; lia | exact I].
  rewrite rawLines_blank.
  rewrite (rawLines_line PageSection _ eq_refl).
  rewrite !loadLoop_cons. reflexivity.
Qed.

Lemma Reopen_spec `{MapRange} h m :
  holdsDB h m ->
  exists h',
    Database.OpenDatabase (Some (File h)) = (Ok newDatabase, Some h')
    /\ holdsDB h' ∅
    /\ PageCount h' = 1.
Proof.
  intros (es & secs & Hleaf & Hfile & Hfree & Hcount & Hmax & Hwf & Hsome & Hnone).
  pose proof Hleaf as (_ & H1 & Hnd & Hasc & Hks & Hrange & Hlen).
  unfold Database.OpenDatabase. rewrite Hfile, NewTextFileHandler_dbFile.
  set (h0 := {| File := dbFile es secs; PageSize := DefaultPageSize; PageCount := 0;
                DeallocatedPages := [] |}).
  unfold BPlusTree.NewBPlusTree.
  change (ReadPage 1 h0) with (@Err Page (ErrInvalidPageID 1 0), h0).
  cbv beta iota. unfold bind.
  change (AllocatePage h0) with (Ok (newPage 1), setPageCount h0 1).
  cbv beta iota.
  change (setData (setType (newPage 1) "Index")
            (<["Pointers" := ""]>
               (<["Keys" := ""]> (<["IsLeaf" := "true"]> (Data (setType (newPage 1) "Index"))))))
    with (rootPage []).
  rewrite (WritePage_root (setPageCount h0 1) es [] secs eq_refl Hks) by (cbn; lia).
  cbv beta iota. unfold ret. cbn [PageID Header rootPage].
  eexists. split; [reflexivity|]. split; [|reflexivity].
  exists [], (unblank secs). cbn [setFile setPageCount File DeallocatedPages PageCount h0].
  split.
  { apply (holdsLeaf_dbFile _ [] (unblank secs)); try reflexivity;
      try constructor; cbn; lia. }
  split; [reflexivity|]. split; [reflexivity|].
  rewrite unblank_length, unblank_records.
  split; [lia|]. split; [exact Hmax|]. split; [exact Hwf|].
  split; [intros k pid idx Hk; apply elem_of_list_to_map_2 in Hk; inversion Hk|].
  intros k _. apply lookup_empty.
Qed.

(** ** Runs of inserts *)

Lemma holdsDB_bounded `{MapRange} h m : holdsDB h m -> (size m <= 3)%nat.
Proof.
  intros (es & secs & Hleaf & _ & _ & _ & _ & _ & Hsome & Hnone).
  pose proof Hleaf as (_ & _ & Hnd & _ & _ & _ & Hlen).
  rewrite (holdsDB_size es m
             (fun k pe d => secs.*2 !! Z.to_nat (pe.1 - 2) = Some (Some (k, d))) Hnd);
    [exact Hlen | | exact Hnone].
  intros k [pid idx] E. destruct (Hsome k pid idx E) as (_ & _ & d & Hd & Hm). eauto.
Qed.

Lemma holdsDB_count `{MapRange} h m : holdsDB h m -> 1 <= PageCount h.
Proof. intros (es & secs & Hleaf & _). apply Hleaf. Qed.

Lemma keepRecord_other m r k : k <> r.1 -> keepRecord m r !! k = m !! k.
Proof.
  intros Hne. unfold keepRecord. destruct (decide _); [|reflexivity].
  apply lookup_insert_ne. congruence.
Qed.

Lemma foldl_keepRecord_other rs : forall m k,
  k ∉ rs.*1 -> foldl keepRecord m rs !! k = m !! k.
Proof.
  induction rs as [|r rs IH]; intros m k Hk; [reflexivity|].
  cbn [fmap list_fmap] in Hk. apply not_elem_of_cons in Hk as [Hne Hk].
  cbn [foldl]. rewrite (IH _ k Hk). apply keepRecord_other. exact Hne.
Qed.

Lemma foldl_keepRecord_lookup rs : forall m (i : nat) ID d,
  NoDup (rs.*1) -> Forall (fun r => m !! r.1 = None) rs ->
  rs !! i = Some (ID, d) ->
  foldl keepRecord m rs !! ID
  = if decide (size m + i < 3)%nat then Some d else None.
Proof.
  induction rs as [|r rs IH]; intros m i ID d Hnd Hfresh Hi; [inversion Hi|].
  cbn [fmap list_fmap] in Hnd. apply NoDup_cons in Hnd as [Hr Hnd].
  apply Forall_cons in Hfresh as [Hm Hfresh].
  destruct i as [|i].
  - cbn in Hi. injection Hi as ->. cbn [foldl].
    rewrite (foldl_keepRecord_other rs _ ID Hr). unfold keepRecord. cbn [fst snd] in *.
    rewrite Nat.add_0_r. destruct (decide _); [apply lookup_insert_eq | exact Hm].
  - cbn in Hi. cbn [foldl].
    assert (Hne : ID <> r.1).
    { intros ->. apply Hr. apply list_elem_of_fmap. exists (r.1, d).
      split; [reflexivity|]. apply list_elem_of_lookup. eauto. }
    rewrite (IH (keepRecord m r) i ID d Hnd); [|
      |exact Hi].
    + unfold keepRecord. destruct (decide (size m < 3)%nat) as [Hlt|Hge].
      * rewrite (map_size_insert_None _ _ _ Hm).
        destruct (decide _), (decide _); try reflexivity; lia.
      * destruct (decide _), (decide _); try reflexivity; lia.
    + apply Forall_forall. intros r' Hr'.
      rewrite keepRecord_other; [exact (proj1 (Forall_forall _ _) Hfresh r' Hr')|].
      intros E. apply Hr. rewrite <- E. apply list_elem_of_fmap. eauto.
Qed.

Lemma insertAll_holds `{MapRange} rs : forall h m,
  holdsDB h m -> NoDup (rs.*1) -> Forall (fun r => m !! r.1 = None) rs ->
  Forall wellFormedEntry rs ->
  PageCount h + Z.of_nat (length rs) + 1 < 2 ^ 32 ->
  holdsDB (insertAll rs h) (foldl keepRecord m rs)
  /\ PageCount (insertAll rs h) = PageCount h + Z.of_nat (length rs).
Proof.
  induction rs as [|[ID d] rs IH]; intros h m Hdb Hnd Hfresh Hwf Hbound.
  - cbn. split; [exact Hdb | lia].
  - cbn [fmap list_fmap fst] in Hnd. apply NoDup_cons in Hnd as [Hr Hnd].
    apply Forall_cons in Hfresh as [Hm Hfresh]. cbn [fst] in Hm.
    apply Forall_cons in Hwf as [[Hkey Hdata] Hwf]. cbn [fst snd] in Hkey, Hdata.
    cbn [length] in Hbound. pose proof (holdsDB_bounded h m Hdb) as Hsize.
    pose proof (holdsDB_count h m Hdb) as H1.
    cbn [insertAll foldl]. unfold keepRecord at 2. cbn [fst snd].
    assert (Hfresh' : forall m' : gmap string string,
                        (forall k, k <> ID -> m' !! k = m !! k) ->
                                 Forall (fun r => m' !! r.1 = None) rs).
    { intros m' Hm'. apply Forall_forall. intros r' Hr'.
      rewrite Hm'; [exact (proj1 (Forall_forall _ _) Hfresh r' Hr')|].
      intros E. apply Hr. rewrite <- E. apply list_elem_of_fmap. eauto. }
    destruct (decide (size m < 3)%nat) as [Hlt|Hge].
    + destruct (Insert_spec_new h m ID d Hdb Hkey Hdata Hm Hlt ltac:(lia))
        as (h' & Hins & Hdb' & Hcount').
      rewrite Hins. cbn [snd].
      destruct (IH h' _ Hdb' Hnd) as [Hdb'' Hc'']; try assumption; try lia.
      * apply Hfresh'. intros k Hk. apply lookup_insert_ne. congruence.
      * split; [exact Hdb'' | cbn [length]; lia].
    + destruct (Insert_spec_full h m ID d Hdb Hkey Hdata Hm ltac:(lia) ltac:(lia))
        as (h' & Hins & Hdb' & Hcount').
      rewrite Hins. cbn [snd].
      destruct (IH h' _ Hdb' Hnd) as [Hdb'' Hc'']; try assumption; try lia.
      split; [exact Hdb'' | cbn [length]; lia].
Qed.

Lemma insertEach_insertAll `{MapRange} rs : forall h,
  snd (insertEach rs h) = insertAll rs h.
Proof.
  induction rs as [|[ID d] rs IH]; intros h; [reflexivity|].
  cbn [insertEach insertAll snd]. apply IH.
Qed.

(** Every insert of such a run returns a nil error, the ones that meet a
    full index too. *)
Lemma insertEach_results `{MapRange} rs : forall h m,
  holdsDB h m -> NoDup (rs.*1) -> Forall (fun r => m !! r.1 = None) rs ->
  Forall wellFormedEntry rs ->
  PageCount h + Z.of_nat (length rs) + 1 < 2 ^ 32 ->
  fst (insertEach rs h) = map (fun _ => Ok tt) rs.
Proof.
  induction rs as [|[ID d] rs IH]; intros h m Hdb Hnd Hfresh Hwf Hbound;
    [reflexivity|].
  cbn [fmap list_fmap fst] in Hnd. apply NoDup_cons in Hnd as [Hr Hnd].
  apply Forall_cons in Hfresh as [Hm Hfresh]. cbn [fst] in Hm.
  apply Forall_cons in Hwf as [Hwf1 Hwf]. pose proof Hwf1 as [Hkey Hdata].
  cbn [fst snd] in Hkey, Hdata. cbn [length] in Hbound.
  pose proof (holdsDB_bounded h m Hdb) as Hsize.
  assert (Hres : fst (Database.Insert newDatabase ID d h) = Ok tt).
  { destruct (decide (size m < 3)%nat) as [Hlt|Hge].
    - destruct (Insert_spec_new h m ID d Hdb Hkey Hdata Hm Hlt ltac:(lia))
        as (h' & -> & _). reflexivity.
    - destruct (Insert_spec_full h m ID d Hdb Hkey Hdata Hm ltac:(lia) ltac:(lia))
        as (h' & -> & _). reflexivity. }
  destruct (insertAll_holds [(ID, d)] h m Hdb) as [Hdb' Hcount'].
  { cbn. apply NoDup_singleton. }
  { constructor; [exact Hm | constructor]. }
  { constructor; [exact Hwf1 | constructor]. }
  { cbn [length]. lia. }
  cbn [insertAll foldl length] in Hdb', Hcount'.
  cbn [insertEach fst map]. rewrite Hres. f_equal.
  apply (IH _ (keepRecord m (ID, d)) Hdb' Hnd); [| exact Hwf | lia].
  apply Forall_forall. intros r Hin. rewrite keepRecord_other.
  - exact (proj1 (Forall_forall _ _) Hfresh r Hin).
  - cbn [fst]. intros E. apply Hr. rewrite <- E. apply list_elem_of_fmap. eauto.
Qed.

Lemma threeRecords_wellFormed : Forall wellFormedEntry threeRecords.
Proof.
  repeat constructor; try discriminate; try reflexivity;
    cbn; unfold MaxScanTokenSize; lia.
Qed.

Lemma threeRecords_NoDup : NoDup (threeRecords.*1).
Proof. apply (bool_decide_unpack _). vm_compute. exact I. Qed.

Lemma mainStore_holds :
  holdsDB (H := canonicalRange) mainStore
    (<["user:2" := "Jane Smith"]> (<["user:1" := "John Doe"]> ∅))
  /\ PageCount mainStore = 3.
Proof.
  pose proof threeRecords_wellFormed as Hwf.
  pose proof threeRecords_NoDup as Hnd.
  apply Forall_cons in Hwf as [Hw1 Hwf]. apply Forall_cons in Hwf as [Hw2 _].
  unfold threeRecords in Hnd. cbn [fmap list_fmap fst] in Hnd.
  destruct (insertAll_holds (H := canonicalRange) mainRecords _ ∅
              (holdsDB_new (H := canonicalRange))) as [Hdb Hc].
  - apply (bool_decide_unpack _). vm_compute. exact I.
  - repeat constructor.
  - constructor; [exact Hw1 | constructor; [exact Hw2 | constructor]].
  - rewrite (emptyTreeStore_eq (H := canonicalRange)). cbn. lia.
  - split; [exact Hdb|]. unfold mainStore. rewrite Hc.
    rewrite (emptyTreeStore_eq (H := canonicalRange)). reflexivity.
Qed.

Lemma fullDatabase_holds :
  holdsDB (H := canonicalRange) fullDatabase
    (<["user:3" := "Ann Lee"]>
       (<["user:2" := "Jane Smith"]> (<["user:1" := "John Doe"]> ∅)))
  /\ PageCount fullDatabase = 4.
Proof.
  destruct (insertAll_holds (H := canonicalRange) threeRecords _ ∅
              (holdsDB_new (H := canonicalRange))) as [Hdb Hc].
  - exact threeRecords_NoDup.
  - repeat constructor.
  - exact threeRecords_wellFormed.
  - rewrite (emptyTreeStore_eq (H := canonicalRange)). cbn. lia.
  - split; [exact Hdb|]. unfold fullDatabase. rewrite Hc.
    rewrite (emptyTreeStore_eq (H := canonicalRange)). reflexivity.
Qed.

(** ** A key with a comma *)

Lemma carried_rootPage_comma a b p e :
  plainKey a -> plainKey b -> carriedPage (rootPage [(a +:+ "," +:+ b, (p, e))]).
Proof.
  intros Ha Hb. unfold carriedPage, rootPage, rootData.
  cbn [Header Data PageID PageLSN PageType].
  split; [split; reflexivity|].
  split; [split; [discriminate | reflexivity]|].
  split; [split; reflexivity|].
  split; [reflexivity|].
  apply map_Forall_insert_2; [|apply map_Forall_insert_2;
    [|apply map_Forall_insert_2; [|apply map_Forall_empty]]].
  - split; [repeat split; try reflexivity; discriminate|].
    split; [apply carriedValue_plain, plain_Join_pointers|].
    cbn [map Join]. pose proof (pointerOf_len (a +:+ "," +:+ b, (p, e))) as Hl.
    change (len "Pointers") with 8. unfold MaxScanTokenSize. lia.
  - split; [repeat split; try reflexivity; discriminate|].
    cbn [fmap list_fmap fst Join].
    split.
    + apply carriedValue_plain. rewrite !allBytes_app.
      rewrite (plainKey_plain a Ha), (plainKey_plain b Hb). reflexivity.
    + destruct Ha as (_ & _ & Hla), Hb as (_ & _ & Hlb).
      rewrite !len_app. change (len "Keys") with 4. change (len ",") with 1.
      unfold MaxScanTokenSize. lia.
  - split; [repeat split; try reflexivity; discriminate|].
    split; [split; reflexivity | reflexivity].
Qed.

Lemma comma_key_differs a b : a <> a +:+ "," +:+ b.
Proof.
  intros E. apply (f_equal String.length) in E.
  rewrite !length_app in E. cbn in E. lia.
Qed.

Lemma comma_key_differs_r a b : hasByte "," b = false -> b <> a +:+ "," +:+ b.
Proof.
  intros Hb E. apply (f_equal (hasByte ",")) in E.
  change (a +:+ "," +:+ b) with (a +:+ String "," b) in E.
  rewrite hasByte_true_app in E. congruence.
Qed.

(** The store after the insert of "a,b" into an empty leaf, and the node
    read from it. *)
Lemma Insert_comma_key `{MapRange} h a b p e :
  holdsLeaf h [] -> plainKey a -> plainKey b ->
  exists h',
    BPlusTree.Insert rootTree (a +:+ "," +:+ b) p e h = (Ok tt, h')
    /\ BPlusTree.readNode 1 h' = (Ok (splitNode a b p e), h').
Proof.
  intros Hleaf Ha Hb.
  pose proof Hleaf as ((pre & post & Hfile & He & Hs & Hno & Hpost) & Hcount & _).
  rewrite (Insert_as_WritePage h [] _ p e Hleaf);
    [|apply not_elem_of_nil | cbn; lia].
  change (insertEntry (a +:+ "," +:+ b) (p, e) [])
    with [(a +:+ "," +:+ b, (p, e))].
  rewrite (WritePage_leaf h [] _ pre post Hfile Hno Hpost); [|constructor | exact Hcount].
  eexists. split; [reflexivity|].
  set (es1 := [(a +:+ "," +:+ b, (p, e))]).
  assert (Hread : ReadPage 1 (setFile h (pre +:+ PageContent (rootPage es1)
                                         +:+ nextSection post))
                  = (Ok (rootPage es1),
                     setFile h (pre +:+ PageContent (rootPage es1) +:+ nextSection post))).
  { apply (ReadPage_written _ (rootPage es1) pre (nextSection post));
      try assumption; try reflexivity.
    - apply sectionEnd_simple, sectionEnd_next. exact Hpost.
    - apply carried_rootPage_comma; assumption. }
  unfold BPlusTree.readNode, bind. rewrite Hread. unfold ret. f_equal.
  unfold splitNode. fold es1. cbn [Data rootPage].
  rewrite rootData_IsLeaf, rootData_Keys, rootData_Pointers.
  assert ((if decide (Join (es1.*1) "," = "") then []
           else Split (Join (es1.*1) ",") ",") = [a; b]) as ->.
  { unfold es1. cbn [fmap list_fmap fst Join].
    rewrite decide_False.
    2: { destruct Ha as (Hne & _). destruct a; [congruence | discriminate]. }
    change (a +:+ "," +:+ b) with (a +:+ String "," b).
    rewrite (Split_app a "," b (plainKey_no_comma a Ha)).
    rewrite (Split_no_sep b "," (plainKey_no_comma b Hb)). reflexivity. }
  rewrite (field_Join (map pointerOf es1)); [reflexivity|].
  unfold es1. cbn [map]. constructor; [|constructor].
  split; [apply pointerOf_nonempty | apply pointerOf_no_comma].
Qed.

(** ** Opening an existing file *)

Lemma NewTextFileHandler_header (size count : Z)
    (free : option (list Z)) (rest : string) :
  0 <= size < 2 ^ 63 -> 0 <= count < uintMax ->
  match free with
  | Some ids => Forall (fun id => 0 <= id < uintMax) ids /\ (length ids <= 3000)%nat
  | None => True
  end ->
  sectionEnd rest ->
  NewTextFileHandler (Some (headerText size count free +:+ rest))
  = Ok {| File := headerText size count free +:+ rest; PageSize := size;
          PageCount := count; DeallocatedPages := loadedFree free |}.
Proof.
  intros Hsize Hcount Hfree Hrest.
  unfold NewTextFileHandler, LoadMetadata. cbn [File].
  rewrite rawLines_headerText.
  rewrite (loadLoop_header size count free _ _ Hsize Hcount Hfree).
  cbn [File DeallocatedPages app].
  destruct Hrest as [->|[[rest' ->]|[rest' ->]]].
  - reflexivity.
  - rewrite (rawLines_line PageSection rest') by reflexivity.
    rewrite loadLoop_cons. reflexivity.
  - rewrite rawLines_blank.
    rewrite (rawLines_line PageSection rest') by reflexivity.
    rewrite !loadLoop_cons. reflexivity.
Qed.

(** ** The page count in the header *)

Lemma drop_app_lt j : forall a b,
  (j <= String.length a)%nat -> drop j (a +:+ b) = drop j a +:+ b.
Proof.
  induction j as [|j IH]; intros a b Hj.
  - rewrite !drop_0. reflexivity.
  - destruct a as [|c a]; [cbn in Hj; lia|]. cbn in Hj.
    change (String c a +:+ b) with (String c (a +:+ b)). cbn [drop].
    apply IH. lia.
Qed.

Lemma drop_app_ge a : forall j b,
  drop (String.length a + j) (a +:+ b) = drop j b.
Proof.
  induction a as [|c a IH]; intros j b; [reflexivity|].
  change (String c a +:+ b) with (String c (a +:+ b)). cbn. apply IH.
Qed.

Lemma startsNone_app a b m :
  startsNone a m -> startsNone b m -> startsNone (a +:+ b) m.
Proof.
  intros Ha Hb t j Hj. rewrite length_app in Hj.
  destruct (decide (j < String.length a)%nat) as [Hlt|Hge].
  - rewrite drop_app_lt by lia. rewrite app_assoc. apply Ha. exact Hlt.
  - replace j with (String.length a + (j - String.length a))%nat by lia.
    rewrite drop_app_ge. apply Hb. lia.
Qed.

Lemma startsNone_no_first c m s :
  hasByte c s = false -> startsNone s (String c m).
Proof.
  intros Hs t j Hj. destruct (drop_nonempty j s Hj) as (x & r & Hd).
  pose proof (hasByte_drop c j s Hs) as Hx. rewrite Hd in Hx |- *.
  cbn in Hx. apply orb_false_iff in Hx as [Hx _].
  cbn. rewrite Hx. reflexivity.
Qed.

Lemma cut_clean X sep v :
  startsNone X sep -> cut (X +:+ sep +:+ v) sep = Some (X, v).
Proof. intros HX. apply cut_at. intros j Hj. apply HX. exact Hj. Qed.

Lemma headerText_split size count free :
  headerText size count free
  = headerStart size +:+ ("PAGES=" +:+ FormatUint count)
    +:+ NL +:+ match free with
               | Some ids =>
                   assign "DEALLOCATED_PAGES" (Join (FormatUint <$> ids) ",") +:+ NL
               | None => ""
               end +:+ NL.
Proof. unfold headerText, headerStart, assign. rewrite !app_assoc. reflexivity. Qed.

Lemma headerStart_clean size count :
  startsNone (headerStart size) ("PAGES=" +:+ FormatUint count).
Proof.
  unfold headerStart, assign.
  replace (HeaderSection +:+ NL +:+ ("PAGESIZE" +:+ "=" +:+ FormatUint size) +:+ NL
           +:+ ("ENCODING" +:+ "=" +:+ "UTF-8") +:+ NL
           +:+ ("VERSION" +:+ "=" +:+ "1.0") +:+ NL)
    with ((HeaderSection +:+ NL) +:+ "PAGESIZE="
          +:+ FormatUint size
          +:+ (NL +:+ "ENCODING=UTF-8" +:+ NL +:+ "VERSION=1.0" +:+ NL))
    by (rewrite !app_assoc; reflexivity).
  change ("PAGES=" +:+ FormatUint count) with (String "P" ("AGES=" +:+ FormatUint count)).
  apply startsNone_app; [apply startsNone_no_first; reflexivity|].
  apply startsNone_app.
  { intros t j Hj. do 9 (destruct j as [|j]; [reflexivity|]). cbn in Hj. lia. }
  apply startsNone_app; apply startsNone_no_first; [apply digits_no_P | reflexivity].
Qed.

Lemma Replace1_count size count free rest id :
  Replace1 (headerText size count free +:+ rest) ("PAGES=" +:+ FormatUint count)
    ("PAGES=" +:+ FormatUint id)
  = headerText size id free +:+ rest.
Proof.
  unfold Replace1. rewrite !headerText_split.
  rewrite (app_assoc (headerStart size) _ rest).
  rewrite (app_assoc ("PAGES=" +:+ FormatUint count) _ rest).
  rewrite (cut_clean (headerStart size) _ _ (headerStart_clean size count)).
  rewrite !app_assoc. reflexivity.
Qed.

Lemma sectionEnd_appended `{MapRange} rest p :
  sectionEnd rest -> sectionEnd (rest +:+ NL +:+ PageContent p).
Proof.
  intros [->|[[r ->]|[r ->]]].
  - right. right. rewrite PageContent_shape. eexists. reflexivity.
  - right. left. eexists. rewrite !app_assoc. reflexivity.
  - right. right. eexists. rewrite !app_assoc. reflexivity.
Qed.

(** ** A record that does not fit the buffer of the scanner *)

Lemma rawLines_lines kvs post :
  Forall (fun kv => hasByte NLc (lineOf kv) = false) kvs ->
  rawLines (concatLines (map dataLine kvs) +:+ post)
  = map lineOf kvs ++ rawLines post.
Proof.
  induction 1 as [|[k v] kvs Hnl _ IH]; [reflexivity|].
  assert (E : concatLines (map dataLine ((k, v) :: kvs)) +:+ post
              = lineOf (k, v) +:+ NL
                +:+ (concatLines (map dataLine kvs) +:+ post)).
  { change (concatLines (map dataLine ((k, v) :: kvs)))
      with ((k +:+ ": " +:+ v +:+ NL) +:+ concatLines (map dataLine kvs)).
    change (lineOf (k, v)) with (k +:+ ": " +:+ v).
    rewrite !app_assoc. reflexivity. }
  rewrite E, (rawLines_line _ _ Hnl), IH. reflexivity.
Qed.

(** The loop of [ReadPage] stops on the first line of the page that is too
    long. *)
Lemma readLoop_long marker kvs rest p :
  Forall (fun kv => tooLong (lineOf kv) = true \/ carriedBinding kv.1 kv.2) kvs ->
  Exists (fun kv => tooLong (lineOf kv) = true) kvs ->
  exists p', readLoop marker (map lineOf kvs ++ rest) true true p = (true, p', true).
Proof.
  intros Hall. revert p. induction Hall as [|[k v] kvs Hkv _ IH]; intros p Hex.
  - inversion Hex.
  - change (map lineOf ((k, v) :: kvs) ++ rest)
      with (lineOf (k, v) :: (map lineOf kvs ++ rest)).
    destruct (tooLong (lineOf (k, v))) eqn:Elong.
    + rewrite readLoop_cons, Elong. eauto.
    + destruct Hkv as [Hkv|Hkv]; [congruence|]. cbn [fst snd] in Hkv.
      destruct (binding_line k v Hkv) as (H1 & H2 & H3 & H4 & _ & H5).
      rewrite (readLoop_in_target marker _ _ p k v H1 H2 H3 H4).
      apply IH. apply Exists_cons in Hex as [Hex|Hex]; [congruence | exact Hex].
Qed.

Lemma record_bindings `{MapRange} n ID big kv :
  kv ∈ mapRange (Data (recordOf n (Some (ID, big))))
  <-> kv = ("Entry-1", ID +:+ "|" +:+ big) \/ kv = ("EntryIndex", "1").
Proof.
  rewrite (mapRange_perm _). destruct kv as [k v]. rewrite elem_of_map_to_list.
  unfold recordOf. cbn [Data]. rewrite lookup_insert_Some, lookup_insert_Some.
  rewrite lookup_empty. split.
  - intros [[<- <-]|[Hne [[<- <-]|[_ ?]]]]; [left | right | discriminate]; reflexivity.
  - intros [[= -> ->]|[= -> ->]]; [left; split; reflexivity|].
    right. split; [discriminate|]. left. split; reflexivity.
Qed.

Lemma readLoop_long_record `{MapRange} n ID big post :
  hasByte NLc ID = false -> hasByte NLc big = false ->
  tooLong ("Entry-1: " +:+ ID +:+ "|" +:+ big) = true ->
  exists p',
    readLoop (PageIDMarker n)
      (rawLines (PageContent (recordOf n (Some (ID, big))) +:+ post)) false false
      {| Header := {| PageLSN := 0; PageID := n; PageType := "" |}; Data := ∅ |}
    = (true, p', true).
Proof.
  intros HID HData Hlong.
  set (kvs := mapRange (Data (recordOf n (Some (ID, big))))).
  assert (Hlines : rawLines (PageContent (recordOf n (Some (ID, big))) +:+ post)
                   = PageSection :: PageIDMarker n :: "LSN: 0" :: "Type: Data"
                     :: map lineOf kvs ++ rawLines post).
  { unfold PageContent, PageIDMarker. cbn [recordOf Header PageID PageLSN PageType].
    fold (recordOf n (Some (ID, big))). fold kvs.
    pose proof (digits_no_NL _ (FormatUint_digits n)) as Hn.
    change (FormatUint 0) with "0".
    set (a := FormatUint n) in *. set (body := concatLines _).
    replace ((PageSection +:+ NL +:+ "PageID: " +:+ a +:+ NL +:+ "LSN: " +:+ "0"
              +:+ NL +:+ "Type: " +:+ "Data" +:+ NL +:+ body) +:+ post)
      with (PageSection +:+ NL +:+ ("PageID: " +:+ a) +:+ NL +:+ "LSN: 0"
            +:+ NL +:+ "Type: Data" +:+ NL +:+ (body +:+ post))
      by (rewrite !app_assoc; reflexivity).
    rewrite (rawLines_line PageSection) by reflexivity.
    rewrite (rawLines_line ("PageID: " +:+ a)) by (rewrite hasByte_app, Hn; reflexivity).
    rewrite (rawLines_line "LSN: 0") by reflexivity.
    rewrite (rawLines_line "Type: Data") by reflexivity.
    unfold body. rewrite rawLines_lines; [reflexivity|].
    apply Forall_forall. intros kv [->| ->]%record_bindings; [|reflexivity].
    unfold lineOf. cbn [fst snd]. rewrite !hasByte_app, HID, HData. reflexivity. }
  rewrite Hlines.
  destruct (marker_digits n) as (a & Ea & Hda & Hta & Hla).
  unfold PageIDMarker. rewrite Ea. set (marker := "PageID: " +:+ a).
  rewrite (readLoop_skip_one marker PageSection) by reflexivity.
  rewrite (readLoop_enter marker marker _ _ "PageID" a).
  2:{ apply tooLong_false. unfold marker. rewrite len_app.
      change (len "PageID: ") with 8. unfold MaxScanTokenSize. lia. }
  2:{ change marker with ("PageID:" +:+ String " " a).
      apply dropCR_trimmed; [reflexivity | exact Hta]. }
  2:{ reflexivity. }
  2:{ apply Contains_self. discriminate. }
  2:{ apply (SplitN2_binding "PageID"). reflexivity. }
  rewrite (readLoop_in_target _ _ _ _ "LSN" "0") by reflexivity.
  rewrite (readLoop_in_target _ _ _ _ "Type" "Data") by reflexivity.
  apply readLoop_long.
  - apply Forall_forall. intros kv [->| ->]%record_bindings.
    + left. exact Hlong.
    + right. repeat split; try reflexivity; discriminate.
  - apply Exists_exists. exists ("Entry-1", ID +:+ "|" +:+ big).
    split; [apply record_bindings; left; reflexivity | exact Hlong].
Qed.

Lemma ReadPage_long_record `{MapRange} h pre post n ID big :
  File h = pre +:+ PageContent (recordOf n (Some (ID, big))) +:+ post ->
  endsLines pre -> scannable pre -> Contains pre (PageIDMarker n) = false ->
  0 < n <= PageCount h ->
  hasByte NLc ID = false -> hasByte NLc big = false ->
  tooLong ("Entry-1: " +:+ ID +:+ "|" +:+ big) = true ->
  ReadPage n h = (Err ErrTooLong, h).
Proof.
  intros Hfile Hends Hscan Hno Hn HID HData Hlong. unfold ReadPage.
  replace ((n =? 0) || (PageCount h <? n)) with false.
  2:{ symmetry. apply orb_false_iff. split; [apply Z.eqb_neq | apply Z.ltb_ge]; lia. }
  assert (Hlines : rawLines (File h)
                   = rawLines pre
                     ++ rawLines (PageContent (recordOf n (Some (ID, big))) +:+ post)).
  { rewrite Hfile. destruct Hends as [-> | [pre' ->]]; [reflexivity|].
    apply rawLines_app_NL. }
  rewrite Hlines, readLoop_skip.
  - destruct (readLoop_long_record n ID big post HID HData Hlong) as [p' ->].
    reflexivity.
  - apply Forall_forall. intros l Hin. split.
    + exact (proj1 (Forall_forall _ _) Hscan l Hin).
    + exact (lines_without_occurrence _ _ _ Hno Hin).
Qed.

Lemma putRecord_before i rec (secs : list (bool * option (string * string))) :
  (i <= length secs)%nat ->
  firstn i ((unblank (putRecord i rec secs)).*2) = firstn i (secs.*2).
Proof.
  intros Hi. rewrite unblank_records, putRecord_records by exact Hi.
  destruct (decide _) as [->|Hne].
  - apply take_app_le. rewrite length_fmap. lia.
  - apply take_insert_ge. lia.
Qed.

(** [Insert] and [Get] of a record whose line is too long. *)
Lemma Insert_long_record `{MapRange} h m ID big :
  holdsDB h m -> recordKey ID -> hasByte NLc big = false ->
  tooLong ("Entry-1: " +:+ ID +:+ "|" +:+ big) = true ->
  m !! ID = None -> (size m < 3)%nat -> PageCount h + 2 < 2 ^ 32 ->
  exists h',
    Database.Insert newDatabase ID big h = (Ok tt, h')
    /\ Database.Get newDatabase ID h' = (Err ErrTooLong, h')
    /\ forall k d, k <> ID -> m !! k = Some d ->
         Database.Get newDatabase k h' = (Ok (Some (recordFor k d)), h').
Proof.
  intros (es & secs & Hleaf & Hfile & Hfree & Hcount & Hmax & Hwf & Hsome & Hnone)
         Hkey HData Hlong Habs Hsize Hbound.
  pose proof Hleaf as (_ & H1 & Hnd & Hasc & Hks & Hrange & Hlen).
  assert (Hidx : (list_to_map es : gmap string (Z * Z)) !! ID = None).
  { destruct ((list_to_map es : gmap string (Z * Z)) !! ID) as [[pid idx]|] eqn:E;
      [|reflexivity].
    destruct (Hsome ID pid idx E) as (_ & _ & d & _ & Hd). congruence. }
  assert (Hes : (length es < 3)%nat).
  { rewrite <- (holdsDB_size es m
                  (fun k pe d => secs.*2 !! Z.to_nat (pe.1 - 2) = Some (Some (k, d))) Hnd);
      [lia | | exact Hnone].
    intros k [pid idx] E. destruct (Hsome k pid idx E) as (_ & _ & d & Hd & Hm). eauto. }
  rewrite (Insert_data_page h es secs ID big Hleaf Hfile Hfree Hcount Hbound Hwf Hidx).
  set (n := PageCount h + 1).
  set (i := Z.to_nat (PageCount h - 1)).
  assert (Hi : (i <= length secs)%nat) by (unfold i; lia).
  set (secs' := putRecord i (Some (ID, big)) secs).
  set (h2 := {| File := dbFile es secs'; PageSize := PageSize h;
                PageCount := n; DeallocatedPages := [] |}).
  assert (Hleaf2 : holdsLeaf h2 es)
    by (apply (holdsLeaf_moved h h2 es secs' Hleaf); [reflexivity | cbn; lia]).
  pose proof (index_absent es ID Hidx) as Hnot.
  destruct (Insert_leaf h2 es ID n 1 Hleaf2 (proj1 Hkey) Hnot Hes)
    as (h3 & Hins & Hleaf3); [split; cbn; unfold n; lia|].
  pose proof Hins as Hshape.
  rewrite (Insert_as_WritePage h2 es ID _ _ Hleaf2 Hnot Hes) in Hshape.
  rewrite (WritePage_root h2 es _ secs' eq_refl Hks) in Hshape by (cbn; lia).
  injection Hshape as Hh3.
  exists h3. split; [exact Hins|].
  set (es' := insertEntry ID (n, 1) es) in *.
  assert (Hmap : (list_to_map es' : gmap string (Z * Z))
                 = <[ID := (n, 1)]> (list_to_map es))
    by (apply insertEntry_map; assumption).
  pose proof Hleaf3 as (_ & _ & _ & _ & Hks' & _ & Hlen').
  assert (Hfile3 : File h3 = dbFile es' (unblank secs'))
    by (rewrite <- Hh3; reflexivity).
  assert (Hcount3 : PageCount h3 = n) by (rewrite <- Hh3; reflexivity).
  assert (Hbefore : forall j, (j <= i)%nat ->
            Forall wellFormedRecord ((firstn j (unblank secs')).*2)).
  { intros j Hj. rewrite fmap_take.
    replace j with (Init.Nat.min j i) by lia.
    rewrite <- take_take. unfold secs'. rewrite putRecord_before by exact Hi.
    apply Forall_take, Forall_take. exact Hwf. }
  split.
  - unfold Database.Get, bind. cbn [Index newDatabase].
    rewrite (Find_leaf h3 es' ID Hleaf3), Hmap, lookup_insert_eq.
    cbn [from_option id]. cbv beta iota.
    assert ((n =? 0) = false) as -> by (apply Z.eqb_neq; unfold n; lia).
    assert (Hrec : (unblank secs').*2 !! i = Some (Some (ID, big)))
      by (rewrite unblank_records; apply putRecord_lookup_eq; exact Hi).
    destruct (records_lookup _ _ _ Hrec) as [b Hsec].
    rewrite (dbFile_split es' _ i b _ Hsec) in Hfile3.
    assert (Hn : n = 2 + Z.of_nat i) by (unfold n, i; lia).
    rewrite <- Hn in Hfile3.
    destruct (root_prefix es' n Hks' Hlen' ltac:(unfold n, uintMax; lia))
      as (He & Hs & Hno).
    destruct (area_prefix (firstn i (unblank secs')) 2 _ n He Hs Hno ltac:(lia))
      as (He1 & Hs1 & Hno1);
      [rewrite length_take; lia | unfold n, uintMax; lia | apply Hbefore; lia |].
    rewrite (ReadPage_long_record h3 _ _ n ID big Hfile3);
      [reflexivity | | | | | | exact HData | exact Hlong].
    + destruct b; [|rewrite app_nil_r; exact He1]. right. eexists. reflexivity.
    + destruct b; [|rewrite app_nil_r; exact Hs1]. apply scannable_snoc_NL. exact Hs1.
    + destruct b; [|rewrite app_nil_r; exact Hno1]. apply Contains_snoc_NL. exact Hno1.
    + rewrite Hcount3. unfold n. lia.
    + apply (allBytes_hasByte plainByte); [apply plainKey_plain, Hkey | reflexivity].
  - intros k d Hne Hk.
    destruct (holdsDB_present h m k d es secs Hsome Hnone Hk) as (pid & E & Hpid & Hrec).
    unfold Database.Get, bind. cbn [Index newDatabase].
    rewrite (Find_leaf h3 es' k Hleaf3), Hmap, lookup_insert_ne, E by congruence.
    cbn [from_option id]. cbv beta iota.
    assert ((pid =? 0) = false) as -> by (apply Z.eqb_neq; lia).
    set (j := Z.to_nat (pid - 2)) in *.
    assert (Hj : (j < i)%nat) by (unfold j, i; lia).
    assert (Hrec' : (unblank secs').*2 !! j = Some (Some (k, d))).
    { rewrite unblank_records. unfold secs'.
      rewrite putRecord_lookup_ne; [exact Hrec | exact Hi | lia]. }
    destruct (records_lookup _ _ _ Hrec') as [b Hsec].
    pose proof (proj1 (Forall_lookup _ _) Hwf _ _ Hrec) as [Hkk Hkd].
    assert (Hp : pid = 2 + Z.of_nat j) by (unfold j; lia).
    rewrite (dbFile_split es' _ j b _ Hsec) in Hfile3. rewrite <- Hp in Hfile3.
    destruct (root_prefix es' pid Hks' Hlen' ltac:(unfold uintMax; lia))
      as (He & Hs & Hno).
    destruct (area_prefix (firstn j (unblank secs')) 2 _ pid He Hs Hno ltac:(lia))
      as (He1 & Hs1 & Hno1);
      [rewrite length_take; lia | unfold uintMax; lia | apply Hbefore; lia |].
    assert (Hread : ReadPage pid h3 = (Ok (recordOf pid (Some (k, d))), h3)).
    { apply (ReadPage_written h3 (recordOf pid (Some (k, d))) _ _ Hfile3).
      + destruct b; [|rewrite app_nil_r; exact He1]. right. eexists. reflexivity.
      + destruct b; [|rewrite app_nil_r; exact Hs1]. apply scannable_snoc_NL. exact Hs1.
      + destruct b; [|rewrite app_nil_r; exact Hno1]. apply Contains_snoc_NL. exact Hno1.
      + apply sectionEnd_dataArea.
      + apply carried_recordOf; [unfold uintMax; lia | split; assumption].
      + cbn [recordOf Header PageID]. rewrite Hcount3. unfold n. lia. }
    rewrite Hread. cbv beta iota. unfold lift.
    assert (Hget : Page.GetRecord (recordOf pid (Some (k, d))) 1 = Ok (recordFor k d)).
    { unfold Page.GetRecord. cbn [recordOf Header PageType Data].
      rewrite decide_True by reflexivity.
      change (Page.EntryKey 1) with "Entry-1". rewrite lookup_insert_eq.
      rewrite Split_record; [reflexivity | apply Hkk | apply text_no_bar, Hkd]. }
    rewrite Hget. reflexivity.
Qed.

(** ** The calls that leave the index as it is *)

Lemma Find_absent (tree : BPlusTree) (key : string) (h : TextFileHandler)
    (node : BTreeNode) :
  BPlusTree.readNode (RootPageID tree) h = (Ok node, h) ->
  IsLeaf node = true ->
  key ∉ Keys node ->
  BPlusTree.Find tree key h = (Ok (0, 0), h).
Proof.
  intros Hread Hleaf Habs.
  unfold BPlusTree.Find, bind. rewrite Hread, Hleaf. simpl.
  rewrite (findIndex_None _ _ _ Habs). reflexivity.
Qed.

(** C10: when the root is a leaf that already holds [BTreeOrder - 1] keys,
    or is not a leaf, [BPlusTree.Insert] returns a nil error and the store
    (file, page count, free list) is the one before the call: nothing is
    written and the key and its pointer are dropped. *)
Theorem Insert_without_room_is_silent `{MapRange} (tree : BPlusTree)
    (key : string) (pageID entryIndex : Z) (h : TextFileHandler)
    (node : BTreeNode) :
  BPlusTree.readNode (RootPageID tree) h = (Ok node, h) ->
  (IsLeaf node = true /\ Z.of_nat (length (Keys node)) = BTreeOrder - 1)
  \/ IsLeaf node = false ->
  BPlusTree.Insert tree key pageID entryIndex h = (Ok tt, h).
Proof.
  intros Hread Hfull. unfold BPlusTree.Insert, bind. rewrite Hread.
  destruct Hfull as [[Hleaf Hlen] | Hleaf]; rewrite Hleaf; simpl.
  - rewrite Hlen, Z.ltb_irrefl. reflexivity.
  - reflexivity.
Qed.

Lemma Insert_without_room_is_silent_witness :
  BPlusTree.Insert (H := canonicalRange) rootTree "d" 14 4 fullStore
  = (Ok tt, fullStore).
Proof.
  apply (Insert_without_room_is_silent (H := canonicalRange) rootTree "d" 14 4
           fullStore fullRoot).
  - vm_compute. reflexivity.
  - left. split; vm_compute; reflexivity.
Defined.

(** C9: when the root is a leaf and the key is not among its keys,
    [BPlusTree.Find] returns page id 0 and entry index 0 with a nil error,
    and [Database.Get] returns a nil record with a nil error. *)
Theorem absent_key_is_reported_in_band (tree : BPlusTree) (key : string)
    (h : TextFileHandler) (node : BTreeNode) :
  BPlusTree.readNode (RootPageID tree) h = (Ok node, h) ->
  IsLeaf node = true ->
  key ∉ Keys node ->
  BPlusTree.Find tree key h = (Ok (0, 0), h)
  /\ Database.Get {| Index := tree |} key h = (Ok None, h).
Proof.
  intros Hread Hleaf Habs.
  pose proof (Find_absent tree key h node Hread Hleaf Habs) as Hfind.
  split; [exact Hfind|].
  unfold Database.Get, bind. simpl. rewrite Hfind. reflexivity.
Qed.

Lemma absent_key_is_reported_in_band_witness :
  BPlusTree.Find rootTree "z" fullStore = (Ok (0, 0), fullStore)
  /\ Database.Get {| Index := rootTree |} "z" fullStore = (Ok None, fullStore).
Proof.
  apply (absent_key_is_reported_in_band rootTree "z" fullStore fullRoot).
  - vm_compute. reflexivity.
  - vm_compute. reflexivity.
  - apply (bool_decide_unpack _). vm_compute. exact I.
Defined.

(** C7: when the root is a leaf and the key is not among its keys, the
    index and the database both refuse the deletion with their "not found"
    error, the store is the one before the call, and so every [Find]
    answers after the failed call as it did before. *)
Theorem Delete_of_absent_key_fails `{MapRange} (tree : BPlusTree)
    (key : string) (h : TextFileHandler) (node : BTreeNode) :
  BPlusTree.readNode (RootPageID tree) h = (Ok node, h) ->
  IsLeaf node = true ->
  key ∉ Keys node ->
  BPlusTree.Delete tree key h = (Err ErrKeyNotFoundForDeletion, h)
  /\ Database.Delete {| Index := tree |} key h = (Err (ErrRecordNotFound key), h)
  /\ (forall k,
        BPlusTree.Find tree k (snd (BPlusTree.Delete tree key h))
        = BPlusTree.Find tree k h
        /\ BPlusTree.Find tree k (snd (Database.Delete {| Index := tree |} key h))
           = BPlusTree.Find tree k h).
Proof.
  intros Hread Hleaf Habs.
  assert (Htree : BPlusTree.Delete tree key h = (Err ErrKeyNotFoundForDeletion, h)).
  { unfold BPlusTree.Delete, bind. rewrite Hread, Hleaf. simpl.
    rewrite (findIndex_None _ _ _ Habs). reflexivity. }
  assert (Hdb : Database.Delete {| Index := tree |} key h
                = (Err (ErrRecordNotFound key), h)).
  { pose proof (Find_absent tree key h node Hread Hleaf Habs) as Hfind.
    unfold Database.Delete, bind. simpl. rewrite Hfind. reflexivity. }
  repeat split; [exact Htree | exact Hdb | |].
  - rewrite Htree. reflexivity.
  - rewrite Hdb. reflexivity.
Qed.

Lemma Delete_of_absent_key_fails_witness :
  BPlusTree.Delete (H := canonicalRange) rootTree "z" fullStore
  = (Err ErrKeyNotFoundForDeletion, fullStore).
Proof.
  apply (Delete_of_absent_key_fails (H := canonicalRange) rootTree "z"
           fullStore fullRoot).
  - vm_compute. reflexivity.
  - vm_compute. reflexivity.
  - apply (bool_decide_unpack _). vm_compute. exact I.
Defined.

(** ** What the code does not do *)

(** C5 (the code departs from the claim): twelve pages are allocated on a
    new store and only page 12 is written.  No line of the file is the id
    line of page 1, yet [ReadPage(1)] returns a page, made of the header
    id 1 and of the type and payload of page 12: the id line of a section
    is found by [strings.Contains], and "PageID: 12" contains "PageID: 1". *)
Theorem ReadPage_takes_a_longer_id_for_its_own :
  PageCount sparseStore = 12
  /\ ("PageID: 1" ∉ rawLines (File sparseStore))
  /\ ("PageID: 12" ∈ rawLines (File sparseStore))
  /\ TextFileHandler.ReadPage 1 sparseStore
     = (Ok {| Header := {| PageLSN := 0; PageID := 1; PageType := "Data" |};
              Data := {["k" := "v"]} |}, sparseStore).
Proof.
  repeat split.
  - apply (bool_decide_unpack _). vm_compute. exact I.
  - apply (bool_decide_unpack _). vm_compute. exact I.
Qed.

Lemma AllocatePage_keeps_file h :
  File (snd (TextFileHandler.AllocatePage h)) = File h.
Proof.
  unfold TextFileHandler.AllocatePage.
  destruct (DeallocatedPages h); reflexivity.
Qed.

(** C6 (the code departs from the claim): a store is opened on a file
    whose header lists page 2 as free.  [AllocatePage] hands out page 2 and
    empties the list in memory, but the file still lists page 2: a store
    opened again on that file has page 2 in its free list and hands it out
    a second time. *)
Theorem AllocatePage_does_not_persist_the_free_list :
  let h := storeOf (TextFileHandler.NewTextFileHandler (Some recycledFile)) in
  let r := TextFileHandler.AllocatePage h in
  let reopened :=
    storeOf (TextFileHandler.NewTextFileHandler (Some (File (snd r)))) in
  TextFileHandler.NewTextFileHandler (Some recycledFile) = Ok h
  /\ DeallocatedPages h = [2]
  /\ fst r = Ok (TextFileHandler.newPage 2)
  /\ DeallocatedPages (snd r) = []
  /\ File (snd r) = recycledFile
  /\ DeallocatedPages reopened = [2]
  /\ fst (TextFileHandler.AllocatePage reopened) = Ok (TextFileHandler.newPage 2).
Proof. vm_compute. repeat split; reflexivity. Qed.

(** ** Where the claims of the specification fail *)

(** C1, as stated, fails: after the inserts of the distinct keys "a", "b",
    "c" and "d" into an empty tree, [Find("d")] does not return the pointer
    (14, 4) inserted for "d" but the pair (0, 0) of an absent key. *)
Lemma Find_misses_the_fourth_key :
  let h := runOps (H := canonicalRange) rootTree (firstn 4 scenarioA)
             (emptyTreeStore (H := canonicalRange)) in
  fst (BPlusTree.Find rootTree "d" h) = Ok (0, 0)
  /\ fst (BPlusTree.Find rootTree "d" h) <> Ok (14, 4).
Proof. vm_compute. split; [reflexivity | discriminate]. Qed.

(** C2, as stated, fails: after the five inserts of scenario A the root is
    not an internal node with one separator and two children, and
    [Find("e")] does not resolve to the pointer inserted for "e". *)
Lemma scenarioA_does_not_split :
  let h := runOps (H := canonicalRange) rootTree scenarioA
             (emptyTreeStore (H := canonicalRange)) in
  let root := nodeOf (BPlusTree.readNode (RootPageID rootTree) h) in
  ~ (IsLeaf root = false
     /\ length (Keys root) = 1%nat
     /\ length (Children root) = 2%nat
     /\ fst (BPlusTree.Find rootTree "e" h) = Ok (15, 5)).
Proof. vm_compute. intros [Hleaf _]. discriminate Hleaf. Qed.

(** C4, as stated, fails: a page with a value that starts with a blank is
    written and read back; the page read has the value without the blank,
    so it is not the page written. *)
Lemma WritePage_ReadPage_loses_a_blank :
  let h := snd (TextFileHandler.WritePage (H := canonicalRange) blankPage
                  oneAllocated) in
  fst (TextFileHandler.ReadPage (PageID (Header blankPage)) h)
  = Ok {| Header := Header blankPage; Data := {["k" := "v"]} |}
  /\ fst (TextFileHandler.ReadPage (PageID (Header blankPage)) h)
     <> Ok blankPage.
Proof.
  vm_compute. split; [reflexivity|].
  intros Heq. discriminate Heq.
Qed.

(** C8, as stated, fails: after the insert of the new key "b,a" into an
    empty tree, the root holds the keys "b", "a", which are not ascending. *)
Lemma Insert_of_a_key_with_a_comma_breaks_the_order :
  let h := snd (BPlusTree.Insert (H := canonicalRange) rootTree "b,a" 2 1
                  (emptyTreeStore (H := canonicalRange))) in
  let root := nodeOf (BPlusTree.readNode (RootPageID rootTree) h) in
  Keys root = ["b"; "a"] /\ ~ ascending (Keys root).
Proof.
  vm_compute. split; [reflexivity|].
  intros [Hlt _]. discriminate Hlt.
Qed.

(** C3, as stated, fails: on a database that holds three records, none of
    them with the id "user:1", [Insert("user:1", "X")] returns a nil
    error, the second [Insert("user:1", "Y")] returns a nil error too, and
    [Get("user:1")] returns no record. *)
Lemma second_Insert_into_a_full_database :
  let H := canonicalRange in
  let r1 := Database.Insert newDatabase "user:1" "X" otherDatabase in
  let h1 := snd r1 in
  fst r1 = Ok tt
  /\ fst (Database.Insert newDatabase "user:1" "Y" h1) = Ok tt
  /\ fst (Database.Insert newDatabase "user:1" "Y" h1)
     <> Err (ErrRecordExists "user:1")
  /\ fst (Database.Get newDatabase "user:1" h1) = Ok None
  /\ fst (Database.Get newDatabase "user:1" h1)
     <> Ok (Some {| EntryIndex := 1; Fields := ["user:1"; "X"] |}).
Proof. vm_compute. repeat split; discriminate. Qed.

(** ** The round trip of a page through the file *)

(** C4, amended: a page the text format carries (an id in 1 .. 2^64-1 that
    is not above the page count, a type and values that [TrimSpace] keeps and
    that hold no newline, keys that in addition hold no ": ", do not start
    with "# PAGE" and are none of "LSN", "Type", "PageID", lines that fit the
    64 KiB buffer of the scanner), written to a file where its id line occurs
    nowhere or first as the id line of its own section, is read back by
    [ReadPage] on its id as the same page: same header, same payload,
    whatever the order in which [range] visits the payload. *)
Theorem WritePage_then_ReadPage `{MapRange} (h : TextFileHandler) (p : Page) :
  carriedPage p ->
  PageID (Header p) <= PageCount h ->
  pageAbsent (File h) (PageID (Header p))
  \/ pageInPlace (File h) (PageID (Header p)) ->
  exists h',
    TextFileHandler.WritePage p h = (Ok tt, h')
    /\ TextFileHandler.ReadPage (PageID (Header p)) h' = (Ok p, h').
Proof.
  intros Hp Hcount Hfile.
  destruct (WritePage_file h p Hcount Hfile)
    as (pre & post & Hw & He & Hs & Hno & Hpost).
  eexists. split; [exact Hw|].
  apply (ReadPage_written _ p pre post); try assumption;
    [reflexivity | apply sectionEnd_simple; exact Hpost].
Qed.

Lemma WritePage_then_ReadPage_witness :
  exists h',
    TextFileHandler.WritePage (H := canonicalRange) recordPage oneAllocated
    = (Ok tt, h')
    /\ TextFileHandler.ReadPage 1 h' = (Ok recordPage, h').
Proof.
  apply (WritePage_then_ReadPage (H := canonicalRange) oneAllocated recordPage).
  - split; [vm_compute; split; reflexivity|].
    split; [vm_compute; split; [discriminate | reflexivity]|].
    split; [split; reflexivity|].
    split; [reflexivity|].
    apply map_Forall_singleton.
    repeat split; try reflexivity; discriminate.
  - vm_compute. discriminate.
  - left. split; [reflexivity|].
    unfold scannable. vm_compute. repeat constructor.
Defined.

(** ** The index along a run of inserts and deletes *)

(** C1, amended: start from the empty tree on a new file and run inserts
    and deletes such that every insert brings a key that is not in the index
    (a non-empty key of printable ASCII bytes without blank or comma, of at
    most 20000 bytes), with a pointer whose page id and entry index fit 32
    bits, at a time when the root leaf holds fewer than [BTreeOrder - 1]
    keys.  After each step, [Find] on any key returns, with a nil error, the
    pointer most recently inserted for that key, or the pair (0, 0) when the
    key was never inserted or was deleted. *)
Theorem Find_follows_the_run `{MapRange} (ops : list op) (n : nat) (key : string) :
  admissibleRun ∅ ops ->
  let h := runOps rootTree (firstn n ops) emptyTreeStore in
  BPlusTree.Find rootTree key h
  = (Ok (default (0, 0) (applyOps ∅ (firstn n ops) !! key)), h).
Proof.
  intros Hrun h.
  destruct (run_from_empty (firstn n ops) (admissibleRun_firstn n _ _ Hrun))
    as (es & Hes & Hmap).
  fold h in Hes. rewrite <- Hmap. apply Find_leaf. exact Hes.
Qed.

(** C8, amended: start from the empty tree on a new file and run inserts
    and deletes such that every insert brings a key that is not in the index
    at that time (a non-empty key of printable ASCII bytes without blank or
    comma, of at most 20000 bytes), with any pointer and whatever the number
    of keys the leaf holds.  After every insert and every delete the root
    can be read and is a leaf, its keys are strictly ascending and are the
    keys of the index, and every key has its pointer at its own position:
    an insert that finds room puts the key at its place, one that meets
    [BTreeOrder - 1] keys leaves the leaf as it is, and a delete takes the
    key out together with its pointer. *)
Theorem keys_stay_ascending `{MapRange} (ops : list op) (n : nat) :
  freshRun ∅ ops ->
  let h := runOps rootTree (firstn n ops) emptyTreeStore in
  let idx := keepOps ∅ (firstn n ops) in
  exists node,
    BPlusTree.readNode (RootPageID rootTree) h = (Ok node, h)
    /\ IsLeaf node = true
    /\ ascending (Keys node)
    /\ length (Pointers node) = length (Keys node)
    /\ (forall k, k ∈ Keys node <-> is_Some (idx !! k))
    /\ (forall (i : nat) k, Keys node !! i = Some k ->
          exists p e, idx !! k = Some (p, e)
                      /\ Pointers node !! i = Some (BPlusTree.formatPointer p e)).
Proof.
  intros Hrun h idx.
  destruct (keys_from_empty (firstn n ops) (freshRun_firstn n _ _ Hrun))
    as (es & Hes & Hmap).
  fold h in Hes. fold idx in Hmap. exists (rootNode es).
  split; [apply readNode_keys; exact Hes|].
  destruct Hes as (_ & _ & Hnd & Hasc & _).
  split; [reflexivity|]. split; [exact Hasc|].
  split; [cbn [Pointers Keys rootNode]; rewrite length_map, length_fmap; reflexivity|].
  rewrite <- Hmap. cbn [Keys Pointers rootNode]. split.
  - intros k. split.
    + intros Hin.
      destruct ((list_to_map es : gmap string (Z * Z)) !! k) eqn:E; [eauto|].
      apply not_elem_of_list_to_map in E. contradiction.
    + intros [pe Hpe]. apply elem_of_list_to_map_2 in Hpe.
      apply list_elem_of_fmap. exists (k, pe). split; [reflexivity | exact Hpe].
  - intros i k Hk. rewrite list_lookup_fmap in Hk.
    destruct (es !! i) as [[k' [p e]]|] eqn:Ei; [|discriminate].
    injection Hk as ->. exists p, e. split.
    + apply elem_of_list_to_map_1; [exact Hnd|]. apply list_elem_of_lookup. eauto.
    + change (map pointerOf es) with (pointerOf <$> es).
      rewrite list_lookup_fmap, Ei. reflexivity.
Qed.

Lemma Find_follows_the_run_witness :
  let h := runOps (H := canonicalRange) rootTree (firstn 5 mixedRun)
             (emptyTreeStore (H := canonicalRange)) in
  BPlusTree.Find rootTree "a" h
  = (Ok (default (0, 0) (applyOps ∅ (firstn 5 mixedRun) !! "a")), h).
Proof.
  apply (Find_follows_the_run (H := canonicalRange) mixedRun 5 "a").
  repeat split; try exact I; try discriminate; vm_compute;
    try reflexivity; discriminate.
Defined.

Lemma keys_stay_ascending_witness :
  let h := runOps (H := canonicalRange) rootTree (firstn 5 scenarioA)
             (emptyTreeStore (H := canonicalRange)) in
  let idx := keepOps ∅ (firstn 5 scenarioA) in
  exists node,
    BPlusTree.readNode (RootPageID rootTree) h = (Ok node, h)
    /\ IsLeaf node = true
    /\ ascending (Keys node)
    /\ length (Pointers node) = length (Keys node)
    /\ (forall k, k ∈ Keys node <-> is_Some (idx !! k))
    /\ (forall (i : nat) k, Keys node !! i = Some k ->
          exists p e, idx !! k = Some (p, e)
                      /\ Pointers node !! i = Some (BPlusTree.formatPointer p e)).
Proof.
  apply (keys_stay_ascending (H := canonicalRange) scenarioA 5).
  repeat split; try exact I; try discriminate; vm_compute;
    try reflexivity; discriminate.
Defined.

Example mixedRun_finds :
  let h := runOps (H := canonicalRange) rootTree mixedRun
             (emptyTreeStore (H := canonicalRange)) in
  fst (BPlusTree.Find rootTree "a" h) = Ok (21, 7)
  /\ fst (BPlusTree.Find rootTree "b" h) = Ok (12, 2)
  /\ fst (BPlusTree.Find rootTree "zz" h) = Ok (0, 0)
  /\ Keys (nodeOf (BPlusTree.readNode 1 h)) = ["a"; "b"; "c"].
Proof. vm_compute. repeat split. Qed.

(** C2, amended: with Order = 4, after the inserts of "a", "b", "c" into
    an empty tree the root leaf is full; the inserts of "d" and "e" return a
    nil error and leave the store as it is: no split occurs, the root is
    still a leaf, with the keys "a", "b", "c", their pointers and no
    children; [Find("e")] returns (0, 0) with a nil error, and [Find("c")]
    still resolves to the pointer inserted for "c". *)
Theorem scenarioA_fills_the_leaf `{MapRange} :
  let h3 := runOps rootTree (firstn 3 scenarioA) emptyTreeStore in
  BPlusTree.Insert rootTree "d" 14 4 h3 = (Ok tt, h3)
  /\ BPlusTree.Insert rootTree "e" 15 5 h3 = (Ok tt, h3)
  /\ runOps rootTree scenarioA emptyTreeStore = h3
  /\ (exists root,
        BPlusTree.readNode (RootPageID rootTree) h3 = (Ok root, h3)
        /\ IsLeaf root = true
        /\ Keys root = ["a"; "b"; "c"]
        /\ Pointers root = ["11:1"; "12:2"; "13:3"]
        /\ Children root = [])
  /\ BPlusTree.Find rootTree "e" h3 = (Ok (0, 0), h3)
  /\ BPlusTree.Find rootTree "c" h3 = (Ok (13, 3), h3).
Proof.
  intros h3. pose proof scenarioA_leaf as Hleaf. fold h3 in Hleaf.
  pose proof (Insert_leaf_full h3 _ "d" 14 4 Hleaf eq_refl) as Hd.
  pose proof (Insert_leaf_full h3 _ "e" 15 5 Hleaf eq_refl) as He.
  split; [exact Hd|]. split; [exact He|].
  split.
  { change (runOps rootTree scenarioA emptyTreeStore)
      with (runOps rootTree [OpInsert "d" 14 4; OpInsert "e" 15 5] h3).
    cbn [runOps runOp]. rewrite Hd. cbn [snd]. rewrite He. reflexivity. }
  split.
  { exists (rootNode scenarioA_entries).
    split; [apply readNode_leaf; exact Hleaf|].
    repeat split; reflexivity. }
  split; [rewrite (Find_leaf h3 _ "e" Hleaf) | rewrite (Find_leaf h3 _ "c" Hleaf)];
    reflexivity.
Qed.

(** ** Duplicate keys *)

Lemma Insert_present `{MapRange} (db : Database) (ID Data : string)
    (h : TextFileHandler) (pageID entryIndex : Z) :
  BPlusTree.Find (Index db) ID h = (Ok (pageID, entryIndex), h) ->
  pageID <> 0 ->
  Database.Insert db ID Data h = (Err (ErrRecordExists ID), h).
Proof.
  intros Hfind Hne. unfold Database.Insert, bind, Database.findIgnoringError.
  rewrite Hfind. apply Z.eqb_neq in Hne. rewrite Hne. reflexivity.
Qed.

(** C3, amended: on every store that holds a database, [Insert] of an id
    the database has a record for fails with "record with ID ... already
    exists", leaves the store as it is, and [Get] still returns the record
    that was there.  When the database has no record for the id and holds
    fewer than three records, the scenario runs as the specification says:
    [Insert(id, X)] succeeds, a second [Insert(id, Y)] fails with that
    error and leaves the store as it is, and [Get(id)] returns the record
    with the data [X]. *)
Theorem Insert_of_present_key_fails `{MapRange} (h : TextFileHandler)
    (m : gmap string string) (ID X Y : string) :
  holdsDB h m ->
  (forall d, m !! ID = Some d ->
     Database.Insert newDatabase ID Y h = (Err (ErrRecordExists ID), h)
     /\ Database.Get newDatabase ID h = (Ok (Some (recordFor ID d)), h))
  /\ (m !! ID = None -> (size m < 3)%nat ->
      recordKey ID -> recordData X -> PageCount h + 2 < 2 ^ 32 ->
      exists h1,
        Database.Insert newDatabase ID X h = (Ok tt, h1)
        /\ Database.Insert newDatabase ID Y h1 = (Err (ErrRecordExists ID), h1)
        /\ Database.Get newDatabase ID h1 = (Ok (Some (recordFor ID X)), h1)).
Proof.
  intros Hdb.
  assert (Hpresent : forall h' m' d, holdsDB h' m' -> m' !! ID = Some d ->
            Database.Insert newDatabase ID Y h' = (Err (ErrRecordExists ID), h')
            /\ Database.Get newDatabase ID h'
               = (Ok (Some (recordFor ID d)), h')).
  { intros h' m' d Hdb' Hd. split.
    - destruct Hdb' as (es & secs & Hleaf & _ & _ & _ & _ & _ & Hsome & Hnone).
      destruct (holdsDB_present h' m' ID d es secs Hsome Hnone Hd)
        as (pid & E & Hpid & _).
      apply (Insert_present newDatabase ID Y h' pid 1); [|lia].
      cbn [Index newDatabase]. rewrite (Find_leaf h' es ID Hleaf), E. reflexivity.
    - rewrite (Get_spec h' m' ID Hdb'), Hd. reflexivity. }
  split.
  - intros d Hd. exact (Hpresent h m d Hdb Hd).
  - intros Hnone Hsize Hkey HX Hbound.
    destruct (Insert_spec_new h m ID X Hdb Hkey HX Hnone Hsize Hbound)
      as (h1 & Hins & Hdb1 & _).
    exists h1. split; [exact Hins|].
    apply (Hpresent h1 _ X Hdb1). apply lookup_insert_eq.
Qed.

Lemma Insert_of_present_key_fails_witness :
  exists h1,
    Database.Insert (H := canonicalRange) newDatabase "user:1" "X"
      (emptyTreeStore (H := canonicalRange))
    = (Ok tt, h1)
    /\ Database.Insert (H := canonicalRange) newDatabase "user:1" "Y" h1
       = (Err (ErrRecordExists "user:1"), h1)
    /\ Database.Get newDatabase "user:1" h1
       = (Ok (Some (recordFor "user:1" "X")), h1).
Proof.
  apply (proj2 (Insert_of_present_key_fails (H := canonicalRange) emptyTreeStore ∅
                  "user:1" "X" "Y" holdsDB_new)).
  - reflexivity.
  - rewrite map_size_empty. lia.
  - split; [split; [discriminate | split; [reflexivity | vm_compute; discriminate]]
           | reflexivity].
  - repeat split; try reflexivity. vm_compute. discriminate.
  - rewrite emptyTreeStore_eq. cbn [PageCount]. lia.
Defined.

Example scenarioC_runs :
  let H := canonicalRange in
  let h1 := snd (Database.Insert newDatabase "user:1" "X" emptyTreeStore) in
  fst (Database.Insert newDatabase "user:1" "Y" h1) = Err (ErrRecordExists "user:1")
  /\ fst (Database.Get newDatabase "user:1" h1)
     = Ok (Some {| EntryIndex := 1; Fields := ["user:1"; "X"] |}).
Proof. vm_compute. split; reflexivity. Qed.
(* ===================================================================== *)
(** * Further properties of the code                                      *)
(* ===================================================================== *)

(** ** Page.go: the records of a data page *)

(** X1: on a data page, whatever its payload, [AddRecord] stores the record
    under the index it returns, and [GetRecord] at that index gives back the
    fields of the record, when there is at least one field and none holds
    the separator "|". *)
Theorem AddRecord_then_GetRecord (p : Page) (r : Record_) :
  PageType (Header p) = "Data" -> cleanFields (Fields r) ->
  exists i p',
    Page.AddRecord p r = Ok (i, p', {| EntryIndex := i; Fields := Fields r |})
    /\ Page.GetRecord p' i = Ok {| EntryIndex := i; Fields := Fields r |}.
Proof.
  intros Ht Hr. unfold Page.AddRecord.
  destruct (decide (PageType (Header p) = "Data")) as [_|Hno]; [|contradiction].
  eexists _, _. split; [reflexivity|].
  unfold Page.GetRecord. cbn [setData Header Data].
  destruct (decide (PageType (Header p) = "Data")) as [_|Hno]; [|contradiction].
  rewrite lookup_insert_eq. rewrite (Split_Join_fields _ Hr). reflexivity.
Qed.

Lemma AddRecord_then_GetRecord_witness :
  exists i p',
    Page.AddRecord recordPage {| EntryIndex := 0; Fields := ["user:2"; "Jane Smith"] |}
    = Ok (i, p', {| EntryIndex := i; Fields := ["user:2"; "Jane Smith"] |})
    /\ Page.GetRecord p' i = Ok {| EntryIndex := i; Fields := ["user:2"; "Jane Smith"] |}.
Proof.
  apply (AddRecord_then_GetRecord recordPage
           {| EntryIndex := 0; Fields := ["user:2"; "Jane Smith"] |}).
  - reflexivity.
  - split; [discriminate|]. repeat constructor.
Defined.

(** X2: records added one after the other to a data page without counter
    are numbered 1, 2, 3, ... in the order of the calls, and each one is
    read back by [GetRecord] at its number: a later [AddRecord] overwrites
    no earlier record. *)
Theorem AddRecord_numbers_the_records (p : Page) (rs : list Record_) :
  PageType (Header p) = "Data" -> Data p !! "EntryIndex" = None ->
  Z.of_nat (length rs) < uintMax ->
  Forall (fun r => cleanFields (Fields r)) rs ->
  exists p',
    addRecords p rs = Ok p'
    /\ forall (i : nat) r, rs !! i = Some r ->
         Page.GetRecord p' (Z.of_nat i + 1)
         = Ok {| EntryIndex := Z.of_nat i + 1; Fields := Fields r |}.
Proof.
  intros Ht Hc Hlen Hclean.
  destruct (addRecords_get rs p 0 Ht) as (p' & Hrun & _ & _ & Hget & _);
    [unfold entryCounter; rewrite Hc; reflexivity | lia | lia | exact Hclean |].
  exists p'. split; [exact Hrun|].
  intros i r Hi. specialize (Hget i r Hi).
  replace (Z.of_nat i + 1) with (0 + 1 + Z.of_nat i) by lia. exact Hget.
Qed.

Lemma AddRecord_numbers_the_records_witness :
  exists p',
    addRecords (setType (newPage 2) "Data")
      [{| EntryIndex := 0; Fields := ["user:1"; "John Doe"] |};
       {| EntryIndex := 0; Fields := ["user:2"; "Jane Smith"] |}] = Ok p'
    /\ forall (i : nat) r,
         [{| EntryIndex := 0; Fields := ["user:1"; "John Doe"] |};
          {| EntryIndex := 0; Fields := ["user:2"; "Jane Smith"] |}] !! i = Some r ->
         Page.GetRecord p' (Z.of_nat i + 1)
         = Ok {| EntryIndex := Z.of_nat i + 1; Fields := Fields r |}.
Proof.
  apply (AddRecord_numbers_the_records (setType (newPage 2) "Data")).
  - reflexivity.
  - reflexivity.
  - vm_compute. reflexivity.
  - repeat constructor; discriminate.
Defined.

(** X3: when [DeleteRecord] succeeds, [GetRecord] at the deleted index
    fails with "Record not found on page", every other record is read as
    before, and the counter of the page is left alone: the next [AddRecord]
    gives the index it would have given before the deletion. *)
Theorem DeleteRecord_removes_one_record (p p' : Page) (i : Z) :
  0 <= i < uintMax ->
  Page.DeleteRecord p i = Ok p' ->
  Page.GetRecord p' i = Err (ErrRecordNotFoundOnPage i)
  /\ (forall j, 0 <= j < uintMax -> j <> i -> Page.GetRecord p' j = Page.GetRecord p j)
  /\ (forall r, exists p'',
        Page.AddRecord p' r
        = Ok (wrap64 (entryCounter p + 1), p'',
              {| EntryIndex := wrap64 (entryCounter p + 1); Fields := Fields r |})).
Proof.
  intros Hi Hdel. unfold Page.DeleteRecord in Hdel.
  destruct (decide (PageType (Header p) = "Data")) as [Ht|Hno]; [|discriminate].
  destruct (Data p !! Page.EntryKey i) as [s|] eqn:Hs; [|discriminate].
  injection Hdel as <-.
  split; [|split].
  - unfold Page.GetRecord. cbn [setData Header Data].
    destruct (decide (PageType (Header p) = "Data")) as [_|Hno]; [|contradiction].
    rewrite lookup_delete_eq. reflexivity.
  - intros j Hj Hne. unfold Page.GetRecord. cbn [setData Header Data].
    rewrite lookup_delete_ne; [reflexivity|].
    intros E. apply Hne. symmetry. apply EntryKey_inj; assumption.
  - intros r. unfold Page.AddRecord. cbn [setData Header Data].
    destruct (decide (PageType (Header p) = "Data")) as [_|Hno]; [|contradiction].
    rewrite lookup_delete_ne by apply EntryKey_not_counter.
    fold (entryCounter p). eexists. reflexivity.
Qed.

Lemma DeleteRecord_removes_one_record_witness :
  let p' := setData userPage (<["EntryIndex" := "1"]> ∅) in
  Page.GetRecord p' 1 = Err (ErrRecordNotFoundOnPage 1)
  /\ (forall j, 0 <= j < uintMax -> j <> 1 ->
        Page.GetRecord p' j = Page.GetRecord userPage j)
  /\ (forall r, exists p'',
        Page.AddRecord p' r
        = Ok (wrap64 (entryCounter userPage + 1), p'',
              {| EntryIndex := wrap64 (entryCounter userPage + 1); Fields := Fields r |})).
Proof.
  apply (DeleteRecord_removes_one_record userPage
           (setData userPage (<["EntryIndex" := "1"]> ∅)) 1).
  - vm_compute. split; [discriminate | reflexivity].
  - reflexivity.
Defined.

(** ** FileHandler.go: allocation and the pages that are not there *)

(** X4: [AllocatePage] hands out the queued freed ids first, in the order
    of the queue, and then new ids that follow the page count one by one;
    the count grows by the number of new ids only, and the file is never
    touched. *)
Theorem AllocatePage_serves_the_queue_first (h : TextFileHandler) (k : nat) :
  0 <= PageCount h -> PageCount h + Z.of_nat k < uintMax ->
  allocateIDs (length (DeallocatedPages h) + k) h
  = (DeallocatedPages h ++ ((fun i => PageCount h + 1 + Z.of_nat i) <$> seq 0 k),
     {| File := File h; PageSize := PageSize h;
        PageCount := PageCount h + Z.of_nat k; DeallocatedPages := [] |}).
Proof.
  intros H0 Hk. rewrite (allocateIDs_queue (DeallocatedPages h) k h eq_refl).
  rewrite allocateIDs_fresh by (cbn; try assumption; reflexivity).
  reflexivity.
Qed.

Lemma AllocatePage_serves_the_queue_first_witness :
  allocateIDs (length (DeallocatedPages (storeOf (NewTextFileHandler (Some recycledFile)))) + 2)
    (storeOf (NewTextFileHandler (Some recycledFile)))
  = ([2; 4; 5],
     {| File := recycledFile; PageSize := 4096; PageCount := 5; DeallocatedPages := [] |}).
Proof.
  apply (AllocatePage_serves_the_queue_first
           (storeOf (NewTextFileHandler (Some recycledFile))) 2).
  - vm_compute. discriminate.
  - vm_compute. reflexivity.
Defined.

(** X5: [ReadPage] fails, and leaves the store as it is, with "Invalid
    PageID" when the id is 0 or above the page count, and with "Page ... not
    found" when the id is in range but the text "PageID: <id>" occurs
    nowhere in the file: a page that was allocated and never written cannot
    be read. *)
Theorem ReadPage_of_a_page_that_is_not_there (h : TextFileHandler) (id : Z) :
  (id = 0 \/ PageCount h < id ->
     ReadPage id h = (Err (ErrInvalidPageID id (PageCount h)), h))
  /\ (id <> 0 -> id <= PageCount h ->
      Contains (File h) (PageIDMarker id) = false ->
      ReadPage id h = (Err (ErrPageNotFound id), h)).
Proof.
  split.
  - intros Hid. unfold ReadPage.
    assert ((id =? 0) || (PageCount h <? id) = true) as ->; [|reflexivity].
    apply orb_true_iff. destruct Hid as [->|Hid]; [left; reflexivity|right].
    apply Z.ltb_lt. exact Hid.
  - intros Hne Hle Hfree. unfold ReadPage.
    assert ((id =? 0) || (PageCount h <? id) = false) as ->.
    { apply orb_false_iff. split; [apply Z.eqb_neq; exact Hne | apply Z.ltb_ge; exact Hle]. }
    pose proof (readLoop_no_hit (PageIDMarker id) (rawLines (File h))
                  {| Header := {| PageLSN := 0; PageID := id; PageType := "" |};
                     Data := ∅ |}) as Hloop.
    destruct (readLoop _ _ false false _) as [[pf p'] long].
    cbn [fst] in Hloop. rewrite Hloop; [reflexivity|].
    apply Forall_forall. intros l Hl.
    apply (lines_without_occurrence (File h)); [exact Hfree | exact Hl].
Qed.

Lemma ReadPage_of_a_page_that_is_not_there_witness :
  ReadPage 1 oneAllocated = (Err (ErrPageNotFound 1), oneAllocated).
Proof.
  apply (proj2 (ReadPage_of_a_page_that_is_not_there oneAllocated 1));
    [discriminate | vm_compute; discriminate | reflexivity].
Defined.

(** A page allocated on the new store and never written. *)
Example ReadPage_before_WritePage :
  ReadPage 1 oneAllocated = (Err (ErrPageNotFound 1), oneAllocated)
  /\ ReadPage 2 oneAllocated = (Err (ErrInvalidPageID 2 1), oneAllocated)
  /\ ReadPage 0 oneAllocated = (Err (ErrInvalidPageID 0 1), oneAllocated).
Proof. vm_compute. repeat split. Qed.

(** ** BTree.go: the root that is already there *)

(** X6: on a store that holds a root leaf, [NewBPlusTree] returns the tree
    with root page 1 and leaves the store as it is: it allocates no page and
    writes nothing, whatever keys the leaf holds. *)
Theorem NewBPlusTree_keeps_the_root `{MapRange} (h : TextFileHandler)
    (es : list (string * (Z * Z))) :
  holdsLeaf h es -> BPlusTree.NewBPlusTree h = (Ok rootTree, h).
Proof.
  intros Hleaf. pose proof (readNode_leaf h es Hleaf) as Hread.
  unfold BPlusTree.readNode, bind in Hread. unfold BPlusTree.NewBPlusTree.
  destruct (ReadPage 1 h) as [[p|e|] h'] eqn:Hp; try discriminate.
  pose proof (ReadPage_eq _ _ _ _ Hp) as ->.
  unfold ret in Hread. injection Hread as Hnode _ _ _. subst p.
  reflexivity.
Qed.

Lemma NewBPlusTree_keeps_the_root_witness :
  BPlusTree.NewBPlusTree (H := canonicalRange)
    (runOps (H := canonicalRange) rootTree (firstn 3 scenarioA)
       (emptyTreeStore (H := canonicalRange)))
  = (Ok rootTree,
     runOps (H := canonicalRange) rootTree (firstn 3 scenarioA)
       (emptyTreeStore (H := canonicalRange))).
Proof.
  apply (NewBPlusTree_keeps_the_root (H := canonicalRange) _ scenarioA_entries).
  apply scenarioA_leaf.
Defined.

(** ** FileHandler.go: the header *)

(** X7: [NewTextFileHandler] on an existing file reads the page size, the
    page count and the queue of deallocated pages from the lines of the
    header and looks at nothing behind the first line "# PAGE"; the file is
    left as it is.  A line "DEALLOCATED_PAGES=" without ids reads as the one
    id 0. *)
Theorem NewTextFileHandler_reads_the_header (size count : Z)
    (free : option (list Z)) (rest : string) :
  0 <= size < 2 ^ 63 -> 0 <= count < uintMax ->
  match free with
  | Some ids => Forall (fun id => 0 <= id < uintMax) ids /\ (length ids <= 3000)%nat
  | None => True
  end ->
  sectionEnd rest ->
  NewTextFileHandler (Some (headerText size count free +:+ rest))
  = Ok {| File := headerText size count free +:+ rest; PageSize := size;
          PageCount := count; DeallocatedPages := loadedFree free |}.
Proof. apply NewTextFileHandler_header. Qed.

Lemma NewTextFileHandler_reads_the_header_witness :
  NewTextFileHandler
    (Some (headerText 4096 3 (Some [2]) +:+ PageSection +:+ NL +:+ "PageID: 1" +:+ NL))
  = Ok {| File := headerText 4096 3 (Some [2]) +:+ PageSection +:+ NL +:+ "PageID: 1" +:+ NL;
          PageSize := 4096; PageCount := 3; DeallocatedPages := loadedFree (Some [2]) |}.
Proof.
  apply (NewTextFileHandler_reads_the_header 4096 3 (Some [2])
           (PageSection +:+ NL +:+ "PageID: 1" +:+ NL)).
  - lia.
  - vm_compute. split; [discriminate | reflexivity].
  - split; [repeat constructor; vm_compute; try discriminate; reflexivity | simpl; lia].
  - right. left. eexists. reflexivity.
Defined.

(** The header the program writes into a new file is of this form. *)
Example InitialContent_is_a_header : headerText DefaultPageSize 0 None = InitialContent.
Proof. reflexivity. Qed.

(** ** database/storage/Page.go: [GetAllRecords] *)

(** X8: after records are added one after the other to a data page without
    counter, [GetAllRecords] returns them in the order of the calls, each
    with its number, except the one added last: its loop stops before the
    index the counter holds.  [GetRecord] does return that last record. *)
Theorem GetAllRecords_leaves_out_the_last (p : Page) (rs : list Record_) :
  PageType (Header p) = "Data" -> Data p !! "EntryIndex" = None ->
  Z.of_nat (length rs) < uintMax ->
  Forall (fun r => cleanFields (Fields r)) rs ->
  exists p',
    addAll p rs = inr p'
    /\ StoragePage.GetAllRecords p' = inr (imap numbered (removelast rs))
    /\ forall (i : nat) r, rs !! i = Some r ->
         StoragePage.GetRecord p' (Z.of_nat i + 1) = inr (numbered i r).
Proof.
  intros Ht Hc Hlen Hclean.
  destruct (addAll_entries rs p 0 Ht) as (p' & Hrun & Ht' & Hc' & Hget & _);
    [unfold StoragePage.scanCounter; rewrite Hc; reflexivity | lia | lia |].
  assert (forall (i : nat) r, rs !! i = Some r ->
            Data p' !! StoragePage.EntryKey (Z.of_nat i + 1)
            = Some (Join (Fields r) "|")) as Hd.
  { intros i r Hi. specialize (Hget i r Hi).
    replace (Z.of_nat i + 1) with (0 + 1 + Z.of_nat i) by lia. exact Hget. }
  exists p'. split; [exact Hrun|]. split.
  - unfold StoragePage.GetAllRecords.
    destruct (decide (PageType (Header p') = "Data")) as [_|Hno]; [|contradiction].
    rewrite Hc'. cbv zeta. f_equal.
    rewrite (collect_numbered (Data p') rs _ Hclean Hd) by lia.
    f_equal. rewrite removelast_firstn_len. f_equal. lia.
  - intros i r Hi. unfold StoragePage.GetRecord.
    destruct (decide (PageType (Header p') = "Data")) as [_|Hno]; [|contradiction].
    rewrite (Hd i r Hi). unfold numbered.
    rewrite Split_Join_fields; [reflexivity|].
    exact (proj1 (Forall_lookup _ _) Hclean i r Hi).
Qed.

Lemma GetAllRecords_leaves_out_the_last_witness :
  exists p',
    addAll (setType (newPage 2) "Data")
      [{| EntryIndex := 0; Fields := ["user:1"; "John Doe"] |};
       {| EntryIndex := 0; Fields := ["user:2"; "Jane Smith"] |}] = inr p'
    /\ StoragePage.GetAllRecords p'
       = inr (imap numbered
                (removelast
                   [{| EntryIndex := 0; Fields := ["user:1"; "John Doe"] |};
                    {| EntryIndex := 0; Fields := ["user:2"; "Jane Smith"] |}]))
    /\ forall (i : nat) r,
         [{| EntryIndex := 0; Fields := ["user:1"; "John Doe"] |};
          {| EntryIndex := 0; Fields := ["user:2"; "Jane Smith"] |}] !! i = Some r ->
         StoragePage.GetRecord p' (Z.of_nat i + 1) = inr (numbered i r).
Proof.
  apply (GetAllRecords_leaves_out_the_last (setType (newPage 2) "Data")).
  - reflexivity.
  - reflexivity.
  - vm_compute. reflexivity.
  - repeat constructor; discriminate.
Defined.

(** ** Database.go: the database as a map from ids to data

    The theorems of this part are about the stores that hold a database
    ([holdsDB]): the store of a new database is one, and every call below
    leads from such a store to another one. *)

(** X9: on a store that holds the database [m], [Get] returns the record
    with the id and the data [m] gives for it, and a nil record with a nil
    error for an id [m] does not have; the store is left as it is. *)
Theorem Get_returns_the_record_of_the_id `{MapRange} (h : TextFileHandler)
    (m : gmap string string) (ID : string) :
  holdsDB h m ->
  Database.Get newDatabase ID h = (Ok (recordFor ID <$> m !! ID), h).
Proof. apply Get_spec. Qed.

Lemma Get_returns_the_record_of_the_id_witness :
  Database.Get newDatabase "user:2" mainStore
  = (Ok (recordFor "user:2"
           <$> (<["user:2" := "Jane Smith"]> (<["user:1" := "John Doe"]> ∅)
                  : gmap string string) !! "user:2"),
     mainStore).
Proof.
  apply (Get_returns_the_record_of_the_id (H := canonicalRange) mainStore
           (<["user:2" := "Jane Smith"]> (<["user:1" := "John Doe"]> ∅)) "user:2").
  apply mainStore_holds.
Defined.

(** X10: [Insert] of an id the database does not have, while it has fewer
    than three records, succeeds: the store then holds the database with
    the new record, and [Get] returns it.  The id is a key of the index
    without "|", the data are text without "|"; one more page id must fit
    32 bits. *)
Theorem Insert_adds_the_record `{MapRange} (h : TextFileHandler)
    (m : gmap string string) (ID Data : string) :
  holdsDB h m -> recordKey ID -> recordData Data ->
  m !! ID = None -> (size m < 3)%nat -> PageCount h + 2 < 2 ^ 32 ->
  exists h',
    Database.Insert newDatabase ID Data h = (Ok tt, h')
    /\ holdsDB h' (<[ID := Data]> m)
    /\ Database.Get newDatabase ID h' = (Ok (Some (recordFor ID Data)), h').
Proof.
  intros Hdb Hkey Hdata Hm Hsize Hbound.
  destruct (Insert_spec_new h m ID Data Hdb Hkey Hdata Hm Hsize Hbound)
    as (h' & Hins & Hdb' & _).
  exists h'. split; [exact Hins|]. split; [exact Hdb'|].
  rewrite (Get_spec h' _ ID Hdb'), lookup_insert_eq. reflexivity.
Qed.

Lemma Insert_adds_the_record_witness :
  exists h',
    Database.Insert (H := canonicalRange) newDatabase "user:3" "Ann Lee" mainStore
    = (Ok tt, h')
    /\ holdsDB (H := canonicalRange) h'
         (<["user:3" := "Ann Lee"]>
            (<["user:2" := "Jane Smith"]> (<["user:1" := "John Doe"]> ∅)))
    /\ Database.Get newDatabase "user:3" h'
       = (Ok (Some (recordFor "user:3" "Ann Lee")), h').
Proof.
  apply (Insert_adds_the_record (H := canonicalRange) mainStore
           (<["user:2" := "Jane Smith"]> (<["user:1" := "John Doe"]> ∅))
           "user:3" "Ann Lee").
  - apply mainStore_holds.
  - split; [split; [discriminate | split; [reflexivity | vm_compute; discriminate]]
           | reflexivity].
  - repeat split; try reflexivity. vm_compute. discriminate.
  - reflexivity.
  - vm_compute. lia.
  - rewrite (proj2 mainStore_holds). lia.
Defined.

(** X11: [Insert] of a new id into a database of three records returns a
    nil error as well, and writes the data page, but the index drops the
    key: the store holds the same three records as before, and [Get] of the
    id just inserted returns a nil record. *)
Theorem Insert_into_a_full_index_loses_the_record `{MapRange}
    (h : TextFileHandler) (m : gmap string string) (ID Data : string) :
  holdsDB h m -> recordKey ID -> recordData Data ->
  m !! ID = None -> size m = 3%nat -> PageCount h + 2 < 2 ^ 32 ->
  exists h',
    Database.Insert newDatabase ID Data h = (Ok tt, h')
    /\ holdsDB h' m
    /\ PageCount h' = PageCount h + 1
    /\ Database.Get newDatabase ID h' = (Ok None, h').
Proof.
  intros Hdb Hkey Hdata Hm Hsize Hbound.
  destruct (Insert_spec_full h m ID Data Hdb Hkey Hdata Hm Hsize Hbound)
    as (h' & Hins & Hdb' & Hc).
  exists h'. split; [exact Hins|]. split; [exact Hdb'|]. split; [exact Hc|].
  rewrite (Get_spec h' _ ID Hdb'), Hm. reflexivity.
Qed.

Lemma Insert_into_a_full_index_loses_the_record_witness :
  exists h',
    Database.Insert (H := canonicalRange) newDatabase "user:4" "Bob Ray" fullDatabase
    = (Ok tt, h')
    /\ holdsDB (H := canonicalRange) h'
         (<["user:3" := "Ann Lee"]>
            (<["user:2" := "Jane Smith"]> (<["user:1" := "John Doe"]> ∅)))
    /\ PageCount h' = PageCount fullDatabase + 1
    /\ Database.Get newDatabase "user:4" h' = (Ok None, h').
Proof.
  apply (Insert_into_a_full_index_loses_the_record (H := canonicalRange) fullDatabase
           (<["user:3" := "Ann Lee"]>
              (<["user:2" := "Jane Smith"]> (<["user:1" := "John Doe"]> ∅)))
           "user:4" "Bob Ray").
  - apply fullDatabase_holds.
  - split; [split; [discriminate | split; [reflexivity | vm_compute; discriminate]]
           | reflexivity].
  - repeat split; try reflexivity. vm_compute. discriminate.
  - reflexivity.
  - vm_compute. reflexivity.
  - rewrite (proj2 fullDatabase_holds). lia.
Defined.

(** X12: [Update] of an id the database has replaces its data: the store
    then holds the database with the new data for that id, the other
    records as they were, and [Get] returns the id with the new data.
    [Update] of an id the database does not have fails with "cannot update
    non-existent record" and leaves the store as it is. *)
Theorem Update_replaces_the_data `{MapRange} (h : TextFileHandler)
    (m : gmap string string) (ID NewData : string) :
  holdsDB h m -> recordData NewData ->
  (forall d, m !! ID = Some d ->
     exists h',
       Database.Update newDatabase ID NewData h = (Ok tt, h')
       /\ holdsDB h' (<[ID := NewData]> m)
       /\ Database.Get newDatabase ID h' = (Ok (Some (recordFor ID NewData)), h'))
  /\ (m !! ID = None ->
      Database.Update newDatabase ID NewData h = (Err (ErrUpdateNonExistent ID), h)).
Proof.
  intros Hdb Hnew. split.
  - intros d Hm.
    destruct (Update_spec h m ID d NewData Hdb Hm Hnew) as (h' & Hup & Hdb' & _).
    exists h'. split; [exact Hup|]. split; [exact Hdb'|].
    rewrite (Get_spec h' _ ID Hdb'), lookup_insert_eq. reflexivity.
  - apply (Update_absent h m ID NewData Hdb).
Qed.

Lemma Update_replaces_the_data_witness :
  exists h',
    Database.Update (H := canonicalRange) newDatabase "user:2" "Jane Doe" mainStore
    = (Ok tt, h')
    /\ holdsDB (H := canonicalRange) h'
         (<["user:2" := "Jane Doe"]>
            (<["user:2" := "Jane Smith"]> (<["user:1" := "John Doe"]> ∅)))
    /\ Database.Get newDatabase "user:2" h'
       = (Ok (Some (recordFor "user:2" "Jane Doe")), h').
Proof.
  apply (proj1 (Update_replaces_the_data (H := canonicalRange) mainStore
                  (<["user:2" := "Jane Smith"]> (<["user:1" := "John Doe"]> ∅))
                  "user:2" "Jane Doe" (proj1 mainStore_holds)
                  ltac:(repeat split; try reflexivity; vm_compute; discriminate))
           "Jane Smith").
  reflexivity.
Defined.

(** X13: [Delete] of an id the database has removes the record: the store
    then holds the database without that id, the other records as they
    were, and [Get] of the id returns a nil record.  The page of the record
    stays in the file without entry; the page count is as before, and no
    page is queued for reuse. *)
Theorem Delete_removes_the_record `{MapRange} (h : TextFileHandler)
    (m : gmap string string) (ID d : string) :
  holdsDB h m -> m !! ID = Some d ->
  exists h',
    Database.Delete newDatabase ID h = (Ok tt, h')
    /\ holdsDB h' (delete ID m)
    /\ Database.Get newDatabase ID h' = (Ok None, h')
    /\ PageCount h' = PageCount h /\ DeallocatedPages h' = [].
Proof.
  intros Hdb Hm.
  destruct (Delete_spec h m ID d Hdb Hm) as (h' & Hdel & Hdb' & Hc).
  exists h'. split; [exact Hdel|]. split; [exact Hdb'|].
  split; [rewrite (Get_spec h' _ ID Hdb'), lookup_delete_eq; reflexivity|].
  split; [exact Hc|].
  destruct Hdb' as (es & secs & _ & _ & Hfree & _). exact Hfree.
Qed.

Lemma Delete_removes_the_record_witness :
  exists h',
    Database.Delete (H := canonicalRange) newDatabase "user:1" mainStore = (Ok tt, h')
    /\ holdsDB (H := canonicalRange) h'
         (delete "user:1"
            (<["user:2" := "Jane Smith"]> (<["user:1" := "John Doe"]> ∅)))
    /\ Database.Get newDatabase "user:1" h' = (Ok None, h')
    /\ PageCount h' = PageCount mainStore /\ DeallocatedPages h' = [].
Proof.
  apply (Delete_removes_the_record (H := canonicalRange) mainStore
           (<["user:2" := "Jane Smith"]> (<["user:1" := "John Doe"]> ∅))
           "user:1" "John Doe").
  - apply mainStore_holds.
  - reflexivity.
Defined.

(** X14: opening the file of a database again gives an empty database.
    The header still says "PAGES=0" (no call of [Database] ever writes a
    page above the count), so the page count is read as 0, [ReadPage(1)]
    fails, and [NewBPlusTree] allocates page 1 anew and writes an empty root
    leaf over the old one: [Get] of every id returns a nil record. *)
Theorem OpenDatabase_again_forgets_the_records `{MapRange}
    (h : TextFileHandler) (m : gmap string string) :
  holdsDB h m ->
  exists h',
    Database.OpenDatabase (Some (File h)) = (Ok newDatabase, Some h')
    /\ holdsDB h' ∅
    /\ PageCount h' = 1
    /\ forall ID, Database.Get newDatabase ID h' = (Ok None, h').
Proof.
  intros Hdb. destruct (Reopen_spec h m Hdb) as (h' & Hopen & Hdb' & Hc).
  exists h'. split; [exact Hopen|]. split; [exact Hdb'|]. split; [exact Hc|].
  intros ID. rewrite (Get_spec h' ∅ ID Hdb'), lookup_empty. reflexivity.
Qed.

Lemma OpenDatabase_again_forgets_the_records_witness :
  exists h',
    Database.OpenDatabase (H := canonicalRange) (Some (File mainStore))
    = (Ok newDatabase, Some h')
    /\ holdsDB (H := canonicalRange) h' ∅
    /\ PageCount h' = 1
    /\ forall ID, Database.Get newDatabase ID h' = (Ok None, h').
Proof.
  apply (OpenDatabase_again_forgets_the_records (H := canonicalRange) mainStore
           (<["user:2" := "Jane Smith"]> (<["user:1" := "John Doe"]> ∅))).
  apply mainStore_holds.
Defined.

(** X15: of the records inserted one after the other into a new database,
    with ids that differ, every [Insert] returns a nil error, yet [Get]
    afterwards finds the first three and none of the later ones. *)
Theorem a_new_database_keeps_the_first_three_records `{MapRange}
    (rs : list (string * string)) :
  NoDup (rs.*1) -> Forall wellFormedEntry rs ->
  Z.of_nat (length rs) + 2 < 2 ^ 32 ->
  let run := insertEach rs emptyTreeStore in
  fst run = map (fun _ => Ok tt) rs
  /\ forall (i : nat) ID d, rs !! i = Some (ID, d) ->
       Database.Get newDatabase ID (snd run)
       = (Ok (if decide (i < 3)%nat then Some (recordFor ID d) else None),
          snd run).
Proof.
  intros Hnd Hwf Hlen run.
  assert (Hfresh : Forall (fun r => (∅ : gmap string string) !! r.1 = None) rs)
    by (apply Forall_forall; intros r _; apply lookup_empty).
  assert (Hbound : PageCount emptyTreeStore + Z.of_nat (length rs) + 1 < 2 ^ 32)
    by (rewrite emptyTreeStore_eq; cbn [PageCount]; lia).
  split.
  - exact (insertEach_results rs emptyTreeStore ∅ holdsDB_new Hnd Hfresh Hwf Hbound).
  - intros i ID d Hi. unfold run. rewrite insertEach_insertAll.
    destruct (insertAll_holds rs emptyTreeStore ∅ holdsDB_new Hnd Hfresh Hwf Hbound)
      as [Hdb _].
    rewrite (Get_spec _ _ ID Hdb).
    rewrite (foldl_keepRecord_lookup rs ∅ i ID d Hnd Hfresh Hi).
    rewrite map_size_empty. cbn [Nat.add].
    destruct (decide (i < 3)%nat); reflexivity.
Qed.

Lemma a_new_database_keeps_the_first_three_records_witness :
  let run := insertEach (H := canonicalRange) (threeRecords ++ [("user:4", "Bob Ray")])
               (emptyTreeStore (H := canonicalRange)) in
  fst run = map (fun _ => Ok tt) (threeRecords ++ [("user:4", "Bob Ray")])
  /\ forall (i : nat) ID d,
       (threeRecords ++ [("user:4", "Bob Ray")]) !! i = Some (ID, d) ->
       Database.Get newDatabase ID (snd run)
       = (Ok (if decide (i < 3)%nat then Some (recordFor ID d) else None),
          snd run).
Proof.
  apply (a_new_database_keeps_the_first_three_records (H := canonicalRange)
           (threeRecords ++ [("user:4", "Bob Ray")])).
  - apply (bool_decide_unpack _). vm_compute. exact I.
  - apply Forall_app. split; [exact threeRecords_wellFormed|].
    constructor; [|constructor].
    split; [split; [split; [discriminate | split; [reflexivity | vm_compute; discriminate]]
                   | reflexivity]|].
    repeat split; try reflexivity. vm_compute. discriminate.
  - vm_compute. reflexivity.
Defined.

(** ** BTree.go: a key with a comma *)

(** X16: the keys of a node are stored joined by commas, so a key "a,b"
    inserted into the empty leaf is read back as the two keys "a" and "b"
    with one pointer.  After the insert, which returns a nil error, [Find]
    of the key itself returns (0, 0), [Find] of "a" returns the pointer
    inserted, and [Find] of "b" panics on the missing second pointer. *)
Theorem Find_after_a_key_with_a_comma `{MapRange} (h : TextFileHandler)
    (a b : string) (p e : Z) :
  holdsLeaf h [] -> plainKey a -> plainKey b -> a <> b -> pointerInRange (p, e) ->
  exists h',
    BPlusTree.Insert rootTree (a +:+ "," +:+ b) p e h = (Ok tt, h')
    /\ BPlusTree.Find rootTree (a +:+ "," +:+ b) h' = (Ok (0, 0), h')
    /\ BPlusTree.Find rootTree a h' = (Ok (p, e), h')
    /\ BPlusTree.Find rootTree b h' = (Panic, h').
Proof.
  intros Hleaf Ha Hb Hab [Hp He]. cbn [fst snd] in Hp, He.
  destruct (Insert_comma_key h a b p e Hleaf Ha Hb) as (h' & Hins & Hread).
  exists h'. split; [exact Hins|].
  unfold BPlusTree.Find, bind. cbn [RootPageID rootTree]. rewrite Hread.
  cbn [IsLeaf splitNode negb Keys Pointers BPlusTree.findIndex].
  split; [|split].
  - rewrite decide_False by apply comma_key_differs.
    rewrite decide_False by (apply comma_key_differs_r, plainKey_no_comma, Hb).
    reflexivity.
  - rewrite decide_True by reflexivity. cbn [lookup list_lookup].
    rewrite Split_pointer, !ParseUint32_FormatUint by assumption. reflexivity.
  - rewrite decide_False by exact Hab. rewrite decide_True by reflexivity.
    reflexivity.
Qed.

Lemma Find_after_a_key_with_a_comma_witness :
  exists h',
    BPlusTree.Insert (H := canonicalRange) rootTree ("x" +:+ "," +:+ "y") 11 1
      (emptyTreeStore (H := canonicalRange)) = (Ok tt, h')
    /\ BPlusTree.Find rootTree ("x" +:+ "," +:+ "y") h' = (Ok (0, 0), h')
    /\ BPlusTree.Find rootTree "x" h' = (Ok (11, 1), h')
    /\ BPlusTree.Find rootTree "y" h' = (Panic, h').
Proof.
  apply (Find_after_a_key_with_a_comma (H := canonicalRange)
           (emptyTreeStore (H := canonicalRange)) "x" "y" 11 1).
  - apply (emptyTree_holdsLeaf (H := canonicalRange)).
  - apply plainKey_letter. reflexivity.
  - apply plainKey_letter. reflexivity.
  - discriminate.
  - split; cbn; lia.
Defined.

(** ** FileHandler.go: the page count in the header *)

(** X17: on a store whose header shows its page count, [WritePage] of a
    page whose id is above the count and whose id line is nowhere in the
    file appends the page, takes the id as the new count and rewrites the
    line "PAGES=" of the header to it; [NewTextFileHandler] on the new file
    then reads that count. *)
Theorem WritePage_above_the_count_updates_the_header `{MapRange}
    (h : TextFileHandler) (p : Page) (size : Z) (free : option (list Z))
    (rest : string) :
  File h = headerText size (PageCount h) free +:+ rest ->
  0 <= PageCount h -> PageCount h < PageID (Header p) < uintMax ->
  Contains (File h) (PageIDMarker (PageID (Header p))) = false ->
  0 <= size < 2 ^ 63 ->
  match free with
  | Some ids => Forall (fun id => 0 <= id < uintMax) ids /\ (length ids <= 3000)%nat
  | None => True
  end ->
  sectionEnd rest ->
  let file' := headerText size (PageID (Header p)) free
               +:+ rest +:+ NL +:+ PageContent p in
  WritePage p h
  = (Ok tt, {| File := file'; PageSize := PageSize h;
               PageCount := PageID (Header p);
               DeallocatedPages := DeallocatedPages h |})
  /\ NewTextFileHandler (Some file')
     = Ok {| File := file'; PageSize := size; PageCount := PageID (Header p);
             DeallocatedPages := loadedFree free |}.
Proof.
  intros Hfile H0 Hid Hfree Hsize Hids Hrest file'. split.
  - unfold WritePage. rewrite (replacePage_absent _ _ _ Hfree).
    assert ((PageCount h <? PageID (Header p)) = true) as -> by (apply Z.ltb_lt; lia).
    f_equal. f_equal. rewrite Hfile, app_assoc. apply Replace1_count.
  - apply NewTextFileHandler_header; try assumption; [lia|].
    apply sectionEnd_appended. exact Hrest.
Qed.

Lemma WritePage_above_the_count_updates_the_header_witness :
  let file' := headerText 4096 3 None +:+ "" +:+ NL
               +:+ PageContent (H := canonicalRange) (recordOf 3 None) in
  WritePage (H := canonicalRange) (recordOf 3 None) newStore
  = (Ok tt, {| File := file'; PageSize := 4096; PageCount := 3;
               DeallocatedPages := [] |})
  /\ NewTextFileHandler (Some file')
     = Ok {| File := file'; PageSize := 4096; PageCount := 3;
             DeallocatedPages := loadedFree None |}.
Proof.
  apply (WritePage_above_the_count_updates_the_header (H := canonicalRange)
           newStore (recordOf 3 None) 4096 None "").
  - reflexivity.
  - vm_compute. discriminate.
  - vm_compute. split; reflexivity.
  - reflexivity.
  - lia.
  - exact I.
  - left. reflexivity.
Defined.

(** ** Database.go: a record that does not fit the buffer of the scanner *)

(** X18: [ReadPage] scans the file with the default buffer of
    [bufio.Scanner], 64 KiB.  [Insert] of a new id whose line "Entry-1:
    id|data" reaches that size succeeds and puts the key into the index,
    but [Get] of that id then fails with the error of the scanner: the
    record cannot be read back.  The records that were there before are
    still found. *)
Theorem Get_of_a_record_too_long_to_scan `{MapRange} (h : TextFileHandler)
    (m : gmap string string) (ID Data : string) :
  holdsDB h m -> recordKey ID -> hasByte NLc Data = false ->
  MaxScanTokenSize <= len ("Entry-1: " +:+ ID +:+ "|" +:+ Data) ->
  m !! ID = None -> (size m < 3)%nat -> PageCount h + 2 < 2 ^ 32 ->
  exists h',
    Database.Insert newDatabase ID Data h = (Ok tt, h')
    /\ Database.Get newDatabase ID h' = (Err ErrTooLong, h')
    /\ forall k d, k <> ID -> m !! k = Some d ->
         Database.Get newDatabase k h' = (Ok (Some (recordFor k d)), h').
Proof.
  intros Hdb Hkey HData Hlong. apply (Insert_long_record h m ID Data Hdb Hkey HData).
  unfold tooLong. apply Z.leb_le. exact Hlong.
Qed.

Lemma Get_of_a_record_too_long_to_scan_witness :
  exists h',
    Database.Insert (H := canonicalRange) newDatabase "user:3" (filler 65536) mainStore
    = (Ok tt, h')
    /\ Database.Get newDatabase "user:3" h' = (Err ErrTooLong, h')
    /\ forall k d, k <> "user:3" ->
         (<["user:2" := "Jane Smith"]> (<["user:1" := "John Doe"]> ∅)
            : gmap string string) !! k = Some d ->
         Database.Get newDatabase k h' = (Ok (Some (recordFor k d)), h').
Proof.
  apply (Get_of_a_record_too_long_to_scan (H := canonicalRange) mainStore
           (<["user:2" := "Jane Smith"]> (<["user:1" := "John Doe"]> ∅))
           "user:3" (filler 65536)).
  - apply mainStore_holds.
  - split; [split; [discriminate | split; [reflexivity | vm_compute; discriminate]]
           | reflexivity].
  - vm_compute. reflexivity.
  - vm_compute. discriminate.
  - reflexivity.
  - vm_compute. lia.
  - rewrite (proj2 mainStore_holds). lia.
Defined.

